(** * Towed-camera pipeline: import, telemetry loading, temporal matching, packaging

    A shallow embedding of [TowedCameraPipeline] (towed_camera.pipeline.py):
    the import phase ([_import], [_import_data_files], [_import_still_images],
    [_import_video_files], [_create_hard_link]) over a small file-system model,
    and the packaging phase ([_package]) with its telemetry loader and its
    exact / nearest matcher.

    Modelling conventions.
    - Strings are ASCII strings; paths are absolute and kept as their list of
      components (POSIX, case-sensitive matching of glob patterns).
    - A pandas [Timestamp] is its integer count of nanoseconds since the
      epoch, taken in [Z]; the bounds of the 64-bit representation are
      outside the model.  The missing value [NaT] is modelled where the name
      of a file yields it; the cells of the [FinalTime] column are taken not
      to be empty or words for a missing value, which pandas reads as [NaT]
      without an error.
    - Exceptions are the constructors of [exn]; a Python function that may
      raise returns a sum whose left injection is the exception raised.
    - Library calls whose result depends on file contents or on pandas
      ([read_csv], [to_datetime]) and the construction of the iFDO metadata
      object are the fields of the class [Externals]. *)

From Stdlib Require Import ZArith List String Ascii Bool Arith Lia.
Import ListNotations.

Local Open Scope string_scope.
Local Open Scope list_scope.

(** ** Python string operations used by the pipeline *)

Module PyStr.

(** [s.endswith(suf)] *)
Definition endswith (s suf : string) : bool :=
  let n := String.length s in
  let m := String.length suf in
  (m <=? n)%nat && String.eqb (substring (n - m) m s) suf.

(** [sub in s] *)
Fixpoint contains (sub s : string) : bool :=
  prefix sub s ||
  match s with
  | EmptyString => false
  | String _ s' => contains sub s'
  end.

(** [s.split(c)] for a one-character separator: never the empty list. *)
Fixpoint split (c : ascii) (s : string) : list string :=
  match s with
  | EmptyString => [EmptyString]
  | String a s' =>
      if Ascii.eqb a c then EmptyString :: split c s'
      else match split c s' with
           | seg :: rest => String a seg :: rest
           | [] => [String a EmptyString]
           end
  end.

(** [s.rfind(c)], [None] standing for -1. *)
Fixpoint rfind (c : ascii) (s : string) : option nat :=
  match s with
  | EmptyString => None
  | String a s' =>
      match rfind c s' with
      | Some i => Some (S i)
      | None => if Ascii.eqb a c then Some 0%nat else None
      end
  end.

(** [s.rsplit(c, 1)]: one element when [c] does not occur, two otherwise. *)
Definition rsplit1 (c : ascii) (s : string) : list string :=
  match rfind c s with
  | None => [s]
  | Some i => [substring 0 i s; substring (S i) (String.length s - S i) s]
  end.

Definition lower_ascii (a : ascii) : ascii :=
  let n := nat_of_ascii a in
  if (65 <=? n)%nat && (n <=? 90)%nat then ascii_of_nat (n + 32) else a.

(** [s.lower()] *)
Fixpoint lower (s : string) : string :=
  match s with
  | EmptyString => EmptyString
  | String a s' => String (lower_ascii a) (lower s')
  end.

(** [l[-1]] on a list of strings that is known to be non-empty. *)
Definition last_segment (l : list string) : string := List.last l "".

End PyStr.

(** ** Paths (pathlib) *)

Definition path := list string.

Fixpoint path_eqb (p q : path) : bool :=
  match p, q with
  | [], [] => true
  | a :: p', b :: q' => String.eqb a b && path_eqb p' q'
  | _, _ => false
  end.

(** [p / name] *)
Definition join (p : path) (name : string) : path := p ++ [name].

(** [p.name]; the root has the empty name. *)
Definition name_of (p : path) : string := List.last p "".

(** [p.parent]; the root is its own parent. *)
Definition parent (p : path) : path := List.removelast p.

(** Position of the dot that starts the suffix: the last dot of the name,
    when it is neither the first nor the last character. *)
Definition suffix_dot (name : string) : option nat :=
  match PyStr.rfind "." name with
  | Some i =>
      if (0 <? i)%nat && (i <? String.length name - 1)%nat then Some i else None
  | None => None
  end.

(** [p.suffix] *)
Definition suffix (p : path) : string :=
  let name := name_of p in
  match suffix_dot name with
  | Some i => substring i (String.length name - i) name
  | None => ""
  end.

(** [p.stem] *)
Definition stem (p : path) : string :=
  let name := name_of p in
  match suffix_dot name with
  | Some i => substring 0 i name
  | None => name
  end.

(** [q.relative_to(p)], for [q] below [p]. *)
Fixpoint relative_to (p q : path) : option path :=
  match p, q with
  | [], _ => Some q
  | a :: p', b :: q' => if String.eqb a b then relative_to p' q' else None
  | _ :: _, [] => None
  end.

(** [str(p).split("/")[-2]] for an absolute path: the text before the first
    slash is empty, so the list always has two elements or more. *)
Definition second_to_last (p : path) : string :=
  let parts := "" :: p in
  match p with
  | [] => ""
  | _ => nth (List.length parts - 2) parts ""
  end.

(** ** Timestamps *)

Definition ns_per_second : Z := 1000000000.

(** [.dt.floor("s")] on a nanosecond count. *)
Definition floor_s (t : Z) : Z := (t / ns_per_second * ns_per_second)%Z.

(** ** Exceptions *)

Inductive exn : Type :=
| ValueError
| EmptyDataError       (* pandas.errors.EmptyDataError, a ValueError *)
| ParserError          (* pandas.errors.ParserError, a ValueError *)
| OSError
| FileExistsError      (* an OSError *)
| KeyError
| IndexError
| NameError.

Definition exn_eqb (a b : exn) : bool :=
  match a, b with
  | ValueError, ValueError | EmptyDataError, EmptyDataError
  | ParserError, ParserError | OSError, OSError
  | FileExistsError, FileExistsError | KeyError, KeyError
  | IndexError, IndexError | NameError, NameError => true
  | _, _ => false
  end.

(** [isinstance(e, ValueError)] *)
Definition is_ValueError (e : exn) : bool :=
  match e with
  | ValueError | EmptyDataError | ParserError => true
  | _ => false
  end.

(** [isinstance(e, OSError)] *)
Definition is_OSError (e : exn) : bool :=
  match e with
  | OSError | FileExistsError => true
  | _ => false
  end.

(** ** File system

    An ordered table from absolute paths to nodes.  The order of the table is
    the order in which a directory scan ([glob], [iterdir], [rglob]) yields
    its entries.  A regular file carries its inode number, so that a hard link
    is a second path to the same inode. *)

Inductive node : Type :=
| Dir
| File (ino : nat).

Definition filesystem := list (path * node).

Definition is_file_node (n : node) : bool :=
  match n with File _ => true | Dir => false end.

(** The node at a path; the root always is a directory. *)
Definition lookup (fs : filesystem) (p : path) : option node :=
  match p with
  | [] => Some Dir
  | _ => option_map snd (find (fun e => path_eqb (fst e) p) fs)
  end.

(** [p.exists()] *)
Definition exists_ (fs : filesystem) (p : path) : bool :=
  match lookup fs p with Some _ => true | None => false end.

(** [p.is_dir()] *)
Definition is_dir (fs : filesystem) (p : path) : bool :=
  match lookup fs p with Some Dir => true | _ => false end.

(** The name under which [q] is an immediate child of [d], if it is one. *)
Definition child_name (d q : path) : option string :=
  match relative_to d q with
  | Some [name] => Some name
  | _ => None
  end.

(** The entries of directory [d], in scan order. *)
Fixpoint listing (fs : filesystem) (d : path) : list (string * node) :=
  match fs with
  | [] => []
  | (q, n) :: fs' =>
      match child_name d q with
      | Some name => (name, n) :: listing fs' d
      | None => listing fs' d
      end
  end.

(** [d.rglob("*")]: every entry strictly below [d], with its path relative
    to [d]. *)
Fixpoint rglob (fs : filesystem) (d : path) : list (path * path * node) :=
  match fs with
  | [] => []
  | (q, n) :: fs' =>
      match relative_to d q with
      | Some (c :: rel) => (q, c :: rel, n) :: rglob fs' d
      | _ => rglob fs' d
      end
  end.

(** [d.glob("*" + ext)], e.g. ["*.CSV"]: the names of [d] that end with
    [ext]. *)
Definition glob_ext (fs : filesystem) (d : path) (ext : string) : list string :=
  map fst (filter (fun e => PyStr.endswith (fst e) ext) (listing fs d)).

(** The pattern ["*TAG*.CSV"]: the name ends with [.CSV] and what precedes
    that ending contains [TAG]. *)
Definition matches_tag_csv (name : string) : bool :=
  PyStr.endswith name ".CSV" &&
  PyStr.contains "TAG" (substring 0 (String.length name - 4) name).

(** [d.glob("*TAG*.CSV")] *)
Definition glob_tag_csv (fs : filesystem) (d : path) : list path :=
  map (fun e => join d (fst e))
      (filter (fun e => matches_tag_csv (fst e)) (listing fs d)).

(** [p.mkdir(parents=True, exist_ok=True)], walking down from [pre]:
    a missing component is created, a directory is kept, a regular file in
    the way raises ([FileExistsError] at the last component,
    [NotADirectoryError] above it). *)
Fixpoint mkdir_from (pre : path) (rest : list string) (fs : filesystem)
  : exn + filesystem :=
  match rest with
  | [] => inr fs
  | c :: rest' =>
      let p := join pre c in
      match lookup fs p with
      | Some Dir => mkdir_from p rest' fs
      | Some (File _) =>
          inl (match rest' with [] => FileExistsError | _ => OSError end)
      | None => mkdir_from p rest' (fs ++ [(p, Dir)])
      end
  end.

Definition mkdir_parents (p : path) (fs : filesystem) : exn + filesystem :=
  mkdir_from [] p fs.

(** [os.link(src, dst)] *)
Inductive link_result : Type :=
| Linked (fs' : filesystem)
| LinkExists                 (* FileExistsError *)
| LinkOSError.               (* any other OSError *)

Definition os_link (fs : filesystem) (src dst : path) : link_result :=
  match lookup fs src with
  | None => LinkOSError                                (* ENOENT *)
  | Some n =>
      if negb (is_dir fs (parent dst)) then LinkOSError (* ENOENT, ENOTDIR *)
      else if exists_ fs dst then LinkExists            (* EEXIST *)
      else match n with
           | Dir => LinkOSError                         (* EPERM *)
           | File i => Linked (fs ++ [(dst, File i)])
           end
  end.

(** ** Import phase *)

Inductive log_entry : Type :=
| Debug_created (src dst : path)      (* "Created hard link: src -> dst" *)
| Warning_exists (dst : path)         (* "Destination file already exists" *)
| Exception_link (src : path)         (* "Failed to create hard link for src" *)
| Warning_no_tag (dir : path)         (* "No TAG CSV files found in dir" *)
| Warning_tag_failed (file : path) (e : exn).
                                      (* "Failed to process TAG CSV file" *)

(** [logger.warning] *)
Definition is_warning (l : log_entry) : bool :=
  match l with
  | Warning_exists _ | Warning_no_tag _ | Warning_tag_failed _ _ => true
  | _ => false
  end.

(** The state threaded through a run: the file system, the log written so
    far, and (ghost) the calls made to [_create_hard_link], which are the
    classification decisions of the run. *)
Record state : Type := mkState {
  files : filesystem;
  log : list log_entry;
  requests : list (path * path)
}.

Definition M (A : Type) : Type := state -> (exn + A) * state.

Definition ret {A} (a : A) : M A := fun st => (inr a, st).
Definition raise {A} (e : exn) : M A := fun st => (inl e, st).
Definition bind {A B} (m : M A) (k : A -> M B) : M B :=
  fun st =>
    match m st with
    | (inl e, st') => (inl e, st')
    | (inr a, st') => k a st'
    end.

Declare Scope py_scope.
Delimit Scope py_scope with py.
Notation "x <- m ;; k" := (bind m (fun x => k))
  (at level 61, m at next level, right associativity) : py_scope.
Notation "m ;; k" := (bind m (fun _ => k))
  (at level 61, right associativity) : py_scope.
Local Open Scope py_scope.

Definition get_files : M filesystem := fun st => (inr (files st), st).
Definition put_files (fs : filesystem) : M unit :=
  fun st => (inr tt, mkState fs (log st) (requests st)).
Definition emit (l : log_entry) : M unit :=
  fun st => (inr tt, mkState (files st) (log st ++ [l]) (requests st)).
Definition note_request (src dst : path) : M unit :=
  fun st => (inr tt, mkState (files st) (log st) (requests st ++ [(src, dst)])).

(** A [for] loop whose body may raise. *)
Fixpoint for_each {A} (l : list A) (body : A -> M unit) : M unit :=
  match l with
  | [] => ret tt
  | a :: l' => body a ;; for_each l' body
  end.

Definition mkdir (p : path) : M unit :=
  fs <- get_files ;;
  match mkdir_parents p fs with
  | inl e => raise e
  | inr fs' => put_files fs'
  end.

(** [_create_hard_link] *)
Definition _create_hard_link (dry_run : bool) (source_file dest_file : path)
  : M unit :=
  note_request source_file dest_file ;;
  if negb dry_run then
    fs <- get_files ;;
    match os_link fs source_file dest_file with
    | Linked fs' => put_files fs' ;; emit (Debug_created source_file dest_file)
    | LinkExists => emit (Warning_exists dest_file)
    | LinkOSError => emit (Exception_link source_file)
    end
  else ret tt.

(** The loop body of [_import_data_files]. *)
Definition data_entry (dry_run : bool) (source_dir dest_dir : path)
    (deployment_id : string) (name : string) : M unit :=
  if PyStr.endswith name (deployment_id ++ ".CSV") then
    _create_hard_link dry_run (join source_dir name) (join dest_dir name)
  else ret tt.

(** [_import_data_files] *)
Definition _import_data_files (dry_run : bool) (source_dir dest_dir : path)
    (deployment_id : string) : M unit :=
  fs <- get_files ;;
  if negb (exists_ fs source_dir) then ret tt
  else
    for_each (glob_ext fs source_dir ".CSV")
             (data_entry dry_run source_dir dest_dir deployment_id).

(** The loop body of [_import_still_images].  The method is declared
    [@staticmethod] and has no [self] parameter, so the reference to [self]
    raises [NameError]. *)
Definition still_entry (dest_dir : path) (name : string) : M unit :=
  let dest_file := join dest_dir name in
  raise NameError.

(** [_import_still_images] *)
Definition _import_still_images (source_dir dest_dir : path) : M unit :=
  fs <- get_files ;;
  if negb (exists_ fs source_dir) then ret tt
  else
    for_each (glob_ext fs source_dir ".JPG") (still_entry dest_dir).

(** [name_without_ext, _ = name.rsplit(".", 1)]: unpacking anything but two
    elements raises [ValueError]. *)
Definition unpack_base_ext (name : string) : exn + string :=
  match PyStr.rsplit1 "." name with
  | [base; _] => inr base
  | _ => inl ValueError
  end.

(** [source_dir.iterdir()]; scanning a regular file raises
    [NotADirectoryError]. *)
Definition iterdir (d : path) : M (list (string * node)) :=
  fs <- get_files ;;
  match lookup fs d with
  | Some (File _) => raise OSError
  | _ => ret (listing fs d)
  end.

(** The loop body of [_import_video_files]. *)
Definition video_entry (dry_run : bool) (source_dir dest_dir : path)
    (entry : string * node) : M unit :=
  let '(name, n) := entry in
  if is_file_node n then
    match unpack_base_ext name with
    | inl e => raise e
    | inr name_without_ext =>
        if PyStr.endswith name_without_ext "Z"
           && negb (PyStr.endswith name_without_ext "_Z")
        then _create_hard_link dry_run (join source_dir name) (join dest_dir name)
        else ret tt
    end
  else ret tt.

(** [_import_video_files] *)
Definition _import_video_files (dry_run : bool) (source_dir dest_dir : path)
  : M unit :=
  fs <- get_files ;;
  if negb (exists_ fs source_dir) then ret tt
  else
    entries <- iterdir source_dir ;;
    for_each entries (video_entry dry_run source_dir dest_dir).

(** [_import] *)
Definition _import (dry_run : bool) (data_dir source_path : path) : M unit :=
  mkdir (join data_dir "data") ;;
  mkdir (join data_dir "stills") ;;
  mkdir (join data_dir "video") ;;
  let deployment_id :=
    PyStr.last_segment (PyStr.split "_" (name_of (parent data_dir))) in
  _import_data_files dry_run (join source_path "data") (join data_dir "data")
                     deployment_id ;;
  _import_still_images (join source_path "stills") (join data_dir "stills") ;;
  _import_video_files dry_run (join source_path "video") (join data_dir "video").

Definition initial (fs : filesystem) : state := mkState fs [] [].

(** ** Packaging phase: telemetry table *)

(** What [pd.read_csv] returns: the column labels and the rows of cells, as
    text. *)
Record csv : Type := mkCsv {
  header : list string;
  body : list (list string)
}.

(** A telemetry record once loaded: its [FinalTime] and the row it came
    from, column by column. *)
Record record : Type := mkRecord {
  FinalTime : Z;
  row : list (string * string)
}.

Definition frame := list record.

(** The collaborators of the pipeline that are not part of it. *)
Class Externals : Type := {
  (** the iFDO metadata object *)
  metadata : Type;
  (** [pd.read_csv(file)] *)
  read_csv : path -> exn + csv;
  (** [pd.to_datetime(text, format=fmt)] on a text that is neither empty nor
      one of pandas' words for a missing value: nanoseconds since the epoch,
      or [None] when it raises [ValueError] *)
  to_datetime : string -> string -> option Z;
  (** lines 286-405 of [_package]: the metadata object built from the output
      path, the timestamp token and the matched record; it raises when a
      sensor column is missing or a value does not convert *)
  image_data : path -> string -> record -> exn + metadata
}.

Definition log_format : string := "%Y-%m-%d %H:%M:%S.%f".
Definition compact_format : string := "%Y%m%dT%H%M%SZ".

(** Position of a column label. *)
Fixpoint column_index (label : string) (labels : list string) : option nat :=
  match labels with
  | [] => None
  | l :: labels' =>
      if String.eqb l label then Some 0%nat
      else option_map S (column_index label labels')
  end.

Section Package.

Context {ext : Externals}.

(** [pd.to_datetime(column, format=...).dt.floor("s")], row by row:
    [None] when a cell does not parse. *)
Fixpoint floor_column (labels : list string) (idx : nat)
    (rows : list (list string)) : option frame :=
  match rows with
  | [] => Some []
  | cells :: rows' =>
      match to_datetime log_format (nth idx cells "") with
      | None => None
      | Some t =>
          match floor_column labels idx rows' with
          | None => None
          | Some df => Some (mkRecord (floor_s t) (combine labels cells) :: df)
          end
      end
  end.

(** The body of the [try] block. *)
Definition load_telemetry (tag_file : path) : exn + frame :=
  match read_csv tag_file with
  | inl e => inl e
  | inr c =>
      match column_index "FinalTime" (header c) with
      | None => inl KeyError
      | Some idx =>
          match floor_column (header c) idx (body c) with
          | None => inl ValueError
          | Some df => inr df
          end
      end
  end.

(** [except (EmptyDataError, ParserError, ValueError, OSError)] *)
Definition handled (e : exn) : bool := is_ValueError e || is_OSError e.

(** ** Temporal matcher *)

(** [Series.idxmin()]: the label of the first minimum, [None] on an empty
    series (where pandas raises [ValueError]). *)
Fixpoint idxmin (l : list Z) : option (nat * Z) :=
  match l with
  | [] => None
  | x :: l' =>
      match idxmin l' with
      | None => Some (0%nat, x)
      | Some (i, m) => if (x <=? m)%Z then Some (0%nat, x) else Some (S i, m)
      end
  end.

(** What [matching_row] holds: a [DataFrame] of the selected rows, or the
    [Series] of one row. *)
Inductive selection : Type :=
| Rows (rs : list record)
| Row (r : record).

(** Lines 268-276. *)
Definition matching_row (sfx : string) (target_datetime : Z) (df : frame)
  : exn + selection :=
  if String.eqb sfx ".jpg" then
    inr (Rows (filter (fun r => (FinalTime r =? target_datetime)%Z) df))
  else if String.eqb sfx ".mp4" then
    let time_diffs := map (fun r => Z.abs (FinalTime r - target_datetime)) df in
    match idxmin time_diffs with
    | None => inl ValueError
    | Some (i, _) =>
        match nth_error df i with
        | Some r => inr (Row r)
        | None => inl KeyError
        end
    end
  else inl ValueError.

(** Lines 278-284: [None] when [matching_row.empty]. *)
Definition first_row (m : selection) : option record :=
  match m with
  | Rows [] => None
  | Rows (r :: _) => Some r
  | Row r => Some r
  end.

(** The matcher: kind of asset, asset timestamp, table. *)
Definition match_ (sfx : string) (target_datetime : Z) (df : frame)
  : exn + option record :=
  match matching_row sfx target_datetime df with
  | inl e => inl e
  | inr m => inr (first_row m)
  end.

(** The value of [pd.to_datetime] on one text: a timestamp or the missing
    value. *)
Inductive timestamp : Type :=
| At (t : Z)
| NaT.

(** The texts that [pd.to_datetime] turns into [NaT] without looking at the
    format: the empty string and pandas' [nat_strings]. *)
Definition is_nat_string (text : string) : bool :=
  existsb (String.eqb text) [""; "NaT"; "nat"; "NAT"; "nan"; "NaN"; "NAN"].

(** [idxmin] on a non-empty series of missing values only: [ValueError] in
    pandas 3; earlier versions return [NaN], on which [.loc] raises
    [KeyError].  No statement below depends on which it is. *)
Definition all_missing : exn := ValueError.

(** Lines 268-276 when [target_datetime] is [NaT]: no [FinalTime] equals it,
    so the mask selects no row; every difference is missing, so [idxmin]
    raises. *)
Definition matching_row_nat (sfx : string) (df : frame) : exn + selection :=
  if String.eqb sfx ".jpg" then inr (Rows [])
  else if String.eqb sfx ".mp4" then
    match df with
    | [] => inl ValueError
    | _ :: _ => inl all_missing
    end
  else inl ValueError.

(** The matcher on what the file name gave. *)
Definition match_target (sfx : string) (target_datetime : timestamp)
    (df : frame) : exn + option record :=
  match target_datetime with
  | At t => match_ sfx t df
  | NaT =>
      match matching_row_nat sfx df with
      | inl e => inl e
      | inr m => inr (first_row m)
      end
  end.

(** ** Packaging mapper *)

Definition manifest_value : Type :=
  path * option (list metadata) * option record.

Definition manifest := list (path * manifest_value).

(** [data_mapping[key] = value] *)
Fixpoint dict_set (key : path) (v : manifest_value) (m : manifest) : manifest :=
  match m with
  | [] => [(key, v)]
  | (k, w) :: m' =>
      if path_eqb k key then (k, v) :: m' else (k, w) :: dict_set key v m'
  end.

Fixpoint dict_get (key : path) (m : manifest) : option manifest_value :=
  match m with
  | [] => None
  | (k, w) :: m' => if path_eqb k key then Some w else dict_get key m'
  end.

(** The condition of line 257. *)
Definition is_visual_asset (file_path : path) (n : node) : bool :=
  is_file_node n
  && (let sfx := PyStr.lower (suffix file_path) in
      String.eqb sfx ".jpg" || String.eqb sfx ".mp4")
  && negb (PyStr.contains "_THUMB" (name_of file_path))
  && negb (PyStr.contains "_OVERVIEW" (name_of file_path)).

(** Lines 264-265: the sixth underscore-delimited segment of the stem,
    parsed as a compact timestamp. *)
Definition target_of (file_path : path) : exn + (string * timestamp) :=
  match nth_error (PyStr.split "_" (stem file_path)) 5 with
  | None => inl IndexError
  | Some iso_timestamp =>
      if is_nat_string iso_timestamp then inr (iso_timestamp, NaT)
      else
        match to_datetime compact_format iso_timestamp with
        | None => inl ValueError
        | Some t => inr (iso_timestamp, At t)
        end
  end.

(** One iteration of the loop of line 250: the entry added to the
    manifest, if any. *)
Definition package_file (df : frame) (deployment_id : string)
    (entry : path * path * node) : exn + option (path * manifest_value) :=
  let '(file_path, rel, n) := entry in
  let output_file_path := deployment_id :: rel in
  if is_visual_asset file_path n then
    match target_of file_path with
    | inl e => inl e
    | inr (iso_timestamp, target_datetime) =>
        match match_target (PyStr.lower (suffix file_path)) target_datetime
                           df with
        | inl e => inl e
        | inr None => inr None
        | inr (Some r) =>
            match image_data output_file_path iso_timestamp r with
            | inl e => inl e
            | inr md => inr (Some (file_path, (output_file_path, Some [md], Some r)))
            end
        end
    end
  else if is_file_node n then
    inr (Some (file_path, (output_file_path, None, None)))
  else inr None.

Fixpoint package_loop (df : frame) (deployment_id : string)
    (entries : list (path * path * node)) (data_mapping : manifest)
  : exn + manifest :=
  match entries with
  | [] => inr data_mapping
  | entry :: entries' =>
      match package_file df deployment_id entry with
      | inl e => inl e
      | inr None => package_loop df deployment_id entries' data_mapping
      | inr (Some (k, v)) =>
          package_loop df deployment_id entries' (dict_set k v data_mapping)
      end
  end.

(** The log file the loader reads: [tag_files[0]]. *)
Definition selected_log (fs : filesystem) (data_dir : path) : option path :=
  List.head (glob_tag_csv fs (join data_dir "data")).

(** [_package]: the manifest or the exception raised, and the log. *)
Definition _package (fs : filesystem) (data_dir : path)
  : (exn + manifest) * list log_entry :=
  match selected_log fs data_dir with
  | None => (inr [], [Warning_no_tag (join data_dir "data")])
  | Some tag_file =>
      match load_telemetry tag_file with
      | inl e =>
          if handled e then (inr [], [Warning_tag_failed tag_file e])
          else (inl e, [])
      | inr sensor_data_df =>
          (package_loop sensor_data_df (second_to_last data_dir)
                        (rglob fs data_dir) [], [])
      end
  end.

End Package.

(** ** A reference instance of the collaborators

    Fixed-width readings of the two timestamp formats, on the proleptic
    Gregorian calendar, used to run the model on concrete file names and
    log cells. *)

Module Reference.

Definition digit (a : ascii) : option Z :=
  let n := nat_of_ascii a in
  if (48 <=? n)%nat && (n <=? 57)%nat then Some (Z.of_nat (n - 48)) else None.

Fixpoint number_from (acc : Z) (s : string) : option Z :=
  match s with
  | EmptyString => Some acc
  | String a s' =>
      match digit a with
      | Some d => number_from (acc * 10 + d) s'
      | None => None
      end
  end.

(** A non-empty run of decimal digits. *)
Definition number (s : string) : option Z :=
  match s with
  | EmptyString => None
  | _ => number_from 0 s
  end.

Definition is_leap (y : Z) : bool :=
  ((y mod 4 =? 0) && negb (y mod 100 =? 0) || (y mod 400 =? 0))%Z.

Definition days_in_month (y m : Z) : Z :=
  if (m =? 2)%Z then (if is_leap y then 29 else 28)%Z
  else if ((m =? 4) || (m =? 6) || (m =? 9) || (m =? 11))%Z then 30%Z
  else 31%Z.

(** Days from 1970-01-01 to the civil date [y]-[m]-[d]. *)
Definition days_from_civil (y m d : Z) : Z :=
  let y' := (if m <=? 2 then y - 1 else y)%Z in
  let era := (y' / 400)%Z in
  let yoe := (y' - era * 400)%Z in
  let mp := (if 2 <? m then m - 3 else m + 9)%Z in
  let doy := ((153 * mp + 2) / 5 + d - 1)%Z in
  let doe := (yoe * 365 + yoe / 4 - yoe / 100 + doy)%Z in
  (era * 146097 + doe - 719468)%Z.

Definition timestamp (y m d hh mm ss ns : Z) : option Z :=
  if ((1 <=? m) && (m <=? 12) && (1 <=? d) && (d <=? days_in_month y m)
      && (hh <? 24) && (mm <? 60) && (ss <? 60))%Z
  then Some (((days_from_civil y m d * 86400 + hh * 3600 + mm * 60 + ss)
              * ns_per_second + ns)%Z)
  else None.

Definition field (s : string) (start len : nat) : option Z :=
  number (substring start len s).

Definition char_at (s : string) (i : nat) (c : string) : bool :=
  String.eqb (substring i 1 s) c.

(** [YYYYMMDDTHHMMSSZ] *)
Definition parse_compact (s : string) : option Z :=
  if (String.length s =? 16)%nat && char_at s 8 "T" && char_at s 15 "Z" then
    match field s 0 4, field s 4 2, field s 6 2,
          field s 9 2, field s 11 2, field s 13 2 with
    | Some y, Some m, Some d, Some hh, Some mm, Some ss =>
        timestamp y m d hh mm ss 0
    | _, _, _, _, _, _ => None
    end
  else None.

(** [YYYY-MM-DD HH:MM:SS.f] with one to six digits of fraction. *)
Definition parse_log (s : string) : option Z :=
  let k := (String.length s - 20)%nat in
  if (21 <=? String.length s)%nat && (String.length s <=? 26)%nat
     && char_at s 4 "-" && char_at s 7 "-" && char_at s 10 " "
     && char_at s 13 ":" && char_at s 16 ":" && char_at s 19 "."
  then
    match field s 0 4, field s 5 2, field s 8 2,
          field s 11 2, field s 14 2, field s 17 2, field s 20 k with
    | Some y, Some m, Some d, Some hh, Some mm, Some ss, Some f =>
        timestamp y m d hh mm ss (f * 10 ^ (Z.of_nat (6 - k)) * 1000)
    | _, _, _, _, _, _, _ => None
    end
  else None.

Definition parse (fmt text : string) : option Z :=
  if String.eqb fmt compact_format then parse_compact text
  else if String.eqb fmt log_format then parse_log text
  else None.

Fixpoint cell (label : string) (r : list (string * string)) : option string :=
  match r with
  | [] => None
  | (l, v) :: r' => if String.eqb l label then Some v else cell label r'
  end.

(** The sensor columns read into the metadata object, by label; a missing
    label raises [KeyError]. *)
Definition sensor_columns (out : path) (iso : string) (r : record)
  : exn + list string :=
  match cell "UsblLatitude" (row r), cell "UsblLongitude" (row r),
        cell "Pres" (row r), cell "Pitch" (row r), cell "Roll" (row r) with
  | Some lat, Some lon, Some pres, Some pitch, Some roll =>
      inr [iso; lat; lon; pres; pitch; roll]
  | _, _, _, _, _ => inl KeyError
  end.

(** The collaborators over a given content of the log files. *)
Definition externals (contents : path -> exn + csv) : Externals :=
  {| metadata := list string;
     read_csv := contents;
     to_datetime := parse;
     image_data := sensor_columns |}.

End Reference.

(** ** Example inputs *)

Module Examples.

Definition columns : list string :=
  ["FinalTime"; "UsblLatitude"; "UsblLongitude"; "Pres"; "Pitch"; "Roll"].

Definition cells (time : string) : list string :=
  [time; "-44.2"; "147.1"; "1020.5"; "1.5"; "-0.5"].

(** A log with samples at seconds 10, 20 and 30 of 12:00 on 2018-11-20. *)
Definition tag_csv : csv :=
  mkCsv columns
        [cells "2018-11-20 12:00:10.250000";
         cells "2018-11-20 12:00:20.900000";
         cells "2018-11-20 12:00:30.000000"].

Definition contents (_ : path) : exn + csv := inr tag_csv.

Definition ext : Externals := Reference.externals contents.

Definition data_dir : path := ["collections"; "IN2018_V06_001"; "data"].
Definition source_path : path := ["mnt"; "survey"].

Definition still_20 : string := "MRITC_DSP_IN2018_V06_001_20181120T120020Z_0001.JPG".
Definition still_25 : string := "MRITC_DSP_IN2018_V06_001_20181120T120025Z_0002.JPG".
Definition video_24 : string := "MRITC_SVY_IN2018_V06_001_20181120T120024Z.MP4".

(** A populated data directory. *)
Definition packaged : filesystem :=
  [ (["collections"], Dir);
    (["collections"; "IN2018_V06_001"], Dir);
    (data_dir, Dir);
    (join data_dir "data", Dir);
    (join (join data_dir "data") "IN2018_V06_TAG_001.CSV", File 1);
    (join data_dir "stills", Dir);
    (join (join data_dir "stills") still_20, File 2);
    (join (join data_dir "stills") still_25, File 3);
    (join data_dir "video", Dir);
    (join (join data_dir "video") video_24, File 4) ].

(** The same directory with a still image that does not follow the naming
    convention, scanned before the others. *)
Definition with_photo1 : filesystem :=
  [ (data_dir, Dir);
    (join data_dir "data", Dir);
    (join (join data_dir "data") "IN2018_V06_TAG_001.CSV", File 1);
    (join data_dir "stills", Dir);
    (join (join data_dir "stills") "photo1.JPG", File 5);
    (join (join data_dir "stills") still_20, File 2) ].

(** A still image and a video segment whose sixth segment is a word for a
    missing value and the empty string. *)
Definition still_nan : string := "MRITC_DSP_IN2018_V06_001_nan_0009.JPG".
Definition video_nan : string := "MRITC_SVY_IN2018_V06_001_.MP4".

Definition with_nan_still : filesystem :=
  [ (data_dir, Dir);
    (join data_dir "data", Dir);
    (join (join data_dir "data") "IN2018_V06_TAG_001.CSV", File 1);
    (join data_dir "stills", Dir);
    (join (join data_dir "stills") still_nan, File 8);
    (join (join data_dir "stills") still_20, File 2) ].

Definition with_nan_video : filesystem :=
  [ (data_dir, Dir);
    (join data_dir "data", Dir);
    (join (join data_dir "data") "IN2018_V06_TAG_001.CSV", File 1);
    (join data_dir "video", Dir);
    (join (join data_dir "video") video_nan, File 9) ].

(** A data directory whose first tagged log belongs to another deployment. *)
Definition foreign_log : filesystem :=
  [ (data_dir, Dir);
    (join data_dir "data", Dir);
    (join (join data_dir "data") "IN2018_V06_TAG_999.CSV", File 7);
    (join (join data_dir "data") "IN2018_V06_TAG_001.CSV", File 1) ].

(** The telemetry table loaded from [tag_csv]. *)
Definition table : frame :=
  Eval vm_compute in
    match @load_telemetry ext (join (join data_dir "data") "IN2018_V06_TAG_001.CSV") with
    | inr df => df
    | inl _ => []
    end.

(** A survey source with one log and one video segment. *)
Definition source_tree : filesystem :=
  [ (["mnt"], Dir);
    (source_path, Dir);
    (join source_path "data", Dir);
    (join (join source_path "data") "IN2018_V06_TAG_001.CSV", File 1);
    (join source_path "video", Dir);
    (join (join source_path "video") video_24, File 4) ].

(** The same source with a still image. *)
Definition source_with_still : filesystem :=
  source_tree ++
  [ (join source_path "stills", Dir);
    (join (join source_path "stills") still_20, File 2) ].

(** A video directory with a file whose name has no dot. *)
Definition source_with_dotless : filesystem :=
  [ (source_path, Dir);
    (join source_path "video", Dir);
    (join (join source_path "video") "README", File 9);
    (join (join source_path "video") video_24, File 4) ].

End Examples.

(** ** Processing phase *)

(** The image collaborator ([marimba.lib.image]): each call leaves a file
    system and may raise. *)
Class ImageLib : Type := {
  (** [image.resize_fit(jpg, 300, 300, output_path)] *)
  resize_fit : path -> path -> filesystem -> option exn * filesystem;
  (** [image.create_grid_image(thumb_list, overview_path)] *)
  create_grid_image : list path -> path -> filesystem -> option exn * filesystem
}.

Inductive process_log : Type :=
| Info_thumbnail (output_path : path)   (* "Generating thumbnail image" *)
| Exception_thumbnail (name : string) (e : exn)
                                        (* "Error creating thumbnail for" *)
| Info_overview (overview_path : path)  (* "Creating thumbnail overview image" *)
| Exception_overview (e : exn).         (* "Error creating overview image" *)

Record process_state : Type := mkProcess {
  p_files : filesystem;
  p_log : list process_log
}.

(** [p.mkdir(exist_ok=True)]: the parent must be there. *)
Definition mkdir_exist_ok (p : path) (fs : filesystem) : exn + filesystem :=
  match lookup fs p with
  | Some Dir => inr fs
  | Some (File _) => inl FileExistsError
  | None =>
      if is_dir fs (parent p) then inr (fs ++ [(p, Dir)]) else inl OSError
  end.

(** The pattern ["*.[jJ][pP][gG]"]: the last four characters are a dot and
    the letters j, p, g in either case. *)
Definition matches_jpg (name : string) : bool :=
  PyStr.endswith (PyStr.lower name) ".jpg".

Definition glob_jpg (fs : filesystem) (d : path) : list string :=
  map fst (filter (fun e => matches_jpg (fst e)) (listing fs d)).

(** [f"{jpg.stem}_THUMB{jpg.suffix}"] *)
Definition thumbnail_name (jpg : path) : string :=
  (stem jpg ++ "_THUMB" ++ suffix jpg)%string.

(** [data_dir / f"{data_dir.parent.name}_OVERVIEW.JPG"] *)
Definition overview_path (data_dir : path) : path :=
  join data_dir (name_of (parent data_dir) ++ "_OVERVIEW.JPG")%string.

Section Process.

Context {img : ImageLib}.

(** One iteration of the loop of line 196, on the state and [thumb_list]. *)
Definition process_still (stills thumbs : path)
    (acc : process_state * list path) (name : string)
  : process_state * list path :=
  let '(st, thumb_list) := acc in
  let jpg := join stills name in
  let output_path := join thumbs (thumbnail_name jpg) in
  let log1 := p_log st ++ [Info_thumbnail output_path] in
  match resize_fit jpg output_path (p_files st) with
  | (None, fs') =>
      (mkProcess fs' log1,
       if PyStr.contains "SCP" name then thumb_list ++ [output_path]
       else thumb_list)
  | (Some e, fs') =>
      (mkProcess fs' (log1 ++ [Exception_thumbnail name e]), thumb_list)
  end.

(** [_process] *)
Definition _process (data_dir : path) (st : process_state)
  : (exn + unit) * process_state :=
  let stills := join data_dir "stills" in
  let thumbs := join data_dir "thumbnails" in
  match mkdir_exist_ok thumbs (p_files st) with
  | inl e => (inl e, st)
  | inr fs1 =>
      let st1 := mkProcess fs1 (p_log st) in
      let '(st2, thumb_list) :=
        if exists_ fs1 stills
        then fold_left (process_still stills thumbs) (glob_jpg fs1 stills)
                       (st1, [])
        else (st1, []) in
      match thumb_list with
      | [] => (inr tt, st2)
      | _ :: _ =>
          let log1 := p_log st2 ++ [Info_overview (overview_path data_dir)] in
          match create_grid_image thumb_list (overview_path data_dir)
                                  (p_files st2) with
          | (None, fs') => (inr tt, mkProcess fs' log1)
          | (Some e, fs') =>
              (inr tt, mkProcess fs' (log1 ++ [Exception_overview e]))
          end
      end
  end.

End Process.

(** The thumbnails that a log says were attempted. *)
Definition attempted (l : list process_log) : list path :=
  flat_map (fun e => match e with
                     | Info_thumbnail p => [p]
                     | _ => []
                     end) l.

Definition is_overview_line (e : process_log) : bool :=
  match e with
  | Info_overview _ | Exception_overview _ => true
  | _ => false
  end.

(** The thumbnail path for the still image [name] of [stills]. *)
Definition thumbnail_of (stills thumbs : path) (name : string) : path :=
  join thumbs (thumbnail_name (join stills name)).

(** ** Example inputs of the processing phase *)

Module MoreExamples.

Import Examples.

(** An image collaborator that fails on names with BAD and otherwise writes
    its output file. *)
Definition write (out : path) (ino : nat) (fs : filesystem) : filesystem :=
  if exists_ fs out then fs else fs ++ [(out, File ino)].

Definition painter : ImageLib :=
  {| resize_fit := fun jpg out fs =>
       if PyStr.contains "BAD" (name_of jpg) then (Some OSError, fs)
       else (None, write out 100 fs);
     create_grid_image := fun _ out fs => (None, write out 101 fs) |}.

Definition still_scp : string := "MRITC_SCP_IN2018_V06_001_20181120T120030Z_0003.JPG".
Definition still_bad : string := "BAD.jpg".

(** The populated data directory with one more still image. *)
Definition with_scp : filesystem :=
  packaged ++ [ (join (join data_dir "stills") still_scp, File 5) ].

(** The same with a still image that the collaborator cannot read, scanned
    first. *)
Definition with_bad : filesystem :=
  (join (join data_dir "stills") still_bad, File 6) :: with_scp.

(** The file system left by [_process] on [with_scp]. *)
Definition processed : filesystem :=
  Eval vm_compute in
    p_files (snd (@_process painter data_dir (mkProcess with_scp []))).

(** A log without the time column, and a log without rows. *)
Definition no_time_column (_ : path) : exn + csv :=
  inr (mkCsv ["Time"; "Pres"] [["2018-11-20 12:00:10.250000"; "1020.5"]]).

Definition header_only (_ : path) : exn + csv := inr (mkCsv columns []).

End MoreExamples.

(** ** Vocabulary of the import properties *)

(** The regular files of a file system, in scan order. *)
Definition regular_files (fs : filesystem) : filesystem :=
  filter (fun e => is_file_node (snd e)) fs.

(** The second file system is the first with directories added at the end. *)
Definition only_dirs_added (fs fs' : filesystem) : Prop :=
  exists dirs, fs' = fs ++ dirs /\ Forall (fun e => snd e = Dir) dirs.

(** An entry two levels below [data_dir]: a file of a destination bucket. *)
Definition in_bucket (data_dir : path) (e : path * node) : Prop :=
  exists bucket name, fst e = data_dir ++ [bucket; name].

(** A dry state and a state of the run that links: the same calls to
    [_create_hard_link] so far, and the same files but for the links made. *)
Definition same_decisions (data_dir : path) (dry wet : state) : Prop :=
  requests dry = requests wet
  /\ exists links, files wet = files dry ++ links
                   /\ Forall (in_bucket data_dir) links.

(** The names of the three buckets of a deployment. *)
Definition bucket_names : list string := ["data"; "stills"; "video"].



(** A computation whose every exception is, with the state it is raised
    in, of a given kind. *)
Definition raises_with {A} (Q : exn -> state -> Prop) (m : M A) : Prop :=
  forall s e, fst (m s) = inl e -> Q e (snd (m s)).

(** What raises an exception that leaves the import, read in the state the
    import leaves: a destination directory that cannot be made, a regular
    file where the video directory of the source should be, a name that the
    still-image pattern yields, or a regular file of the video directory
    whose name has no dot. *)
Definition import_failure (data_dir source_path : path) (e : exn)
    (s : state) : Prop :=
  (is_OSError e = true
   /\ exists b, In b bucket_names
                /\ mkdir_parents (join data_dir b) (files s) = inl e)
  \/ (e = OSError
      /\ exists i, lookup (files s) (join source_path "video")
                   = Some (File i))
  \/ (e = NameError
      /\ glob_ext (files s) (join source_path "stills") ".JPG" <> [])
  \/ (e = ValueError
      /\ exists name i,
          In (name, File i) (listing (files s) (join source_path "video"))
          /\ PyStr.rfind "." name = None).


(** A computation every run of which moves the state along [R]. *)
Definition moves_along {A} (R : state -> state -> Prop) (m : M A) : Prop :=
  forall s, R s (snd (m s)).

(** The links that a log reports as created: source and destination. *)
Definition created (l : list log_entry) : list (path * path) :=
  flat_map (fun e => match e with
                     | Debug_created src dst => [(src, dst)]
                     | _ => []
                     end) l.

(** The lines that [_create_hard_link] writes. *)
Definition is_link_line (e : log_entry) : bool :=
  match e with
  | Debug_created _ _ | Warning_exists _ | Exception_link _ => true
  | _ => false
  end.

(** From [s] to [s'] the log and the file system only grew, and they grew
    together: the regular files added are the destinations of the links
    reported as created, in that order, and each of these destinations is a
    second path to the inode of its source. *)
Definition accounted (s s' : state) : Prop :=
  exists l more,
    log s' = log s ++ l
    /\ files s' = files s ++ more
    /\ map fst (regular_files more) = map snd (created l)
    /\ Forall (fun sd => exists i,
                   lookup (files s') (fst sd) = Some (File i)
                   /\ lookup (files s') (snd sd) = Some (File i))
              (created l)
    /\ forallb is_link_line l = true.

(** The entries of the video directory that [_import_video_files] links,
    when no name makes it raise. *)
Definition video_selected (entry : string * node) : bool :=
  is_file_node (snd entry)
  && match unpack_base_ext (fst entry) with
     | inr name_without_ext =>
         PyStr.endswith name_without_ext "Z"
         && negb (PyStr.endswith name_without_ext "_Z")
     | inl _ => false
     end.

(** The second file system is the first with entries added at the end. *)
Definition grows (f g : filesystem) : Prop := exists more, g = f ++ more.

(** The second file system is the first with regular files of the
    destination buckets added at the end. *)
Definition links_added (data_dir : path) (f g : filesystem) : Prop :=
  exists links,
    g = f ++ links
    /\ Forall (fun e => in_bucket data_dir e /\ is_file_node (snd e) = true)
              links.

(** A computation that adds only links and that, run again on what it left
    (or on that with more links), ends the same way and adds nothing. *)
Definition replays (data_dir : path) (m : M unit) : Prop :=
  forall a,
    links_added data_dir (files a) (files (snd (m a)))
    /\ forall G b,
        links_added data_dir (files (snd (m a))) G ->
        files b = G ->
        fst (m b) = fst (m a) /\ files (snd (m b)) = G.

(** A log line of a link that was not made. *)
Definition is_refusal (e : log_entry) : bool :=
  match e with
  | Warning_exists _ | Exception_link _ => true
  | _ => false
  end.

(** * Properties *)

(** ** The matcher *)

Section MatcherFacts.

Lemma idxmin_spec (l : list Z) (i : nat) (m : Z) :
  idxmin l = Some (i, m) ->
  nth_error l i = Some m
  /\ (forall j x, nth_error l j = Some x -> (m <= x)%Z)
  /\ (forall j x, (j < i)%nat -> nth_error l j = Some x -> (m < x)%Z).
Proof.
  revert i m. induction l as [|x l IH]; intros i m H; simpl in H.
  - discriminate.
  - destruct (idxmin l) as [[i' m']|] eqn:E.
    + destruct (IH i' m' eq_refl) as (Hn & Hall & Hlt).
      destruct (Z.leb_spec x m') as [Hle|Hgt]; inversion H; subst; clear H.
      * split; [reflexivity|]. split.
        -- intros [|j] y Hy; simpl in Hy.
           ++ inversion Hy; lia.
           ++ specialize (Hall j y Hy). lia.
        -- intros j y Hj; lia.
      * split; [exact Hn|]. split.
        -- intros [|j] y Hy; simpl in Hy.
           ++ inversion Hy; lia.
           ++ exact (Hall j y Hy).
        -- intros [|j] y Hj Hy; simpl in Hy.
           ++ inversion Hy; lia.
           ++ apply (Hlt j y); [lia|exact Hy].
    + inversion H; subst; clear H.
      destruct l as [|z l]; [|simpl in E; destruct (idxmin l) as [[? ?]|];
                               [destruct (z <=? z0)%Z|]; discriminate].
      split; [reflexivity|]. split.
      * intros [|[|j]] y Hy; simpl in Hy; inversion Hy; lia.
      * intros j y Hj; lia.
Qed.

Lemma idxmin_nonempty (l : list Z) :
  l <> [] -> exists i m, idxmin l = Some (i, m).
Proof.
  destruct l as [|x l]; [congruence|]. intros _. simpl.
  destruct (idxmin l) as [[i m]|]; [destruct (x <=? m)%Z|]; eauto.
Qed.

Lemma nth_error_map_some {A B} (f : A -> B) (l : list A) (i : nat) (b : B) :
  nth_error (map f l) i = Some b ->
  exists a, nth_error l i = Some a /\ b = f a.
Proof.
  revert i. induction l as [|a l IH]; intros [|i] H; simpl in *;
    try discriminate.
  - inversion H. eauto.
  - auto.
Qed.

(** The first element of a filtered list is the first element of the list
    that passes the test. *)
Lemma filter_head {A} (f : A -> bool) (l : list A) (a : A) (rest : list A) :
  filter f l = a :: rest ->
  f a = true
  /\ exists pre post, l = pre ++ a :: post
                      /\ Forall (fun x => f x = false) pre.
Proof.
  induction l as [|x l IH]; simpl; [discriminate|].
  destruct (f x) eqn:E; intro H.
  - inversion H; subst. split; [exact E|]. exists [], l. split; auto.
  - destruct (IH H) as (Ha & pre & post & -> & Hpre).
    split; [exact Ha|]. exists (x :: pre), post. split; auto.
Qed.

Lemma filter_nil {A} (f : A -> bool) (l : list A) :
  filter f l = [] <-> Forall (fun x => f x = false) l.
Proof.
  induction l as [|x l IH]; simpl.
  - split; auto.
  - destruct (f x) eqn:E; split; intro H.
    + discriminate.
    + inversion H; congruence.
    + constructor; [exact E|]. apply IH; exact H.
    + inversion H; subst. apply IH; assumption.
Qed.

End MatcherFacts.

Lemma floor_s_spec (t : Z) :
  (floor_s t <= t < floor_s t + ns_per_second)%Z
  /\ (floor_s t mod ns_per_second = 0)%Z.
Proof.
  unfold floor_s, ns_per_second. split.
  - pose proof (Z.div_mod t 1000000000 ltac:(lia)) as H.
    pose proof (Z.mod_pos_bound t 1000000000 ltac:(lia)). lia.
  - apply Z.mod_mul. lia.
Qed.

Section PackagingProperties.

Context {ext : Externals}.

(** C1. For a video (.mp4) asset whose file name carries a parseable
    timestamp and a non-empty telemetry table, the matcher returns a record:
    the one at the first position of the table that minimises the absolute
    difference between the record's floored timestamp and the asset
    timestamp.  With records at seconds 10, 20 and 30 and an asset at
    second 24 it is the record at second 20. *)
Theorem video_asset_gets_nearest_record :
  forall (file_path : path) (iso : string) (t : Z) (df : frame),
    PyStr.lower (suffix file_path) = ".mp4" ->
    target_of file_path = inr (iso, At t) ->
    df <> [] ->
    (exists i r,
        match_ (PyStr.lower (suffix file_path)) t df = inr (Some r)
        /\ nth_error df i = Some r
        /\ (forall j r', nth_error df j = Some r' ->
              (Z.abs (FinalTime r - t) <= Z.abs (FinalTime r' - t))%Z)
        /\ (forall j r', (j < i)%nat -> nth_error df j = Some r' ->
              (Z.abs (FinalTime r - t) < Z.abs (FinalTime r' - t))%Z))
    /\ (forall c10 c20 c30,
           match_ ".mp4" (24 * ns_per_second)
                  [mkRecord (10 * ns_per_second) c10;
                   mkRecord (20 * ns_per_second) c20;
                   mkRecord (30 * ns_per_second) c30]
           = inr (Some (mkRecord (20 * ns_per_second) c20))).
Proof.
  intros file_path iso t df Hsfx _ Hne. split; [|reflexivity].
  rewrite Hsfx. unfold match_, matching_row. simpl String.eqb.
  set (diffs := map (fun r => Z.abs (FinalTime r - t)) df).
  destruct (idxmin_nonempty diffs) as (i & m & Hmin).
  { unfold diffs. destruct df; [congruence|discriminate]. }
  rewrite Hmin.
  destruct (idxmin_spec _ _ _ Hmin) as (Hnth & Hall & Hlt).
  destruct (nth_error_map_some _ _ _ _ Hnth) as (r & Hr & Hm).
  rewrite Hr. exists i, r. repeat split; auto.
  - intros j r' Hj. rewrite <- Hm. apply (Hall j).
    unfold diffs. rewrite nth_error_map, Hj. reflexivity.
  - intros j r' Hji Hj. rewrite <- Hm. apply (Hlt j); [exact Hji|].
    unfold diffs. rewrite nth_error_map, Hj. reflexivity.
Qed.

(** C2. For a still image (.jpg) asset whose file name carries a parseable
    timestamp, the matcher selects exactly the records whose floored
    timestamp equals the asset timestamp and uses the first of them in
    table order; a record with another timestamp is never returned, and
    when no record has the asset timestamp there is no match. *)
Theorem still_asset_gets_exact_record :
  forall (file_path : path) (iso : string) (t : Z) (df : frame),
    PyStr.lower (suffix file_path) = ".jpg" ->
    target_of file_path = inr (iso, At t) ->
    matching_row (PyStr.lower (suffix file_path)) t df
    = inr (Rows (filter (fun r => (FinalTime r =? t)%Z) df))
    /\ (forall r,
           match_ (PyStr.lower (suffix file_path)) t df = inr (Some r)
           <-> exists pre post,
               df = pre ++ r :: post
               /\ FinalTime r = t
               /\ Forall (fun r' => FinalTime r' <> t) pre)
    /\ (match_ (PyStr.lower (suffix file_path)) t df = inr None
        <-> Forall (fun r => FinalTime r <> t) df)
    /\ (forall r,
           match_ (PyStr.lower (suffix file_path)) t df = inr (Some r) ->
           FinalTime r = t).
Proof.
  intros file_path iso t df Hsfx _. rewrite Hsfx.
  unfold match_, matching_row. simpl String.eqb.
  set (same := fun r : record => (FinalTime r =? t)%Z).
  assert (Hfalse : forall l, Forall (fun x => same x = false) l
                             <-> Forall (fun r' => FinalTime r' <> t) l).
  { intro l. split; intro H; (eapply Forall_impl; [|exact H]);
      intros a Ha; unfold same in *; lia. }
  split; [reflexivity|]. split; [|split].
  - intro r. split.
    + intro H. destruct (filter same df) as [|a rest] eqn:E; simpl in H;
        [discriminate|]. inversion H; subst a.
      destruct (filter_head _ _ _ _ E) as (Hr & pre & post & Hdf & Hpre).
      exists pre, post. split; [exact Hdf|]. split.
      * unfold same in Hr. lia.
      * apply Hfalse. exact Hpre.
    + intros (pre & post & -> & Hr & Hpre). rewrite filter_app.
      apply Hfalse in Hpre. apply filter_nil in Hpre. rewrite Hpre.
      simpl. unfold same at 1. rewrite (proj2 (Z.eqb_eq _ _) Hr). reflexivity.
  - split.
    + intro H. destruct (filter same df) as [|a rest] eqn:E; simpl in H;
        [|discriminate]. apply Hfalse. apply filter_nil. exact E.
    + intro H. apply Hfalse in H. apply filter_nil in H. rewrite H. reflexivity.
  - intros r H. destruct (filter same df) as [|a rest] eqn:E; simpl in H;
      [discriminate|]. inversion H; subst a.
    destruct (filter_head _ _ _ _ E) as (Hr & _). unfold same in Hr. lia.
Qed.

Lemma floor_column_spec (labels : list string) (idx : nat)
    (rows : list (list string)) (df : frame) :
  floor_column labels idx rows = Some df ->
  Forall2 (fun cells r =>
             exists t, to_datetime log_format (nth idx cells "") = Some t
                       /\ FinalTime r = floor_s t
                       /\ row r = combine labels cells) rows df.
Proof.
  revert df. induction rows as [|cells rows IH]; intros df H; simpl in H.
  - inversion H. constructor.
  - destruct (to_datetime log_format (nth idx cells "")) as [t|] eqn:Et;
      [|discriminate].
    destruct (floor_column labels idx rows) as [df'|]; [|discriminate].
    inversion H; subst. constructor; [|apply IH; reflexivity].
    exists t. auto.
Qed.

(** C7. Every timestamp of the loaded telemetry table is the floor to the
    whole second of the timestamp parsed from the log, and this table is the
    one handed to the matcher; 12:00:00.900000 becomes 12:00:00. *)
Theorem telemetry_timestamps_floored :
  forall (tag_file : path) (df : frame),
    load_telemetry tag_file = inr df ->
    (exists c idx,
        read_csv tag_file = inr c
        /\ column_index "FinalTime" (header c) = Some idx
        /\ Forall2 (fun cells r =>
                      exists t,
                        to_datetime log_format (nth idx cells "") = Some t
                        /\ FinalTime r = floor_s t
                        /\ (FinalTime r <= t < FinalTime r + ns_per_second)%Z
                        /\ (FinalTime r mod ns_per_second = 0)%Z)
                   (body c) df)
    /\ (forall fs data_dir,
           selected_log fs data_dir = Some tag_file ->
           fst (_package fs data_dir)
           = package_loop df (second_to_last data_dir) (rglob fs data_dir) [])
    /\ (exists t,
           Reference.parse log_format "2018-11-20 12:00:00.900000" = Some t
           /\ Reference.parse log_format "2018-11-20 12:00:00.000000"
              = Some (floor_s t)).
Proof.
  intros tag_file df H. unfold load_telemetry in H.
  destruct (read_csv tag_file) as [e|c] eqn:Ec; [discriminate|].
  destruct (column_index "FinalTime" (header c)) as [idx|] eqn:Ei;
    [|discriminate].
  destruct (floor_column (header c) idx (body c)) as [df'|] eqn:Ef;
    [|discriminate].
  inversion H; subst df'. split; [|split].
  - exists c, idx. split; [reflexivity|]. split; [exact Ei|].
    apply floor_column_spec in Ef.
    eapply Forall2_impl; [|exact Ef]. intros cells r (t & Ht & Hr & _).
    exists t. rewrite Hr. destruct (floor_s_spec t). auto.
  - intros fs data_dir Hsel. unfold _package. rewrite Hsel.
    unfold load_telemetry. rewrite Ec, Ei, Ef. reflexivity.
  - exists 1542715200900000000%Z. split; vm_compute; reflexivity.
Qed.

End PackagingProperties.

(** ** The loader and the mapper *)

Lemma path_eqb_eq (p q : path) : path_eqb p q = true <-> p = q.
Proof.
  revert q. induction p as [|a p IH]; intros [|b q]; simpl;
    try (split; [discriminate|congruence]).
  - split; reflexivity.
  - rewrite andb_true_iff, String.eqb_eq, IH. split.
    + intros [-> ->]. reflexivity.
    + intro H. inversion H. auto.
Qed.

Section MapperProperties.

Context {ext : Externals}.

Lemma column_index_none (label : string) (labels : list string) :
  column_index label labels = None <-> ~ In label labels.
Proof.
  induction labels as [|l labels IH]; simpl.
  - split; [intros _ []|reflexivity].
  - destruct (String.eqb_spec l label) as [->|Hne].
    + split; [discriminate|]. intro H. exfalso. apply H. left. reflexivity.
    + destruct (column_index label labels) as [i|]; simpl.
      * split; [discriminate|]. intro H. exfalso.
        assert (Hin : In label labels).
        { destruct (in_dec string_dec label labels) as [Hin|Hout];
            [exact Hin|]. apply IH in Hout. discriminate. }
        apply H. right. exact Hin.
      * split; [|reflexivity]. intros _ [Heq|Hin]; [congruence|].
        apply (proj1 IH eq_refl Hin).
Qed.

Lemma floor_column_fails (labels : list string) (idx : nat)
    (rows : list (list string)) (cells : list string) :
  In cells rows ->
  to_datetime log_format (nth idx cells "") = None ->
  floor_column labels idx rows = None.
Proof.
  induction rows as [|c rows IH]; intros Hin Hbad; simpl in *; [tauto|].
  destruct Hin as [->|Hin].
  - rewrite Hbad. reflexivity.
  - destruct (to_datetime log_format (nth idx c "")); [|reflexivity].
    rewrite (IH Hin Hbad). reflexivity.
Qed.

Lemma selected_log_none (fs : filesystem) (data_dir : path) :
  selected_log fs data_dir = None
  <-> Forall (fun e => matches_tag_csv (fst e) = false)
             (listing fs (join data_dir "data")).
Proof.
  unfold selected_log, glob_tag_csv.
  rewrite <- (filter_nil (fun e : string * node => matches_tag_csv (fst e))).
  destruct (filter _ (listing fs (join data_dir "data"))); simpl;
    split; congruence.
Qed.

(** C4, where the code departs from it. When the data directory holds no
    tagged log, or pandas cannot read the first tagged log as a table, or a
    cell of its [FinalTime] column, not empty and not a word for a missing
    value, does not parse under the log format, [_package] raises nothing: it returns the empty manifest and logs one
    warning.  When the first tagged log is a table without a [FinalTime]
    column, line 240 raises [KeyError], which the [except] clause of line
    243 does not list: [_package] raises it, returns no manifest and logs
    nothing. *)
Theorem unavailable_telemetry_gives_empty_manifest :
  forall (fs : filesystem) (data_dir : path),
    (((forall name n, In (name, n) (listing fs (join data_dir "data")) ->
                      matches_tag_csv name = false)
      \/ (exists tag_file e,
             selected_log fs data_dir = Some tag_file
             /\ read_csv tag_file = inl e
             /\ is_ValueError e = true)
      \/ (exists tag_file c idx cells,
             selected_log fs data_dir = Some tag_file
             /\ read_csv tag_file = inr c
             /\ column_index "FinalTime" (header c) = Some idx
             /\ In cells (body c)
             /\ is_nat_string (nth idx cells "") = false
             /\ to_datetime log_format (nth idx cells "") = None)) ->
     exists w, _package fs data_dir = (inr [], [w]) /\ is_warning w = true)
    /\ (forall tag_file c,
           selected_log fs data_dir = Some tag_file ->
           read_csv tag_file = inr c ->
           ~ In "FinalTime" (header c) ->
           load_telemetry tag_file = inl KeyError
           /\ handled KeyError = false
           /\ _package fs data_dir = (inl KeyError, [])).
Proof.
  intros fs data_dir. split.
  - intros [Hnone | [(tag & e & Hsel & Hread & He)
                    | (tag & c & idx & cells & Hsel & Hread & Hidx & Hin & _
                       & Hbad)]].
    + assert (Hsel : selected_log fs data_dir = None).
      { apply selected_log_none. apply Forall_forall. intros [name n] Hin.
        exact (Hnone name n Hin). }
      unfold _package. rewrite Hsel. eexists. split; reflexivity.
    + unfold _package, load_telemetry. rewrite Hsel, Hread.
      unfold handled. rewrite He. simpl. eexists. split; reflexivity.
    + unfold _package, load_telemetry. rewrite Hsel, Hread, Hidx.
      rewrite (floor_column_fails _ _ _ _ Hin Hbad). simpl.
      eexists. split; reflexivity.
  - intros tag_file c Hsel Hread Hcol. apply column_index_none in Hcol.
    assert (Hload : load_telemetry tag_file = inl KeyError)
      by (unfold load_telemetry; rewrite Hread, Hcol; reflexivity).
    split; [exact Hload|]. split; [reflexivity|].
    unfold _package. rewrite Hsel, Hload. reflexivity.
Qed.

(** C8, as the code has it. The log the loader reads is the first entry of
    the data directory, in scan order, whose name matches [*TAG*.CSV]; the
    deployment identifier takes no part in the selection. *)
Theorem loader_selects_first_tag_csv :
  forall (fs : filesystem) (data_dir : path),
    (forall p,
        selected_log fs data_dir = Some p
        <-> exists pre name n post,
            listing fs (join data_dir "data") = pre ++ (name, n) :: post
            /\ matches_tag_csv name = true
            /\ Forall (fun e => matches_tag_csv (fst e) = false) pre
            /\ p = join (join data_dir "data") name)
    /\ (selected_log fs data_dir = None
        <-> Forall (fun e => matches_tag_csv (fst e) = false)
                   (listing fs (join data_dir "data"))).
Proof.
  intros fs data_dir. split; [|apply selected_log_none].
  intro p. unfold selected_log, glob_tag_csv.
  set (test := fun e : string * node => matches_tag_csv (fst e)).
  set (l := listing fs (join data_dir "data")). split.
  - intro H. destruct (filter test l) as [|[name n] rest] eqn:E; simpl in H;
      [discriminate|]. inversion H; subst p.
    destruct (filter_head _ _ _ _ E) as (Ht & pre & post & Hl & Hpre).
    exists pre, name, n, post. auto.
  - intros (pre & name & n & post & Hl & Ht & Hpre & ->). rewrite Hl.
    rewrite filter_app. apply filter_nil in Hpre. fold test in Hpre.
    rewrite Hpre. simpl. unfold test at 1. simpl. rewrite Ht. reflexivity.
Qed.

Lemma package_loop_raises (df : frame) (dep : string)
    (entries : list (path * path * node)) (entry : path * path * node)
    (e0 : exn) :
  In entry entries ->
  package_file df dep entry = inl e0 ->
  forall m, exists e, package_loop df dep entries m = inl e.
Proof.
  induction entries as [|x entries IH]; intros Hin Hbad m; simpl in *;
    [tauto|].
  destruct Hin as [->|Hin].
  - rewrite Hbad. eauto.
  - destruct (package_file df dep x) as [e|[[k v]|]]; eauto.
Qed.

Lemma dict_get_set_other (k key : path) (v : manifest_value) (m : manifest) :
  k <> key -> dict_get key (dict_set k v m) = dict_get key m.
Proof.
  intro Hne. induction m as [|[k' w] m IH]; simpl.
  - destruct (path_eqb k key) eqn:E; [apply path_eqb_eq in E; congruence|].
    reflexivity.
  - destruct (path_eqb k' k) eqn:E1; simpl.
    + apply path_eqb_eq in E1. subst k'.
      destruct (path_eqb k key) eqn:E; [apply path_eqb_eq in E; congruence|].
      reflexivity.
    + destruct (path_eqb k' key); [reflexivity|exact IH].
Qed.

Lemma is_visual_asset_any_inode (file_path : path) (i j : nat) :
  is_visual_asset file_path (File i) = is_visual_asset file_path (File j).
Proof. reflexivity. Qed.

Lemma package_file_key (df : frame) (dep : string) (q rel : path) (n : node)
    (k : path) (v : manifest_value) :
  package_file df dep (q, rel, n) = inr (Some (k, v)) -> k = q.
Proof.
  unfold package_file. destruct (is_visual_asset q n).
  - destruct (target_of q) as [e|[iso t]]; [discriminate|].
    destruct (match_target _ t df) as [e|[r|]]; try discriminate.
    destruct (image_data _ iso r); [discriminate|].
    intro H; inversion H; reflexivity.
  - destruct (is_file_node n); [|discriminate].
    intro H; inversion H; reflexivity.
Qed.

(** C5, as the code has it. A still image whose timestamp matches no
    telemetry record adds nothing to the manifest: its iteration ends
    without an entry and without an error, and a manifest returned by
    [_package] has no entry for it. *)
Theorem unmatched_still_absent_from_manifest :
  forall (fs : filesystem) (data_dir tag_file : path) (df : frame)
         (file_path : path) (ino : nat) (iso : string) (t : Z),
    selected_log fs data_dir = Some tag_file ->
    load_telemetry tag_file = inr df ->
    is_visual_asset file_path (File ino) = true ->
    PyStr.lower (suffix file_path) = ".jpg" ->
    target_of file_path = inr (iso, At t) ->
    Forall (fun r => FinalTime r <> t) df ->
    match_ ".jpg" t df = inr None
    /\ (forall dep rel,
           package_file df dep (file_path, rel, File ino) = inr None)
    /\ (forall m,
           fst (_package fs data_dir) = inr m ->
           dict_get file_path m = None).
Proof.
  intros fs data_dir tag_file df file_path ino iso t Hsel Hload Hvis Hsfx
         Htarget Hnone.
  assert (Hmatch : match_ ".jpg" t df = inr None).
  { unfold match_, matching_row. simpl String.eqb.
    assert (E : filter (fun r => (FinalTime r =? t)%Z) df = []).
    { apply filter_nil. eapply Forall_impl; [|exact Hnone].
      intros a Ha. simpl in *. lia. }
    rewrite E. reflexivity. }
  assert (Hfile : forall dep rel i,
             package_file df dep (file_path, rel, File i) = inr None).
  { intros dep rel i. unfold package_file.
    rewrite (is_visual_asset_any_inode file_path i ino), Hvis, Htarget, Hsfx.
    cbn [match_target]. rewrite Hmatch. reflexivity. }
  split; [exact Hmatch|]. split; [intros; apply Hfile|].
  intros m Hm. unfold _package in Hm. rewrite Hsel, Hload in Hm.
  simpl in Hm.
  assert (Hloop : forall entries acc m',
             dict_get file_path acc = None ->
             package_loop df (second_to_last data_dir) entries acc = inr m' ->
             dict_get file_path m' = None).
  { induction entries as [|[[q rel] n] entries IH]; intros acc m' Hacc Hrun;
      cbn [package_loop] in Hrun.
    - inversion Hrun; subst; exact Hacc.
    - destruct (package_file df (second_to_last data_dir) (q, rel, n))
        as [e|[[k v]|]] eqn:E; [discriminate Hrun| |eauto].
      apply (IH (dict_set k v acc) m'); [|exact Hrun].
      rewrite dict_get_set_other; [exact Hacc|].
      apply package_file_key in E as Hk. subst k. intro Heq. subst q.
      destruct n as [|i].
      + unfold package_file in E. simpl in E. discriminate.
      + rewrite Hfile in E. discriminate. }
  apply (Hloop (rglob fs data_dir) [] m); [reflexivity|exact Hm].
Qed.

(** A file whose iteration adds nothing, whatever its inode, has no entry in
    what the loop returns. *)
Lemma package_loop_skips (df : frame) (dep : string) (file_path : path)
    (entries : list (path * path * node)) :
  (forall rel i, package_file df dep (file_path, rel, File i) = inr None) ->
  forall acc m,
    dict_get file_path acc = None ->
    package_loop df dep entries acc = inr m ->
    dict_get file_path m = None.
Proof.
  intro Hfile.
  induction entries as [|[[q rel] n] entries IH]; intros acc m Hacc Hrun;
    cbn [package_loop] in Hrun.
  - inversion Hrun; subst; exact Hacc.
  - destruct (package_file df dep (q, rel, n)) as [e|[[k v]|]] eqn:E;
      [discriminate Hrun| |eauto].
    apply (IH (dict_set k v acc) m); [|exact Hrun].
    rewrite dict_get_set_other; [exact Hacc|].
    apply package_file_key in E as Hk. subst k. intro Heq. subst q.
    destruct n as [|i].
    + unfold package_file in E. simpl in E. discriminate.
    + rewrite Hfile in E. discriminate.
Qed.

(** The sixth segment decides what line 265 gives. *)
Lemma target_of_NaT (file_path : path) (token : string) :
  nth_error (PyStr.split "_" (stem file_path)) 5 = Some token ->
  is_nat_string token = true ->
  target_of file_path = inr (token, NaT).
Proof. intros H Hn. unfold target_of. rewrite H, Hn. reflexivity. Qed.

(** C3, as the code has it. A visual asset whose stem has fewer than six
    underscore-delimited segments raises [IndexError], and one whose sixth
    segment is not a word for a missing value and is not a compact timestamp
    raises [ValueError]; [_package] catches neither and logs nothing, so the
    pass ends with an exception and returns no manifest.  A sixth segment
    that is empty or a word for a missing value gives [NaT] without an
    error: a still image so named matches no record, its iteration adds
    nothing and raises nothing, and no manifest that [_package] returns has
    an entry for it; a video so named makes the nearest-record step raise,
    and the pass ends with an exception.  In no case does the pass log
    anything. *)
Theorem malformed_asset_name_aborts_packaging :
  forall (fs : filesystem) (data_dir tag_file : path) (df : frame)
         (file_path rel : path) (n : node),
    selected_log fs data_dir = Some tag_file ->
    load_telemetry tag_file = inr df ->
    In (file_path, rel, n) (rglob fs data_dir) ->
    is_visual_asset file_path n = true ->
    (nth_error (PyStr.split "_" (stem file_path)) 5 = None ->
     package_file df (second_to_last data_dir) (file_path, rel, n)
     = inl IndexError
     /\ exists e, _package fs data_dir = (inl e, []))
    /\ (forall token,
           nth_error (PyStr.split "_" (stem file_path)) 5 = Some token ->
           is_nat_string token = false ->
           to_datetime compact_format token = None ->
           package_file df (second_to_last data_dir) (file_path, rel, n)
           = inl ValueError
           /\ exists e, _package fs data_dir = (inl e, []))
    /\ (forall token,
           nth_error (PyStr.split "_" (stem file_path)) 5 = Some token ->
           is_nat_string token = true ->
           target_of file_path = inr (token, NaT)
           /\ (PyStr.lower (suffix file_path) = ".jpg" ->
               package_file df (second_to_last data_dir) (file_path, rel, n)
               = inr None
               /\ forall m,
                   fst (_package fs data_dir) = inr m ->
                   dict_get file_path m = None)
           /\ (PyStr.lower (suffix file_path) = ".mp4" ->
               (exists e,
                   package_file df (second_to_last data_dir)
                     (file_path, rel, n) = inl e)
               /\ exists e, _package fs data_dir = (inl e, [])))
    /\ snd (_package fs data_dir) = [].
Proof.
  intros fs data_dir tag_file df file_path rel n Hsel Hload Hin Hvis.
  assert (Habort : forall e0,
             package_file df (second_to_last data_dir) (file_path, rel, n)
             = inl e0 ->
             exists e, _package fs data_dir = (inl e, [])).
  { intros e0 Hfail.
    destruct (package_loop_raises df _ _ _ e0 Hin Hfail []) as (e & He).
    exists e. unfold _package. rewrite Hsel, Hload, He. reflexivity. }
  split; [|split; [|split]];
    [| | |unfold _package; rewrite Hsel, Hload; reflexivity].
  - intro H.
    assert (Hfile : package_file df (second_to_last data_dir)
                      (file_path, rel, n) = inl IndexError).
    { unfold package_file, target_of. rewrite Hvis, H. reflexivity. }
    split; [exact Hfile|exact (Habort _ Hfile)].
  - intros token H Hn Hp.
    assert (Hfile : package_file df (second_to_last data_dir)
                      (file_path, rel, n) = inl ValueError).
    { unfold package_file, target_of. rewrite Hvis, H, Hn, Hp. reflexivity. }
    split; [exact Hfile|exact (Habort _ Hfile)].
  - intros token H Hn.
    pose proof (target_of_NaT file_path token H Hn) as Ht.
    split; [exact Ht|]. split.
    + intro Hsfx.
      assert (Hfile : forall dep rel' i,
                 package_file df dep (file_path, rel', File i) = inr None).
      { intros dep rel' i. unfold package_file.
        assert (Hv : is_visual_asset file_path (File i) = true).
        { destruct n as [|j]; [discriminate Hvis|exact Hvis]. }
        rewrite Hv, Ht, Hsfx. reflexivity. }
      split.
      * destruct n as [|j]; [discriminate Hvis|apply Hfile].
      * intros m Hm. unfold _package in Hm. rewrite Hsel, Hload in Hm.
        simpl in Hm.
        apply (package_loop_skips df (second_to_last data_dir) file_path
                 (rglob fs data_dir) (Hfile _) [] m); [reflexivity|exact Hm].
    + intro Hsfx.
      assert (Hfile : exists e,
                 package_file df (second_to_last data_dir)
                   (file_path, rel, n) = inl e).
      { unfold package_file. rewrite Hvis, Ht, Hsfx.
        destruct df; cbn; eauto. }
      split; [exact Hfile|]. destruct Hfile as (e0 & Hfile).
      exact (Habort _ Hfile).
Qed.

End MapperProperties.

(** ** The import phase *)

Section ImportProperties.

Lemma create_hard_link_returns (dry_run : bool) (src dst : path) (st : state) :
  exists st', _create_hard_link dry_run src dst st = (inr tt, st').
Proof.
  unfold _create_hard_link, bind, note_request, get_files, put_files, emit, ret.
  destruct dry_run; simpl; [eauto|].
  destruct (os_link _ src dst); simpl; eauto.
Qed.

(** [rfind] finds nothing exactly when the character does not occur. *)
Lemma rfind_none (c : ascii) (s : string) :
  PyStr.rfind c s = None <-> ~ In c (list_ascii_of_string s).
Proof.
  induction s as [|a s IH]; simpl.
  - split; [intros _ []|reflexivity].
  - destruct (PyStr.rfind c s) as [i|].
    + split; [discriminate|]. intro H. exfalso. apply H. right.
      destruct (in_dec ascii_dec c (list_ascii_of_string s)) as [Hin|Hout];
        [exact Hin|]. apply IH in Hout. discriminate.
    + destruct (Ascii.eqb_spec a c) as [->|Hne].
      * split; [discriminate|]. intro H. exfalso. apply H. left. reflexivity.
      * split; [|reflexivity]. intros _ [Heq|Hin]; [congruence|].
        apply (proj1 IH eq_refl Hin).
Qed.

Lemma unpack_base_ext_dotless (name : string) :
  PyStr.rfind "." name = None -> unpack_base_ext name = inl ValueError.
Proof.
  intro H. unfold unpack_base_ext, PyStr.rsplit1. rewrite H. reflexivity.
Qed.

Lemma unpack_base_ext_dotted (name : string) (i : nat) :
  PyStr.rfind "." name = Some i ->
  unpack_base_ext name = inr (substring 0 i name).
Proof.
  intro H. unfold unpack_base_ext, PyStr.rsplit1. rewrite H. reflexivity.
Qed.

(** An iteration of the video loop either completes or stops on a regular
    file whose name has no dot. *)
Lemma video_entry_outcome (dry_run : bool) (src dst : path)
    (entry : string * node) (st : state) :
  (exists st', video_entry dry_run src dst entry st = (inr tt, st'))
  \/ (video_entry dry_run src dst entry st = (inl ValueError, st)
      /\ is_file_node (snd entry) = true
      /\ PyStr.rfind "." (fst entry) = None).
Proof.
  destruct entry as [name n]. unfold video_entry.
  destruct (is_file_node n) eqn:En; [|left; eexists; reflexivity].
  destruct (PyStr.rfind "." name) as [i|] eqn:Ed.
  - left. rewrite (unpack_base_ext_dotted _ _ Ed).
    destruct (_ && _); [apply create_hard_link_returns|eexists; reflexivity].
  - right. rewrite (unpack_base_ext_dotless _ Ed). auto.
Qed.

Lemma video_loop_aborts (dry_run : bool) (src dst : path)
    (entries : list (string * node)) (name : string) (ino : nat) :
  In (name, File ino) entries ->
  PyStr.rfind "." name = None ->
  forall st,
  exists pre name' ino' post st',
    entries = pre ++ (name', File ino') :: post
    /\ PyStr.rfind "." name' = None
    /\ for_each pre (video_entry dry_run src dst) st = (inr tt, st')
    /\ for_each entries (video_entry dry_run src dst) st
       = (inl ValueError, st').
Proof.
  intros Hin Hdot. induction entries as [|x entries IH]; intro st;
    [destruct Hin|].
  destruct (video_entry_outcome dry_run src dst x st)
    as [(st1 & Hok) | (Hfail & Hfile & Hnodot)].
  - assert (Hin' : In (name, File ino) entries).
    { destruct Hin as [->|Hin]; [|exact Hin]. exfalso.
      unfold video_entry in Hok. simpl in Hok.
      rewrite (unpack_base_ext_dotless _ Hdot) in Hok. discriminate. }
    destruct (IH Hin' st1) as (pre & name' & ino' & post & st' & -> & Hd & Hpre & Hall).
    exists (x :: pre), name', ino', post, st'.
    repeat split; auto; cbn [for_each app]; unfold bind; rewrite Hok;
      assumption.
  - destruct x as [nm [|i]]; [discriminate|]. simpl in Hnodot.
    exists [], nm, i, entries, st. repeat split; auto.
    cbn [for_each]. unfold bind. rewrite Hfail. reflexivity.
Qed.

(** C10. When the video source directory holds a regular file whose name
    has no dot, [_import_video_files] raises [ValueError] from the
    unpacking of [name.rsplit(".", 1)]: the loop stops at the first such
    file in scan order, and nothing after it is examined. *)
Theorem video_import_aborts_on_dotless_name :
  forall (dry_run : bool) (source_dir dest_dir : path) (st : state)
         (name : string) (ino : nat),
    is_dir (files st) source_dir = true ->
    In (name, File ino) (listing (files st) source_dir) ->
    ~ In "."%char (list_ascii_of_string name) ->
    exists pre name' ino' post st',
      listing (files st) source_dir = pre ++ (name', File ino') :: post
      /\ ~ In "."%char (list_ascii_of_string name')
      /\ unpack_base_ext name' = inl ValueError
      /\ for_each pre (video_entry dry_run source_dir dest_dir) st
         = (inr tt, st')
      /\ _import_video_files dry_run source_dir dest_dir st
         = (inl ValueError, st').
Proof.
  intros dry_run source_dir dest_dir st name ino Hdir Hin Hdot.
  apply rfind_none in Hdot.
  destruct (video_loop_aborts dry_run source_dir dest_dir _ _ _ Hin Hdot st)
    as (pre & name' & ino' & post & st' & Hl & Hd & Hpre & Hall).
  exists pre, name', ino', post, st'.
  split; [exact Hl|]. split; [apply rfind_none; exact Hd|].
  split; [apply unpack_base_ext_dotless; exact Hd|]. split; [exact Hpre|].
  unfold is_dir in Hdir.
  destruct (lookup (files st) source_dir) as [[|i]|] eqn:E; try discriminate.
  unfold _import_video_files, iterdir, bind, get_files, ret, exists_.
  cbv beta iota. rewrite E. cbn [negb]. rewrite E. exact Hall.
Qed.

(** The still-image loop raises at the first name the pattern yields. *)
Lemma still_images_raise (source_dir dest_dir : path) (st : state) :
  exists_ (files st) source_dir = true ->
  glob_ext (files st) source_dir ".JPG" <> [] ->
  _import_still_images source_dir dest_dir st = (inl NameError, st).
Proof.
  intros Hex Hne. unfold _import_still_images, bind, get_files.
  rewrite Hex. simpl.
  destruct (glob_ext (files st) source_dir ".JPG"); [congruence|reflexivity].
Qed.

(** C9, at a source with a still image. Both the first and the second run
    of the import stop with [NameError] in [_import_still_images]; the
    second run warns about the log that is already linked, and the video
    segment is linked by neither run. *)
Theorem second_import_raises_on_still_image :
  let first := _import false Examples.data_dir Examples.source_path
                       (initial Examples.source_with_still) in
  let second := _import false Examples.data_dir Examples.source_path
                        (initial (files (snd first))) in
  fst first = inl NameError
  /\ fst second = inl NameError
  /\ files (snd second) = files (snd first)
  /\ log (snd second)
     = [Warning_exists
          (join (join Examples.data_dir "data") "IN2018_V06_TAG_001.CSV")]
  /\ exists_ (files (snd second))
             (join (join Examples.data_dir "video") Examples.video_24)
     = false.
Proof. vm_compute. repeat split. Qed.

End ImportProperties.

(** ** Facts about the string operations *)

Section StringFacts.

Lemma length_append (a b : string) :
  String.length (a ++ b) = (String.length a + String.length b)%nat.
Proof. induction a as [|c a IH]; simpl; [reflexivity|]. rewrite IH. reflexivity. Qed.

Lemma append_assoc (a b c : string) : ((a ++ b) ++ c = a ++ (b ++ c))%string.
Proof. induction a as [|x a IH]; simpl; [reflexivity|]. rewrite IH. reflexivity. Qed.

Lemma append_nil_r (a : string) : (a ++ "" = a)%string.
Proof. induction a as [|x a IH]; simpl; [reflexivity|]. rewrite IH. reflexivity. Qed.

Lemma substring_all (b : string) : substring 0 (String.length b) b = b.
Proof. induction b as [|c b IH]; simpl; [reflexivity|]. rewrite IH. reflexivity. Qed.

Lemma substring_append_right (a b : string) :
  substring (String.length a) (String.length b) (a ++ b) = b.
Proof. induction a as [|c a IH]; simpl; [apply substring_all|exact IH]. Qed.

Lemma substring_append_left (a b : string) :
  substring 0 (String.length a) (a ++ b) = a.
Proof.
  induction a as [|c a IH]; simpl.
  - destruct b; reflexivity.
  - rewrite IH. reflexivity.
Qed.

Lemma substring_split (k : nat) (s : string) :
  (k <= String.length s)%nat ->
  (substring 0 k s ++ substring k (String.length s - k) s)%string = s.
Proof.
  revert k. induction s as [|c s IH]; intros k Hk; simpl in *.
  - destruct k; [reflexivity|lia].
  - destruct k as [|k]; simpl.
    + rewrite substring_all. reflexivity.
    + rewrite IH; [reflexivity|lia].
Qed.

(** [endswith] holds exactly of the strings that end with the suffix. *)
Lemma endswith_iff (s suf : string) :
  PyStr.endswith s suf = true <-> exists p, s = (p ++ suf)%string.
Proof.
  unfold PyStr.endswith. split.
  - intro H. apply andb_true_iff in H. destruct H as [Hle Heq].
    apply Nat.leb_le in Hle. apply String.eqb_eq in Heq.
    exists (substring 0 (String.length s - String.length suf) s).
    pose proof (substring_split (String.length s - String.length suf) s
                  ltac:(lia)) as Hsp.
    replace (String.length s - (String.length s - String.length suf))%nat
      with (String.length suf) in Hsp by lia.
    rewrite Heq in Hsp. symmetry. exact Hsp.
  - intros (p & ->). rewrite length_append. apply andb_true_iff. split.
    + apply Nat.leb_le. lia.
    + replace (String.length p + String.length suf - String.length suf)%nat
        with (String.length p) by lia.
      rewrite substring_append_right. apply String.eqb_refl.
Qed.

Lemma list_ascii_of_string_append (a b : string) :
  list_ascii_of_string (a ++ b)
  = list_ascii_of_string a ++ list_ascii_of_string b.
Proof. induction a as [|c a IH]; simpl; [reflexivity|]. rewrite IH. reflexivity. Qed.

Lemma list_ascii_of_string_inj (a b : string) :
  list_ascii_of_string a = list_ascii_of_string b -> a = b.
Proof.
  intro H. rewrite <- (string_of_list_ascii_of_string a),
             <- (string_of_list_ascii_of_string b), H. reflexivity.
Qed.

Lemma append_cancel_char (a b : string) (c : ascii) :
  (a ++ String c "")%string = (b ++ String c "")%string -> a = b.
Proof.
  intro H. apply list_ascii_of_string_inj.
  apply (f_equal list_ascii_of_string) in H.
  rewrite !list_ascii_of_string_append in H. simpl in H.
  apply app_inj_tail in H. tauto.
Qed.

Lemma prefix_append (s b : string) : prefix s (s ++ b) = true.
Proof.
  induction s as [|c s IH]; simpl; [destruct b; reflexivity|].
  destruct (ascii_dec c c); [exact IH|congruence].
Qed.

(** [contains] finds the string wherever it occurs. *)
Lemma contains_append (sub a b : string) :
  PyStr.contains sub (a ++ sub ++ b) = true.
Proof.
  induction a as [|c a IH]; simpl.
  - pose proof (prefix_append sub b) as Hp.
    destruct (sub ++ b)%string; cbn [PyStr.contains]; rewrite Hp;
      reflexivity.
  - rewrite IH. apply orb_true_r.
Qed.

(** The last dot of [base.ext], when the extension has no dot. *)
Lemma rfind_dot_append (base ext : string) :
  ~ In "."%char (list_ascii_of_string ext) ->
  PyStr.rfind "." (base ++ String "." ext) = Some (String.length base).
Proof.
  intro Hext. apply rfind_none in Hext.
  induction base as [|c base IH]; simpl.
  - rewrite Hext. reflexivity.
  - simpl in IH. rewrite IH. reflexivity.
Qed.

Lemma unpack_base_ext_append (base ext : string) :
  ~ In "."%char (list_ascii_of_string ext) ->
  unpack_base_ext (base ++ String "." ext) = inr base.
Proof.
  intro Hext. rewrite (unpack_base_ext_dotted _ _ (rfind_dot_append _ _ Hext)).
  rewrite substring_append_left. reflexivity.
Qed.

End StringFacts.

Lemma lookup_app_existing (fs more : filesystem) (p : path) (n : node) :
  lookup fs p = Some n -> lookup (fs ++ more) p = Some n.
Proof.
  unfold lookup. destruct p as [|c p]; [auto|].
  induction fs as [|x fs IH]; simpl; [discriminate|].
  destruct (path_eqb (fst x) (c :: p)); [auto|exact IH].
Qed.

Lemma lookup_app_new (fs : filesystem) (p : path) (n : node) :
  exists_ fs p = false -> lookup (fs ++ [(p, n)]) p = Some n.
Proof.
  unfold exists_, lookup. destruct p as [|c p]; [discriminate|].
  induction fs as [|x fs IH]; cbn [app find fst option_map].
  - intros _. rewrite (proj2 (path_eqb_eq (c :: p) (c :: p)) eq_refl).
    reflexivity.
  - destruct (path_eqb (fst x) (c :: p)); [discriminate|exact IH].
Qed.

Lemma mkdir_run (p : path) (a : state) :
  mkdir p a
  = match mkdir_from [] p (files a) with
    | inl e => (inl e, a)
    | inr f' => (inr tt, mkState f' (log a) (requests a))
    end.
Proof.
  unfold mkdir, bind, get_files, put_files, raise, mkdir_parents.
  cbv beta iota. destruct (mkdir_from [] p (files a)); reflexivity.
Qed.

(** ** Dry run *)

Section MonadFacts.

Context {A B : Type} (R : state -> state -> Prop).


Hypothesis R_trans : forall s t u, R s t -> R t u -> R s u.

Lemma moves_along_bind (m : M A) (k : A -> M B) :
  moves_along R m -> (forall a, moves_along R (k a)) ->
  moves_along R (bind m k).
Proof.
  intros Hm Hk s. unfold bind. specialize (Hm s).
  destruct (m s) as [[e|a] t]; simpl in *; [exact Hm|].
  eapply R_trans; [exact Hm|apply Hk].
Qed.

End MonadFacts.



Lemma moves_along_for_each {A} (R : state -> state -> Prop) (l : list A)
    (b : A -> M unit) :
  (forall s, R s s) -> (forall s t u, R s t -> R t u -> R s u) ->
  (forall a, moves_along R (b a)) ->
  moves_along R (for_each l b).
Proof.
  intros Hrefl Htrans Hb. induction l as [|a l IH]; simpl.
  - intro s. apply Hrefl.
  - apply moves_along_bind; auto.
Qed.

Lemma relative_to_some (d q r : path) :
  relative_to d q = Some r -> q = d ++ r.
Proof.
  revert q. induction d as [|a d IH]; intros q H; simpl in *.
  - inversion H; reflexivity.
  - destruct q as [|b q]; [discriminate|].
    destruct (String.eqb a b) eqn:E; [|discriminate].
    apply String.eqb_eq in E. subst b. rewrite (IH q H). reflexivity.
Qed.

Lemma relative_to_app (d r : path) : relative_to d (d ++ r) = Some r.
Proof.
  induction d as [|a d IH]; simpl; [reflexivity|].
  rewrite String.eqb_refl. exact IH.
Qed.

Lemma mkdir_from_adds_dirs (rest : list string) :
  forall pre fs fs',
    mkdir_from pre rest fs = inr fs' -> only_dirs_added fs fs'.
Proof.
  induction rest as [|c rest IH]; intros pre fs fs' H; simpl in H.
  - inversion H; subst. exists []. rewrite app_nil_r. auto.
  - destruct (lookup fs (join pre c)) as [[|i]|].
    + eapply IH; exact H.
    + discriminate.
    + destruct (IH _ _ _ H) as (dirs & -> & Hd).
      exists ((join pre c, Dir) :: dirs). rewrite <- app_assoc. split; auto.
Qed.

Lemma listing_app (fs1 fs2 : filesystem) (d : path) :
  listing (fs1 ++ fs2) d = listing fs1 d ++ listing fs2 d.
Proof.
  induction fs1 as [|[q n] fs1 IH]; simpl; [reflexivity|].
  destruct (child_name d q); simpl; rewrite IH; reflexivity.
Qed.

Lemma lookup_app_miss (fs extra : filesystem) (q : path) :
  Forall (fun e => fst e <> q) extra ->
  lookup (fs ++ extra) q = lookup fs q.
Proof.
  intro Hmiss. unfold lookup. destruct q as [|c q]; [reflexivity|]. f_equal.
  induction fs as [|x fs IH]; simpl.
  - induction Hmiss as [|e extra He _ IHe]; simpl; [reflexivity|].
    destruct (path_eqb (fst e) (c :: q)) eqn:E; [|exact IHe].
    apply path_eqb_eq in E. contradiction.
  - destruct (path_eqb (fst x) (c :: q)); [reflexivity|exact IH].
Qed.





Section DryRun.

Variables data_dir source_path : path.










End DryRun.

Section DryAndWet.

Variables data_dir source_path : path.
Hypothesis apart : relative_to data_dir source_path = None.

Let S := same_decisions data_dir.

Lemma S_refl (s : state) : S s s.
Proof.
  split; [reflexivity|]. exists []. rewrite app_nil_r. auto.
Qed.

(** No link is a source bucket itself. *)
Lemma link_is_not_source_bucket (e : path * node) (b : string) :
  in_bucket data_dir e -> fst e <> join source_path b.
Proof.
  intros (bucket & name & He) Heq. rewrite He in Heq. unfold join in Heq.
  change [bucket; name] with ([bucket] ++ [name]) in Heq.
  rewrite app_assoc in Heq. apply app_inj_tail in Heq. destruct Heq as [Hs _].
  rewrite <- Hs, relative_to_app in apart. discriminate.
Qed.

(** No link lies in a source bucket. *)
Lemma link_is_not_in_source_bucket (e : path * node) (b : string) :
  in_bucket data_dir e -> child_name (join source_path b) (fst e) = None.
Proof.
  intros (bucket & name & He). unfold child_name.
  destruct (relative_to (join source_path b) (fst e)) as [[|nm [|? ?]]|] eqn:E;
    try reflexivity.
  exfalso. apply relative_to_some in E. rewrite He in E. unfold join in E.
  change [bucket; name] with ([bucket] ++ [name]) in E.
  rewrite app_assoc in E. apply app_inj_tail in E. destruct E as [E _].
  apply app_inj_tail in E. destruct E as [E _].
  rewrite <- E in apart.
  rewrite <- (app_nil_r data_dir) in apart at 2.
  rewrite relative_to_app in apart. discriminate.
Qed.

Lemma source_lookup (dry wet : state) (b : string) :
  S dry wet ->
  lookup (files wet) (join source_path b)
  = lookup (files dry) (join source_path b).
Proof.
  intros (_ & links & -> & Hl). apply lookup_app_miss.
  eapply Forall_impl; [|exact Hl]. intros e He.
  apply link_is_not_source_bucket. exact He.
Qed.

Lemma source_listing (dry wet : state) (b : string) :
  S dry wet ->
  listing (files wet) (join source_path b)
  = listing (files dry) (join source_path b).
Proof.
  intros (_ & links & -> & Hl). rewrite listing_app.
  assert (E : listing links (join source_path b) = []).
  { induction Hl as [|[q n] links He _ IH]; cbn [listing]; [reflexivity|].
    pose proof (link_is_not_in_source_bucket (q, n) b He) as Hq.
    cbn [fst] in Hq. rewrite Hq. exact IH. }
  rewrite E, app_nil_r. reflexivity.
Qed.

End DryAndWet.

(** What [os.link] does when it makes the link: the two paths differ, and
    the destination is a new path to the inode of the source. *)
Lemma os_link_linked (fs fs' : filesystem) (src dst : path) :
  os_link fs src dst = Linked fs' ->
  src <> dst /\ exists i, lookup fs src = Some (File i)
                          /\ fs' = fs ++ [(dst, File i)].
Proof.
  unfold os_link. destruct (lookup fs src) as [n|] eqn:E; [|discriminate].
  destruct (negb _); [discriminate|].
  destruct (exists_ fs dst) eqn:Ex; [discriminate|].
  destruct n as [|i]; [discriminate|].
  intro H; inversion H. split; [|eauto].
  intro Heq. subst dst. unfold exists_ in Ex. rewrite E in Ex. discriminate.
Qed.




Lemma mkdir_from_raises (rest : list string) :
  forall pre fs e, mkdir_from pre rest fs = inl e -> is_OSError e = true.
Proof.
  induction rest as [|c rest IH]; intros pre fs e H; simpl in H;
    [discriminate|].
  destruct (lookup fs (join pre c)) as [[|i]|]; eauto.
  inversion H. destruct rest; reflexivity.
Qed.




(** ** Dry run and run that links, on any source *)

Section SameChoices.

Variables data_dir source_path : path.














End SameChoices.



(** * The properties on the example inputs *)

Module Runs.

Import Examples.

Definition tag_path : path := join (join data_dir "data") "IN2018_V06_TAG_001.CSV".
Definition still_20_path : path := join (join data_dir "stills") still_20.
Definition still_25_path : path := join (join data_dir "stills") still_25.
Definition video_24_path : path := join (join data_dir "video") video_24.
Definition photo1_path : path := join (join data_dir "stills") "photo1.JPG".
Definition still_nan_path : path := join (join data_dir "stills") still_nan.
Definition video_nan_path : path := join (join data_dir "video") video_nan.

(** Seconds since the epoch at 2018-11-20 12:00:00. *)
Definition noon : Z := 1542715200.

Ltac among := vm_compute; repeat (first [left; reflexivity | right]).

(** The video segment of second 24 is matched with the sample of second 20. *)
Lemma video_asset_gets_nearest_record_run :
  PyStr.lower (suffix video_24_path) = ".mp4"
  /\ @target_of ext video_24_path
     = inr ("20181120T120024Z", At ((noon + 24) * ns_per_second)%Z)
  /\ table <> []
  /\ exists i r,
      match_ (PyStr.lower (suffix video_24_path))
             ((noon + 24) * ns_per_second) table = inr (Some r)
      /\ nth_error table i = Some r.
Proof.
  assert (H1 : PyStr.lower (suffix video_24_path) = ".mp4") by reflexivity.
  assert (H2 : @target_of ext video_24_path
               = inr ("20181120T120024Z", At ((noon + 24) * ns_per_second)%Z))
    by (vm_compute; reflexivity).
  assert (H3 : table <> []) by discriminate.
  split; [exact H1|]. split; [exact H2|]. split; [exact H3|].
  destruct (proj1 (@video_asset_gets_nearest_record ext _ _ _ _ H1 H2 H3))
    as (i & r & Hm & Hn & _).
  exists i, r. split; assumption.
Defined.

(** The still image of second 20 gets a record of that very second. *)
Lemma still_asset_gets_exact_record_run :
  PyStr.lower (suffix still_20_path) = ".jpg"
  /\ @target_of ext still_20_path
     = inr ("20181120T120020Z", At ((noon + 20) * ns_per_second)%Z)
  /\ forall r,
      match_ (PyStr.lower (suffix still_20_path))
             ((noon + 20) * ns_per_second) table = inr (Some r) ->
      FinalTime r = ((noon + 20) * ns_per_second)%Z.
Proof.
  assert (H1 : PyStr.lower (suffix still_20_path) = ".jpg") by reflexivity.
  assert (H2 : @target_of ext still_20_path
               = inr ("20181120T120020Z", At ((noon + 20) * ns_per_second)%Z))
    by (vm_compute; reflexivity).
  split; [exact H1|]. split; [exact H2|].
  exact (proj2 (proj2 (proj2
           (@still_asset_gets_exact_record ext _ _ _ table H1 H2)))).
Defined.

(** The table loaded from the example log has whole-second timestamps. *)
Lemma telemetry_timestamps_floored_run :
  @load_telemetry ext tag_path = inr table
  /\ exists c idx,
      @read_csv ext tag_path = inr c
      /\ column_index "FinalTime" (header c) = Some idx
      /\ Forall2 (fun cells r =>
                    exists t,
                      @to_datetime ext log_format (nth idx cells "") = Some t
                      /\ FinalTime r = floor_s t
                      /\ (FinalTime r <= t < FinalTime r + ns_per_second)%Z
                      /\ (FinalTime r mod ns_per_second = 0)%Z)
                 (body c) table.
Proof.
  assert (H : @load_telemetry ext tag_path = inr table)
    by (vm_compute; reflexivity).
  split; [exact H|].
  exact (proj1 (@telemetry_timestamps_floored ext tag_path table H)).
Defined.

(** A data directory that does not exist holds no tagged log: one warning
    and the empty manifest.  The populated directory, with a log that has no
    [FinalTime] column: [KeyError], no manifest and no warning. *)
Lemma unavailable_telemetry_gives_empty_manifest_run :
  (listing source_tree (join data_dir "data") = []
   /\ exists w, @_package ext source_tree data_dir = (inr [], [w])
                /\ is_warning w = true)
  /\ (selected_log packaged data_dir = Some tag_path
      /\ MoreExamples.no_time_column tag_path
         = inr (mkCsv ["Time"; "Pres"]
                      [["2018-11-20 12:00:10.250000"; "1020.5"]])
      /\ @_package (Reference.externals MoreExamples.no_time_column)
                   packaged data_dir = (inl KeyError, [])).
Proof.
  split.
  - assert (H : listing source_tree (join data_dir "data") = [])
      by (vm_compute; reflexivity).
    split; [exact H|].
    apply (proj1 (@unavailable_telemetry_gives_empty_manifest
                    ext source_tree data_dir)).
    left. intros name n Hin. rewrite H in Hin. destruct Hin.
  - assert (H1 : selected_log packaged data_dir = Some tag_path)
      by (vm_compute; reflexivity).
    split; [exact H1|]. split; [reflexivity|].
    refine (proj2 (proj2 (proj2 (@unavailable_telemetry_gives_empty_manifest
                                   (Reference.externals
                                      MoreExamples.no_time_column)
                                   packaged data_dir)
                            tag_path _ H1 eq_refl _))).
    vm_compute. intuition discriminate.
Defined.

(** C3, refuted as stated: with [photo1.JPG] among the still images the
    pass raises [IndexError]; nothing is logged and no manifest is
    returned, although the sibling image is well named. *)
Lemma photo1_aborts_packaging :
  is_visual_asset photo1_path (File 5) = true
  /\ nth_error (PyStr.split "_" (stem photo1_path)) 5 = None
  /\ @_package ext with_photo1 data_dir = (inl IndexError, [])
  /\ ~ (exists m l, @_package ext with_photo1 data_dir = (inr m, l)).
Proof.
  split; [reflexivity|]. split; [reflexivity|].
  assert (H : @_package ext with_photo1 data_dir = (inl IndexError, []))
    by (vm_compute; reflexivity).
  split; [exact H|]. intros (m & l & Hm). rewrite H in Hm. discriminate.
Qed.

(** The image named with [nan] is left out without a log line, and the
    pass returns the manifest of the rest. *)
Lemma malformed_asset_name_aborts_packaging_run :
  selected_log with_nan_still data_dir = Some tag_path
  /\ @load_telemetry ext tag_path = inr table
  /\ In (still_nan_path, ["stills"; still_nan], File 8)
        (rglob with_nan_still data_dir)
  /\ is_visual_asset still_nan_path (File 8) = true
  /\ nth_error (PyStr.split "_" (stem still_nan_path)) 5 = Some "nan"
  /\ @target_of ext still_nan_path = inr ("nan", NaT)
  /\ @package_file ext table (second_to_last data_dir)
        (still_nan_path, ["stills"; still_nan], File 8) = inr None
  /\ exists m,
      @_package ext with_nan_still data_dir = (inr m, [])
      /\ dict_get still_nan_path m = None
      /\ dict_get still_20_path m <> None.
Proof.
  assert (H1 : selected_log with_nan_still data_dir = Some tag_path)
    by (vm_compute; reflexivity).
  assert (H2 : @load_telemetry ext tag_path = inr table)
    by (vm_compute; reflexivity).
  assert (H3 : In (still_nan_path, ["stills"; still_nan], File 8)
                  (rglob with_nan_still data_dir)) by among.
  assert (H4 : is_visual_asset still_nan_path (File 8) = true)
    by reflexivity.
  assert (H5 : nth_error (PyStr.split "_" (stem still_nan_path)) 5
               = Some "nan") by reflexivity.
  repeat (split; [assumption|]).
  destruct (proj1 (proj2 (proj2 (@malformed_asset_name_aborts_packaging
                                   ext _ _ _ _ _ _ _ H1 H2 H3 H4)))
              "nan" H5 eq_refl) as (Ht & Hjpg & _).
  destruct (Hjpg eq_refl) as (Hfile & Habsent).
  split; [exact Ht|]. split; [exact Hfile|].
  destruct (@_package ext with_nan_still data_dir) as [[e|m] l] eqn:E;
    [vm_compute in E; discriminate E|].
  exists m.
  assert (Hl : l = []) by (vm_compute in E; congruence).
  subst l. split; [reflexivity|]. split; [exact (Habsent m eq_refl)|].
  vm_compute in E. inversion E; subst m. discriminate.
Defined.

(** The video segment with an empty sixth segment ends the pass: the table
    has rows, none of which is at a known distance from [NaT]. *)
Lemma nan_video_aborts_packaging :
  @target_of ext video_nan_path = inr (EmptyString, NaT)
  /\ exists e, @_package ext with_nan_video data_dir = (inl e, []).
Proof.
  split; [reflexivity|]. eexists. vm_compute. reflexivity.
Qed.

(** C5, refuted as stated: the still image of second 25 matches no sample
    and the manifest that [_package] returns has no entry for it, while
    the image of second 20 is there. *)
Lemma unmatched_still_dropped :
  is_visual_asset still_25_path (File 3) = true
  /\ @match_ ".jpg" ((noon + 25) * ns_per_second) table = inr None
  /\ exists m,
      @_package ext packaged data_dir = (inr m, [])
      /\ dict_get still_25_path m = None
      /\ dict_get still_20_path m <> None.
Proof.
  split; [reflexivity|]. split; [vm_compute; reflexivity|].
  eexists. split; [vm_compute; reflexivity|].
  split; [vm_compute; reflexivity|]. vm_compute. discriminate.
Qed.

Lemma unmatched_still_absent_from_manifest_run :
  selected_log packaged data_dir = Some tag_path
  /\ @load_telemetry ext tag_path = inr table
  /\ is_visual_asset still_25_path (File 3) = true
  /\ PyStr.lower (suffix still_25_path) = ".jpg"
  /\ @target_of ext still_25_path
     = inr ("20181120T120025Z", At ((noon + 25) * ns_per_second)%Z)
  /\ Forall (fun r => FinalTime r <> ((noon + 25) * ns_per_second)%Z) table
  /\ forall m, fst (@_package ext packaged data_dir) = inr m ->
               dict_get still_25_path m = None.
Proof.
  assert (H1 : selected_log packaged data_dir = Some tag_path)
    by (vm_compute; reflexivity).
  assert (H2 : @load_telemetry ext tag_path = inr table)
    by (vm_compute; reflexivity).
  assert (H3 : is_visual_asset still_25_path (File 3) = true) by reflexivity.
  assert (H4 : PyStr.lower (suffix still_25_path) = ".jpg") by reflexivity.
  assert (H5 : @target_of ext still_25_path
               = inr ("20181120T120025Z", At ((noon + 25) * ns_per_second)%Z))
    by (vm_compute; reflexivity).
  assert (H6 : Forall (fun r => FinalTime r
                                <> ((noon + 25) * ns_per_second)%Z) table)
    by (repeat constructor; vm_compute; discriminate).
  repeat (split; [assumption|]).
  exact (proj2 (proj2 (@unmatched_still_absent_from_manifest
                         ext _ _ _ _ _ _ _ _ H1 H2 H3 H4 H5 H6))).
Defined.

(** C8, refuted as stated: the log of deployment 999 comes first in the
    scan and is the one selected, though its name holds the deployment
    identifier neither in the short form nor in the long one; the log of
    this deployment is in the directory too. *)
Lemma foreign_log_selected :
  selected_log foreign_log data_dir
  = Some (join (join data_dir "data") "IN2018_V06_TAG_999.CSV")
  /\ PyStr.contains "TAG" "IN2018_V06_TAG_999.CSV" = true
  /\ PyStr.contains "001" "IN2018_V06_TAG_999.CSV" = false
  /\ PyStr.contains (second_to_last data_dir) "IN2018_V06_TAG_999.CSV" = false
  /\ In ("IN2018_V06_TAG_001.CSV", File 1)
        (listing foreign_log (join data_dir "data")).
Proof.
  repeat (split; [vm_compute; reflexivity|]). among.
Qed.



Lemma video_import_aborts_on_dotless_name_run :
  is_dir source_with_dotless (join source_path "video") = true
  /\ In ("README", File 9)
        (listing source_with_dotless (join source_path "video"))
  /\ ~ In "."%char (list_ascii_of_string "README")
  /\ exists st',
      _import_video_files false (join source_path "video")
                          (join data_dir "video")
                          (initial source_with_dotless)
      = (inl ValueError, st').
Proof.
  assert (H1 : is_dir source_with_dotless (join source_path "video") = true)
    by reflexivity.
  assert (H2 : In ("README", File 9)
                  (listing source_with_dotless (join source_path "video")))
    by among.
  assert (H3 : ~ In "."%char (list_ascii_of_string "README"))
    by (apply rfind_none; reflexivity).
  repeat (split; [assumption|]).
  destruct (video_import_aborts_on_dotless_name
              false (join source_path "video") (join data_dir "video")
              (initial source_with_dotless) "README" 9 H1 H2 H3)
    as (pre & name' & ino' & post & st' & _ & _ & _ & _ & Hrun).
  exists st'. exact Hrun.
Defined.

End Runs.

(** * Further properties of the packaging phase *)

Section MapperInvariants.

Context {ext : Externals}.

Lemma dict_get_set_same (k : path) (v : manifest_value) (m : manifest) :
  dict_get k (dict_set k v m) = Some v.
Proof.
  induction m as [|[k' w] m IH]; simpl.
  - rewrite (proj2 (path_eqb_eq k k) eq_refl). reflexivity.
  - destruct (path_eqb k' k) eqn:E; simpl; rewrite E; [reflexivity|exact IH].
Qed.

Lemma dict_get_set (k key : path) (v : manifest_value) (m : manifest) :
  dict_get key (dict_set k v m)
  = if path_eqb k key then Some v else dict_get key m.
Proof.
  destruct (path_eqb k key) eqn:E.
  - apply path_eqb_eq in E. subst key. apply dict_get_set_same.
  - apply dict_get_set_other. intro H. subst key.
    rewrite (proj2 (path_eqb_eq k k) eq_refl) in E. discriminate.
Qed.

(** An entry of the recursive scan lies below the scanned directory, at the
    relative path the scan reports. *)
Lemma rglob_entry (fs : filesystem) (d q rel : path) (n : node) :
  In (q, rel, n) (rglob fs d) ->
  In (q, n) fs /\ relative_to d q = Some rel /\ rel <> [] /\ q = d ++ rel.
Proof.
  induction fs as [|[q' n'] fs IH]; simpl; [tauto|].
  destruct (relative_to d q') as [[|c rel']|] eqn:E.
  - intro H. destruct (IH H) as (? & ? & ? & ?). auto.
  - intros [H|H].
    + inversion H; subst. repeat split; auto; [discriminate|].
      apply relative_to_some. exact E.
    + destruct (IH H) as (? & ? & ? & ?). auto.
  - intro H. destruct (IH H) as (? & ? & ? & ?). auto.
Qed.

(** A name that gave [NaT] is never matched to a record. *)
Lemma match_target_NaT (sfx : string) (df : frame) (r : record) :
  match_target sfx NaT df <> inr (Some r).
Proof.
  unfold match_target, matching_row_nat.
  destruct (String.eqb sfx ".jpg"); [discriminate|].
  destruct (String.eqb sfx ".mp4"); [destruct df|]; discriminate.
Qed.

(** What an iteration that adds an entry adds. *)
Lemma package_file_entry (df : frame) (dep : string) (q rel : path) (n : node)
    (k : path) (v : manifest_value) :
  package_file df dep (q, rel, n) = inr (Some (k, v)) ->
  k = q /\ is_file_node n = true /\ fst (fst v) = dep :: rel
  /\ ((is_visual_asset q n = false /\ v = (dep :: rel, None, None))
      \/ (is_visual_asset q n = true
          /\ exists iso t r md,
              target_of q = inr (iso, At t)
              /\ match_ (PyStr.lower (suffix q)) t df = inr (Some r)
              /\ image_data (dep :: rel) iso r = inr md
              /\ v = (dep :: rel, Some [md], Some r))).
Proof.
  unfold package_file. destruct (is_visual_asset q n) eqn:Ev.
  - destruct (target_of q) as [e|[iso [t|]]]; [discriminate| |].
    2:{ destruct (match_target _ NaT df) as [e|[r|]] eqn:Em;
          try discriminate.
        exfalso. exact (match_target_NaT _ _ _ Em). }
    cbn [match_target].
    destruct (match_ _ t df) as [e|[r|]] eqn:Em; try discriminate.
    destruct (image_data _ iso r) as [e|md] eqn:Ei; [discriminate|].
    intro H; inversion H; subst. split; [reflexivity|]. split.
    { unfold is_visual_asset in Ev.
      destruct (is_file_node n); [reflexivity|discriminate]. }
    split; [reflexivity|]. right. split; [reflexivity|].
    exists iso, t, r, md. auto.
  - destruct (is_file_node n) eqn:En; [|discriminate].
    intro H; inversion H; subst.
    split; [reflexivity|]. split; [reflexivity|]. split; [reflexivity|].
    left. auto.
Qed.

(** The loop keeps a property of the entries of the manifest that every
    iteration establishes for the entry it adds. *)
Lemma package_loop_invariant (P : path -> manifest_value -> Prop)
    (df : frame) (dep : string) (entries : list (path * path * node)) :
  (forall entry k v, In entry entries ->
                     package_file df dep entry = inr (Some (k, v)) -> P k v) ->
  forall acc m,
    (forall k v, dict_get k acc = Some v -> P k v) ->
    package_loop df dep entries acc = inr m ->
    forall k v, dict_get k m = Some v -> P k v.
Proof.
  induction entries as [|x entries IH]; intros Hstep acc m Hacc Hrun;
    cbn [package_loop] in Hrun.
  - inversion Hrun; subst; exact Hacc.
  - destruct (package_file df dep x) as [e|[[k v]|]] eqn:E;
      [discriminate Hrun| |].
    + apply (IH (fun entry k' v' Hin => Hstep entry k' v' (or_intror Hin))
                (dict_set k v acc) m); [|exact Hrun].
      intros k' v' Hget. rewrite dict_get_set in Hget.
      destruct (path_eqb k k') eqn:Ek.
      * apply path_eqb_eq in Ek. subst k'. inversion Hget; subst v'.
        apply (Hstep x k v (or_introl eq_refl) E).
      * apply Hacc; exact Hget.
    + apply (IH (fun entry k' v' Hin => Hstep entry k' v' (or_intror Hin))
                acc m Hacc Hrun).
Qed.

Lemma package_manifest_cases (fs : filesystem) (data_dir : path) (m : manifest) :
  fst (_package fs data_dir) = inr m ->
  m = []
  \/ exists tag_file df,
      selected_log fs data_dir = Some tag_file
      /\ load_telemetry tag_file = inr df
      /\ package_loop df (second_to_last data_dir) (rglob fs data_dir) []
         = inr m.
Proof.
  unfold _package. destruct (selected_log fs data_dir) as [tag|].
  - destruct (load_telemetry tag) as [e|df] eqn:El.
    + destruct (handled e); simpl; intro H; [|discriminate].
      inversion H; auto.
    + simpl. intro H. right. exists tag, df. auto.
  - simpl. intro H. inversion H; auto.
Qed.

(** Every entry of the manifest is for a regular file found by the scan of
    the data directory; the destination recorded for it is its path relative
    to the data directory, under the name of the directory that holds the
    data directory; metadata and raw record come together or not at all. *)
Theorem manifest_entries_come_from_tree :
  forall (fs : filesystem) (data_dir : path) (m : manifest)
         (k out : path) (mds : option (list metadata)) (raw : option record),
    fst (_package fs data_dir) = inr m ->
    dict_get k m = Some (out, mds, raw) ->
    exists rel i,
      In (k, File i) fs
      /\ k = data_dir ++ rel
      /\ rel <> []
      /\ out = second_to_last data_dir :: rel
      /\ (mds = None <-> raw = None).
Proof.
  intros fs data_dir m k out mds raw Hm Hget.
  destruct (package_manifest_cases fs data_dir m Hm)
    as [->|(tag & df & _ & _ & Hloop)]; [discriminate|].
  pose (P := fun (k : path) (v : manifest_value) =>
               exists rel i,
                 In (k, File i) fs /\ k = data_dir ++ rel /\ rel <> []
                 /\ fst (fst v) = second_to_last data_dir :: rel
                 /\ (snd (fst v) = None <-> snd v = None)).
  assert (HP : P k (out, mds, raw)).
  { apply (package_loop_invariant P df (second_to_last data_dir)
             (rglob fs data_dir)) with (acc := []) (m := m); auto.
    - intros [[q rel] n] k' v' Hin Hstep.
      destruct (rglob_entry _ _ _ _ _ Hin) as (Hfs & _ & Hne & Hq).
      destruct (package_file_entry _ _ _ _ _ _ _ Hstep)
        as (-> & Hfile & Hout & Hkind).
      destruct n as [|i]; [discriminate|].
      exists rel, i. repeat split; auto;
        destruct Hkind as [(_ & ->)|(_ & iso & t & r & md & _ & _ & _ & ->)];
        simpl; congruence.
    - intros k' v' H. discriminate. }
  destruct HP as (rel & i & H1 & H2 & H3 & H4 & H5).
  exists rel, i. simpl in *. auto.
Qed.

(** When the telemetry table is loaded and the pass completes, a regular file
    of the tree that is not a visual asset (a log, a thumbnail, an overview,
    any other file) has an entry in the manifest, with its relative
    destination and neither metadata nor raw record. *)
Theorem other_files_pass_through :
  forall (fs : filesystem) (data_dir tag_file : path) (df : frame)
         (m : manifest) (q rel : path) (i : nat),
    selected_log fs data_dir = Some tag_file ->
    load_telemetry tag_file = inr df ->
    fst (_package fs data_dir) = inr m ->
    In (q, rel, File i) (rglob fs data_dir) ->
    is_visual_asset q (File i) = false ->
    dict_get q m = Some (second_to_last data_dir :: rel, None, None).
Proof.
  intros fs data_dir tag_file df m q rel i Hsel Hload Hm Hin Hvis.
  unfold _package in Hm. rewrite Hsel, Hload in Hm. simpl in Hm.
  set (dep := second_to_last data_dir) in *.
  destruct (rglob_entry _ _ _ _ _ Hin) as (_ & Hrel & _ & _).
  assert (Hsame : forall rel' n' k v,
             In (q, rel', n') (rglob fs data_dir) ->
             package_file df dep (q, rel', n') = inr (Some (k, v)) ->
             k = q /\ v = (dep :: rel, None, None)).
  { intros rel' n' k v Hin' Hstep.
    destruct (rglob_entry _ _ _ _ _ Hin') as (_ & Hrel' & _ & _).
    assert (rel' = rel) by congruence. subst rel'.
    destruct (package_file_entry _ _ _ _ _ _ _ Hstep)
      as (-> & Hfile & _ & Hkind).
    destruct n' as [|j]; [discriminate|].
    rewrite (is_visual_asset_any_inode q j i), Hvis in Hkind.
    destruct Hkind as [(_ & ->)|(Habs & _)]; [auto|discriminate]. }
  assert (Hloop : forall entries acc m',
             (forall x, In x entries -> In x (rglob fs data_dir)) ->
             package_loop df dep entries acc = inr m' ->
             (In (q, rel, File i) entries
              \/ dict_get q acc = Some (dep :: rel, None, None)) ->
             dict_get q m' = Some (dep :: rel, None, None)).
  { induction entries as [|[[q' rel'] n'] entries IH];
      intros acc m' Hsub Hrun Hcase; cbn [package_loop] in Hrun.
    - inversion Hrun; subst. destruct Hcase as [[]|H]; exact H.
    - assert (Hsub' : forall x, In x entries -> In x (rglob fs data_dir))
        by (intros x Hx; apply Hsub; right; exact Hx).
      destruct (package_file df dep (q', rel', n')) as [e|[[k v]|]] eqn:E;
        [discriminate Hrun| |].
      + destruct (package_file_entry _ _ _ _ _ _ _ E) as (Hk & _). subst k.
        apply (IH (dict_set q' v acc) m' Hsub' Hrun).
        destruct Hcase as [[Heq|Hin']|Hacc].
        * inversion Heq; subst. right.
          destruct (Hsame rel (File i) q v (Hsub _ (or_introl eq_refl)) E)
            as (_ & ->). apply dict_get_set_same.
        * left. exact Hin'.
        * right. rewrite dict_get_set. destruct (path_eqb q' q) eqn:Eq;
            [|exact Hacc].
          apply path_eqb_eq in Eq. subst q'.
          destruct (Hsame rel' n' q v (Hsub _ (or_introl eq_refl)) E)
            as (_ & ->). reflexivity.
      + apply (IH acc m' Hsub' Hrun).
        destruct Hcase as [[Heq|Hin']|Hacc]; auto.
        inversion Heq; subst. unfold package_file in E. rewrite Hvis in E.
        simpl in E. discriminate. }
  apply (Hloop (rglob fs data_dir) [] m); auto.
Qed.

End MapperInvariants.

Section LoaderEdges.

Context {ext : Externals}.

(** What the matcher returns is a row of the table; for a still image it has
    the asset timestamp, for a video no row of the table is nearer. *)
Lemma match_result (sfx : string) (t : Z) (df : frame) (r : record) :
  match_ sfx t df = inr (Some r) ->
  In r df
  /\ (sfx = ".jpg" -> FinalTime r = t)
  /\ (sfx = ".mp4" ->
      forall r', In r' df ->
                 (Z.abs (FinalTime r - t) <= Z.abs (FinalTime r' - t))%Z).
Proof.
  unfold match_, matching_row.
  destruct (String.eqb_spec sfx ".jpg") as [->|Hjpg].
  - intro H.
    destruct (filter (fun r0 => (FinalTime r0 =? t)%Z) df) as [|a rest] eqn:E;
      simpl in H; [discriminate|]. inversion H; subst a.
    destruct (filter_head _ _ _ _ E) as (Hr & pre & post & -> & _).
    split; [apply in_or_app; right; left; reflexivity|].
    split; [intros _; lia|discriminate].
  - destruct (String.eqb_spec sfx ".mp4") as [->|Hmp4]; [|discriminate].
    destruct (idxmin (map (fun r0 => Z.abs (FinalTime r0 - t)) df))
      as [[i m]|] eqn:Emin; [|discriminate].
    destruct (nth_error df i) as [r0|] eqn:En; [|discriminate].
    intro H. simpl in H. inversion H; subst r0.
    destruct (idxmin_spec _ _ _ Emin) as (Hnth & Hall & _).
    rewrite nth_error_map, En in Hnth. simpl in Hnth.
    inversion Hnth as [Hm].
    split; [eapply nth_error_In; exact En|].
    split; [congruence|]. intros _ r' Hin.
    destruct (In_nth_error _ _ Hin) as (j & Hj).
    rewrite Hm. apply (Hall j). rewrite nth_error_map, Hj. reflexivity.
Qed.

(** The raw record of a manifest entry is a row of the loaded table, chosen
    for the timestamp in the name of the file: equal to it for a still
    image, nearest to it for a video; the metadata object is the one built
    from that row. *)
Theorem manifest_records_come_from_table :
  forall (fs : filesystem) (data_dir tag_file : path) (df : frame)
         (m : manifest) (k out : path) (mds : option (list metadata))
         (r : record),
    selected_log fs data_dir = Some tag_file ->
    load_telemetry tag_file = inr df ->
    fst (_package fs data_dir) = inr m ->
    dict_get k m = Some (out, mds, Some r) ->
    In r df
    /\ exists iso t md,
        target_of k = inr (iso, At t)
        /\ mds = Some [md]
        /\ image_data out iso r = inr md
        /\ (PyStr.lower (suffix k) = ".jpg" -> FinalTime r = t)
        /\ (PyStr.lower (suffix k) = ".mp4" ->
            forall r', In r' df ->
                       (Z.abs (FinalTime r - t) <= Z.abs (FinalTime r' - t))%Z).
Proof.
  intros fs data_dir tag_file df m k out mds r Hsel Hload Hm Hget.
  unfold _package in Hm. rewrite Hsel, Hload in Hm. simpl in Hm.
  pose (P := fun (k : path) (v : manifest_value) =>
               forall r, snd v = Some r ->
               In r df
               /\ exists iso t md,
                   target_of k = inr (iso, At t)
                   /\ snd (fst v) = Some [md]
                   /\ image_data (fst (fst v)) iso r = inr md
                   /\ (PyStr.lower (suffix k) = ".jpg" -> FinalTime r = t)
                   /\ (PyStr.lower (suffix k) = ".mp4" ->
                       forall r', In r' df ->
                                  (Z.abs (FinalTime r - t)
                                   <= Z.abs (FinalTime r' - t))%Z)).
  assert (HP : P k (out, mds, Some r)).
  { apply (package_loop_invariant P df (second_to_last data_dir)
             (rglob fs data_dir)) with (acc := []) (m := m); auto.
    - intros [[q rel] n] k' v' _ Hstep r0 Hr0.
      destruct (package_file_entry _ _ _ _ _ _ _ Hstep)
        as (-> & _ & _ & [(_ & ->)|(_ & iso & t & r1 & md & Ht & Hmatch & Hmd & ->)]);
        simpl in Hr0; [discriminate|]. inversion Hr0; subst r1.
      destruct (match_result _ _ _ _ Hmatch) as (Hin & Hjpg & Hmp4).
      split; [exact Hin|]. exists iso, t, md. simpl. auto.
    - intros k' v' H. discriminate. }
  destruct (HP r eq_refl) as (Hin & iso & t & md & H1 & H2 & H3 & H4 & H5).
  split; [exact Hin|]. exists iso, t, md. simpl in *. auto.
Qed.

(** A log without a [FinalTime] column makes [_package] raise [KeyError]:
    the [except] clause does not list it, so there is neither a manifest nor
    a warning. *)
Theorem missing_time_column_raises_KeyError :
  forall (fs : filesystem) (data_dir tag_file : path) (c : csv),
    selected_log fs data_dir = Some tag_file ->
    read_csv tag_file = inr c ->
    ~ In "FinalTime" (header c) ->
    _package fs data_dir = (inl KeyError, []).
Proof.
  intros fs data_dir tag_file c Hsel Hread Hcol.
  apply column_index_none in Hcol.
  unfold _package, load_telemetry. rewrite Hsel, Hread, Hcol. reflexivity.
Qed.

(** A log with a header and no rows loads as an empty table; a video asset
    in the tree then makes [idxmin] raise [ValueError], which [_package]
    does not catch. *)
Theorem empty_table_aborts_on_video :
  forall (fs : filesystem) (data_dir tag_file : path) (c : csv)
         (q rel : path) (i : nat) (iso : string) (t : Z),
    selected_log fs data_dir = Some tag_file ->
    read_csv tag_file = inr c ->
    In "FinalTime" (header c) ->
    body c = [] ->
    In (q, rel, File i) (rglob fs data_dir) ->
    is_visual_asset q (File i) = true ->
    PyStr.lower (suffix q) = ".mp4" ->
    target_of q = inr (iso, At t) ->
    load_telemetry tag_file = inr []
    /\ package_file [] (second_to_last data_dir) (q, rel, File i)
       = inl ValueError
    /\ exists e, _package fs data_dir = (inl e, []).
Proof.
  intros fs data_dir tag_file c q rel i iso t Hsel Hread Hcol Hbody Hin Hvis
         Hsfx Ht.
  assert (Hload : load_telemetry tag_file = inr []).
  { unfold load_telemetry. rewrite Hread.
    destruct (column_index "FinalTime" (header c)) as [idx|] eqn:E.
    - rewrite Hbody. reflexivity.
    - apply column_index_none in E. contradiction. }
  assert (Hfile : package_file [] (second_to_last data_dir) (q, rel, File i)
                  = inl ValueError).
  { unfold package_file. rewrite Hvis, Ht, Hsfx. reflexivity. }
  split; [exact Hload|]. split; [exact Hfile|].
  destruct (package_loop_raises [] _ _ _ _ Hin Hfile []) as (e & He).
  exists e. unfold _package. rewrite Hsel, Hload, He. reflexivity.
Qed.

End LoaderEdges.

(** * Further properties of the import phase *)

(** A relation that [mkdir] and [_create_hard_link] move the state along is
    one that the whole import moves the state along. *)
Lemma import_moves_along (R : state -> state -> Prop) (dry_run : bool) :
  (forall s, R s s) ->
  (forall s t u, R s t -> R t u -> R s u) ->
  (forall p, moves_along R (mkdir p)) ->
  (forall src dst, moves_along R (_create_hard_link dry_run src dst)) ->
  forall data_dir source_path,
    moves_along R (_import dry_run data_dir source_path).
Proof.
  intros Hrefl Htrans Hmkdir Hlink data_dir source_path.
  assert (Hret : forall A (a : A), moves_along R (ret a))
    by (intros A a s; apply Hrefl).
  assert (Hraise : forall A e, moves_along R (@raise A e))
    by (intros A e s; apply Hrefl).
  assert (Hget : moves_along R get_files) by (intro s; apply Hrefl).
  unfold _import.
  repeat (apply (moves_along_bind R Htrans); [apply Hmkdir|intros _]).
  apply (moves_along_bind R Htrans); [|intros _].
  { unfold _import_data_files.
    apply (moves_along_bind R Htrans); [exact Hget|]. intro fs.
    destruct (negb _); [apply Hret|].
    apply moves_along_for_each; [exact Hrefl|exact Htrans|]. intro name. unfold data_entry.
    destruct (PyStr.endswith _ _); [apply Hlink|apply Hret]. }
  apply (moves_along_bind R Htrans); [|intros _].
  { unfold _import_still_images.
    apply (moves_along_bind R Htrans); [exact Hget|]. intro fs.
    destruct (negb _); [apply Hret|].
    apply moves_along_for_each; [exact Hrefl|exact Htrans|]. intro name. apply Hraise. }
  unfold _import_video_files.
  apply (moves_along_bind R Htrans); [exact Hget|]. intro fs.
  destruct (negb _); [apply Hret|].
  apply (moves_along_bind R Htrans).
  - unfold iterdir. apply (moves_along_bind R Htrans); [exact Hget|].
    intro fs'. destruct (lookup fs' _) as [[|i]|]; auto.
  - intro entries. apply moves_along_for_each; [exact Hrefl|exact Htrans|].
    intros [name n]. unfold video_entry.
    destruct (is_file_node n); [|apply Hret].
    destruct (unpack_base_ext name); [apply Hraise|].
    destruct (_ && _); [apply Hlink|apply Hret].
Qed.

Lemma created_app (l1 l2 : list log_entry) :
  created (l1 ++ l2) = created l1 ++ created l2.
Proof. unfold created. apply flat_map_app. Qed.

Lemma regular_files_app (f g : filesystem) :
  regular_files (f ++ g) = regular_files f ++ regular_files g.
Proof. unfold regular_files. apply filter_app. Qed.

Lemma accounted_refl (s : state) : accounted s s.
Proof.
  exists [], []. rewrite !app_nil_r. repeat split; auto.
Qed.

Lemma accounted_trans (s t u : state) :
  accounted s t -> accounted t u -> accounted s u.
Proof.
  intros (l1 & m1 & Hl1 & Hf1 & Hr1 & Hi1 & Hk1)
         (l2 & m2 & Hl2 & Hf2 & Hr2 & Hi2 & Hk2).
  exists (l1 ++ l2), (m1 ++ m2).
  split; [rewrite Hl2, Hl1, app_assoc; reflexivity|].
  split; [rewrite Hf2, Hf1, app_assoc; reflexivity|].
  split; [rewrite regular_files_app, created_app, !map_app, Hr1, Hr2;
          reflexivity|].
  split.
  - rewrite created_app. apply Forall_app. split; [|exact Hi2].
    eapply Forall_impl; [|exact Hi1]. intros [src dst] (i & Hs & Hd).
    exists i. rewrite Hf2. simpl in *.
    split; apply lookup_app_existing; assumption.
  - rewrite forallb_app, Hk1, Hk2. reflexivity.
Qed.

Lemma mkdir_accounted (p : path) : moves_along accounted (mkdir p).
Proof.
  intro s. unfold mkdir, bind, get_files, put_files, raise, mkdir_parents.
  cbv beta iota.
  destruct (mkdir_from [] p (files s)) as [e|fs'] eqn:E; simpl.
  - apply accounted_refl.
  - destruct (mkdir_from_adds_dirs _ _ _ _ E) as (dirs & -> & Hd).
    exists [], dirs. simpl. rewrite app_nil_r.
    repeat split; auto.
    assert (Er : regular_files dirs = []).
    { apply filter_nil. eapply Forall_impl; [|exact Hd].
      intros [q n] Hn. simpl in *. subst n. reflexivity. }
    rewrite Er. reflexivity.
Qed.

Lemma link_accounted (dry_run : bool) (src dst : path) :
  moves_along accounted (_create_hard_link dry_run src dst).
Proof.
  intro s. unfold _create_hard_link, bind, note_request, get_files, put_files,
             emit, ret.
  destruct dry_run; cbn [negb fst snd]; cbv beta iota;
    cbn [files log requests].
  - exists [], []. simpl. rewrite !app_nil_r. repeat split; auto.
  - destruct (os_link (files s) src dst) as [fs'| |] eqn:E;
      cbn [fst snd files log requests].
    + unfold os_link in E.
      destruct (lookup (files s) src) as [[|i]|] eqn:Es; try discriminate;
        destruct (negb _); try discriminate;
        destruct (exists_ (files s) dst) eqn:Ed; try discriminate.
      inversion E; subst fs'.
      exists [Debug_created src dst], [(dst, File i)]. simpl.
      repeat split; auto. constructor; [|constructor].
      exists i. cbn [fst snd]. split.
      * apply lookup_app_existing. exact Es.
      * apply lookup_app_new. exact Ed.
    + exists [Warning_exists dst], []. simpl. rewrite app_nil_r.
      repeat split; auto.
    + exists [Exception_link src], []. simpl. rewrite app_nil_r.
      repeat split; auto.
Qed.

Lemma import_accounted (dry_run : bool) (data_dir source_path : path) :
  moves_along accounted (_import dry_run data_dir source_path).
Proof.
  apply import_moves_along.
  - apply accounted_refl.
  - apply accounted_trans.
  - apply mkdir_accounted.
  - apply link_accounted.
Qed.

(** The import never touches what is there: a path that exists before the
    run leads to the same node after it, whether the run ends normally or
    with an exception. *)
Theorem import_keeps_existing_paths :
  forall (dry_run : bool) (data_dir source_path : path) (s : state)
         (p : path) (n : node),
    lookup (files s) p = Some n ->
    lookup (files (snd (_import dry_run data_dir source_path s))) p = Some n.
Proof.
  intros dry_run data_dir source_path s p n Hp.
  destruct (import_accounted dry_run data_dir source_path s)
    as (l & more & _ & -> & _).
  apply lookup_app_existing. exact Hp.
Qed.

(** The log of an import and its effect on the file system agree: the run
    only appends log lines of [_create_hard_link] and entries of the file
    system; the regular files it adds are, in order, the destinations of the
    lines "Created hard link"; and after the run each such destination is a
    regular file with the inode of its source. *)
Theorem import_log_accounts_for_links :
  forall (dry_run : bool) (data_dir source_path : path) (s : state),
    exists l more,
      log (snd (_import dry_run data_dir source_path s)) = log s ++ l
      /\ files (snd (_import dry_run data_dir source_path s))
         = files s ++ more
      /\ map fst (regular_files more) = map snd (created l)
      /\ Forall (fun sd => exists i,
                     lookup (files (snd (_import dry_run data_dir source_path s)))
                            (fst sd) = Some (File i)
                     /\ lookup (files (snd (_import dry_run data_dir source_path s)))
                               (snd sd) = Some (File i))
                (created l)
      /\ forallb is_link_line l = true.
Proof.
  intros dry_run data_dir source_path s.
  exact (import_accounted dry_run data_dir source_path s).
Qed.

Lemma link_requests (dry_run : bool) (src dst : path) (s : state) :
  fst (_create_hard_link dry_run src dst s) = inr tt
  /\ requests (snd (_create_hard_link dry_run src dst s))
     = requests s ++ [(src, dst)].
Proof.
  unfold _create_hard_link, bind, note_request, get_files, put_files, emit, ret.
  destruct dry_run; cbn [negb fst snd]; cbv beta iota;
    cbn [files log requests]; [auto|].
  destruct (os_link (files s) src dst); cbn [fst snd requests]; auto.
Qed.

Lemma for_each_cons {A} (a : A) (l : list A) (body : A -> M unit) (s : state) :
  for_each (a :: l) body s
  = match body a s with
    | (inl e, s') => (inl e, s')
    | (inr _, s') => for_each l body s'
    end.
Proof. reflexivity. Qed.

Lemma data_loop_requests (dry_run : bool) (src dst : path) (dep : string)
    (names : list string) :
  forall s,
    fst (for_each names (data_entry dry_run src dst dep) s) = inr tt
    /\ requests (snd (for_each names (data_entry dry_run src dst dep) s))
       = requests s
         ++ map (fun name => (join src name, join dst name))
                (filter (fun name => PyStr.endswith name (dep ++ ".CSV"))
                        names).
Proof.
  induction names as [|name names IH]; intro s.
  - simpl. rewrite app_nil_r. auto.
  - rewrite for_each_cons. cbn [filter]. unfold data_entry at 1 3.
    destruct (PyStr.endswith name (dep ++ ".CSV")).
    + destruct (link_requests dry_run (join src name) (join dst name) s)
        as [Hok Hreq].
      destruct (_create_hard_link dry_run (join src name) (join dst name) s)
        as [[e|[]] s']; simpl in Hok, Hreq; [discriminate|].
      destruct (IH s') as [Hok' Hreq']. split; [exact Hok'|].
      rewrite Hreq', Hreq. cbn [map]. rewrite <- app_assoc. reflexivity.
    + cbn [ret]. apply IH.
Qed.

(** [_import_data_files] never raises, and the links it asks for are those
    of the [*.CSV] entries of the source directory whose name ends with the
    deployment identifier followed by [.CSV], each under its own name, in
    scan order; nothing is asked for when the source directory is missing. *)
Theorem data_import_requests :
  forall (dry_run : bool) (source_dir dest_dir : path) (deployment_id : string)
         (s : state),
    fst (_import_data_files dry_run source_dir dest_dir deployment_id s)
    = inr tt
    /\ requests (snd (_import_data_files dry_run source_dir dest_dir
                                         deployment_id s))
       = requests s
         ++ (if exists_ (files s) source_dir
             then map (fun name => (join source_dir name, join dest_dir name))
                      (filter (fun name =>
                                 PyStr.endswith name (deployment_id ++ ".CSV"))
                              (glob_ext (files s) source_dir ".CSV"))
             else []).
Proof.
  intros dry_run source_dir dest_dir deployment_id s.
  unfold _import_data_files, bind, get_files. cbv beta iota.
  destruct (exists_ (files s) source_dir); cbn [negb].
  - apply data_loop_requests.
  - simpl. rewrite app_nil_r. auto.
Qed.

Lemma video_loop_requests (dry_run : bool) (src dst : path)
    (entries : list (string * node)) :
  Forall (fun e => is_file_node (snd e) = true ->
                   In "."%char (list_ascii_of_string (fst e))) entries ->
  forall s,
    fst (for_each entries (video_entry dry_run src dst) s) = inr tt
    /\ requests (snd (for_each entries (video_entry dry_run src dst) s))
       = requests s
         ++ map (fun e => (join src (fst e), join dst (fst e)))
                (filter video_selected entries).
Proof.
  induction 1 as [|[name n] entries Hdot _ IH]; intro s.
  - simpl. rewrite app_nil_r. auto.
  - rewrite for_each_cons. cbn [filter]. unfold video_entry at 1 3.
    unfold video_selected at 1. cbn [fst snd] in *.
    destruct (is_file_node n); cbn [andb]; [|apply IH].
    destruct (PyStr.rfind "." name) as [i|] eqn:Er.
    + rewrite (unpack_base_ext_dotted _ _ Er).
      destruct (_ && _).
      * destruct (link_requests dry_run (join src name) (join dst name) s)
          as [Hok Hreq].
        destruct (_create_hard_link dry_run (join src name) (join dst name) s)
          as [[e|[]] s']; simpl in Hok, Hreq; [discriminate|].
        destruct (IH s') as [Hok' Hreq']. split; [exact Hok'|].
        rewrite Hreq', Hreq. cbn [map fst]. rewrite <- app_assoc. reflexivity.
      * apply IH.
    + exfalso. apply rfind_none in Er. apply Er. apply Hdot. reflexivity.
Qed.

(** When every regular file of the video directory has a dot in its name,
    [_import_video_files] ends normally, and the links it asks for are those
    of the regular files whose name without extension ends with [Z] but not
    with [_Z], each under its own name, in scan order. *)
Theorem video_import_requests :
  forall (dry_run : bool) (source_dir dest_dir : path) (s : state),
    is_dir (files s) source_dir = true ->
    Forall (fun e => is_file_node (snd e) = true ->
                     In "."%char (list_ascii_of_string (fst e)))
           (listing (files s) source_dir) ->
    fst (_import_video_files dry_run source_dir dest_dir s) = inr tt
    /\ requests (snd (_import_video_files dry_run source_dir dest_dir s))
       = requests s
         ++ map (fun e => (join source_dir (fst e), join dest_dir (fst e)))
                (filter video_selected (listing (files s) source_dir)).
Proof.
  intros dry_run source_dir dest_dir s Hdir Hdots.
  unfold is_dir in Hdir.
  destruct (lookup (files s) source_dir) as [[|i]|] eqn:E; try discriminate.
  unfold _import_video_files, iterdir, bind, get_files, ret, exists_.
  cbv beta iota. rewrite E. cbn [negb]. rewrite E.
  apply video_loop_requests. exact Hdots.
Qed.

(** The naming rule of the video bucket, for a regular file [base.ext]:
    a name without extension that ends with the sentinel [_Z] is skipped;
    one that ends with [Z] after anything but an underscore is linked under
    its own name; one that does not end with [Z] is skipped. *)
Theorem video_sentinel_rule :
  forall (dry_run : bool) (source_dir dest_dir : path) (base ext : string)
         (i : nat) (s : state),
    ~ In "."%char (list_ascii_of_string ext) ->
    video_entry dry_run source_dir dest_dir
                ((base ++ "_Z." ++ ext)%string, File i) s = (inr tt, s)
    /\ (PyStr.endswith base "_" = false ->
        video_entry dry_run source_dir dest_dir
                    ((base ++ "Z." ++ ext)%string, File i) s
        = _create_hard_link dry_run
            (join source_dir (base ++ "Z." ++ ext)%string)
            (join dest_dir (base ++ "Z." ++ ext)%string) s)
    /\ (PyStr.endswith base "Z" = false ->
        video_entry dry_run source_dir dest_dir
                    ((base ++ "." ++ ext)%string, File i) s = (inr tt, s)).
Proof.
  intros dry_run source_dir dest_dir base ext i s Hext.
  assert (U1 : unpack_base_ext (base ++ "_Z." ++ ext) = inr (base ++ "_Z")%string).
  { replace (base ++ "_Z." ++ ext)%string
      with ((base ++ "_Z") ++ String "." ext)%string
      by (rewrite append_assoc; reflexivity).
    apply unpack_base_ext_append. exact Hext. }
  assert (U2 : unpack_base_ext (base ++ "Z." ++ ext) = inr (base ++ "Z")%string).
  { replace (base ++ "Z." ++ ext)%string
      with ((base ++ "Z") ++ String "." ext)%string
      by (rewrite append_assoc; reflexivity).
    apply unpack_base_ext_append. exact Hext. }
  assert (U3 : unpack_base_ext (base ++ "." ++ ext) = inr base)
    by (apply (unpack_base_ext_append base ext Hext)).
  split; [|split].
  - unfold video_entry. cbn [is_file_node]. rewrite U1.
    assert (H1 : PyStr.endswith (base ++ "_Z") "_Z" = true)
      by (apply endswith_iff; exists base; reflexivity).
    rewrite H1, andb_false_r. reflexivity.
  - intro Hbase. unfold video_entry. cbn [is_file_node]. rewrite U2.
    assert (H1 : PyStr.endswith (base ++ "Z") "Z" = true)
      by (apply endswith_iff; exists base; reflexivity).
    assert (H2 : PyStr.endswith (base ++ "Z") "_Z" = false).
    { destruct (PyStr.endswith (base ++ "Z") "_Z") eqn:E; [|reflexivity].
      apply endswith_iff in E. destruct E as (p & Hp).
      change ("_Z") with ("_" ++ "Z")%string in Hp.
      rewrite <- append_assoc in Hp. apply append_cancel_char in Hp.
      assert (Hend : PyStr.endswith base "_" = true)
        by (apply endswith_iff; exists p; exact Hp).
      congruence. }
    rewrite H1, H2. reflexivity.
  - intro Hbase. unfold video_entry. cbn [is_file_node].
    rewrite U3, Hbase. reflexivity.
Qed.

(** ** Running the import again *)

Lemma lookup_app_none (f l : filesystem) (p : path) :
  lookup f p = None -> lookup (f ++ l) p = lookup l p.
Proof.
  unfold lookup. destruct p as [|c p]; [discriminate|].
  induction f as [|x f IH]; cbn [app find]; [reflexivity|].
  destruct (path_eqb (fst x) (c :: p)); [discriminate|exact IH].
Qed.

Lemma lookup_in (l : filesystem) (c : string) (p : path) (n : node) :
  lookup l (c :: p) = Some n -> In (c :: p, n) l.
Proof.
  unfold lookup. induction l as [|[q m] l IH]; cbn [find fst]; [discriminate|].
  destruct (path_eqb q (c :: p)) eqn:E.
  - apply path_eqb_eq in E. subst q. simpl. intro H. inversion H. auto.
  - intro H. right. apply IH. exact H.
Qed.

Lemma listing_exists (fs : filesystem) (d : path) (name : string) (n : node) :
  In (name, n) (listing fs d) -> exists_ fs (join d name) = true.
Proof.
  unfold exists_, lookup, join.
  destruct (d ++ [name]) as [|c p] eqn:Ep; [destruct d; discriminate|].
  induction fs as [|[q m] fs IH]; cbn [listing find fst]; [intros []|].
  destruct (path_eqb q (c :: p)) eqn:E; [reflexivity|].
  unfold child_name.
  destruct (relative_to d q) as [[|nm [|? ?]]|] eqn:Er; auto.
  intros [H|H]; [|auto]. inversion H; subst nm m.
  apply relative_to_some in Er. rewrite Er, Ep in E.
  rewrite (proj2 (path_eqb_eq _ _) eq_refl) in E. discriminate.
Qed.

Lemma links_added_refl (d : path) (f : filesystem) : links_added d f f.
Proof. exists []. rewrite app_nil_r. auto. Qed.

Lemma links_added_trans (d : path) (f g h : filesystem) :
  links_added d f g -> links_added d g h -> links_added d f h.
Proof.
  intros (l1 & -> & H1) (l2 & -> & H2). exists (l1 ++ l2).
  rewrite app_assoc. split; [reflexivity|]. apply Forall_app. auto.
Qed.

Lemma links_added_lookup (d : path) (f g : filesystem) (p : path) (n : node) :
  links_added d f g -> lookup f p = Some n -> lookup g p = Some n.
Proof. intros (l & -> & _). apply lookup_app_existing. Qed.

Lemma links_added_not_dir (d : path) (f g : filesystem) (p : path) :
  links_added d f g -> is_dir f p = false -> is_dir g p = false.
Proof.
  intros (l & -> & Hl). unfold is_dir.
  destruct (lookup f p) as [n|] eqn:E.
  - rewrite (lookup_app_existing _ l _ _ E). auto.
  - rewrite (lookup_app_none _ l _ E). intros _.
    destruct p as [|c p]; [discriminate|].
    destruct (lookup l (c :: p)) as [[|i]|] eqn:El; try reflexivity.
    apply lookup_in in El. rewrite Forall_forall in Hl.
    destruct (Hl _ El) as [_ Hfile]. discriminate.
Qed.

Section Replay.

Variables data_dir source_path : path.
Hypothesis apart : relative_to data_dir source_path = None.

Let E := links_added data_dir.

Lemma source_lookup_fs (f g : filesystem) (b : string) :
  E f g -> lookup g (join source_path b) = lookup f (join source_path b).
Proof.
  intros (l & -> & Hl).
  apply (source_lookup data_dir source_path apart
           (mkState f [] []) (mkState (f ++ l) [] []) b).
  split; [reflexivity|]. exists l. split; [reflexivity|].
  eapply Forall_impl; [|exact Hl]. intros e [He _]. exact He.
Qed.

Lemma source_listing_fs (f g : filesystem) (b : string) :
  E f g -> listing g (join source_path b) = listing f (join source_path b).
Proof.
  intros (l & -> & Hl).
  apply (source_listing data_dir source_path apart
           (mkState f [] []) (mkState (f ++ l) [] []) b).
  split; [reflexivity|]. exists l. split; [reflexivity|].
  eapply Forall_impl; [|exact Hl]. intros e [He _]. exact He.
Qed.

(** A link into a bucket adds a link or nothing. *)
Lemma link_adds (src : path) (bucket name : string) (a : state) :
  E (files a)
    (files (snd (_create_hard_link false src
                                   (join (join data_dir bucket) name) a))).
Proof.
  unfold _create_hard_link, bind, note_request, get_files, put_files, emit, ret.
  cbn [negb fst snd]. cbv beta iota. cbn [files log requests].
  destruct (os_link (files a) src (join (join data_dir bucket) name))
    as [fs'| |] eqn:El; cbn [fst snd files]; try apply links_added_refl.
  unfold os_link in El.
  destruct (lookup (files a) src) as [[|i]|]; try discriminate;
    destruct (negb _); try discriminate;
    destruct (exists_ _ _); try discriminate.
  inversion El; subst fs'.
  exists [(join (join data_dir bucket) name, File i)]. split; [reflexivity|].
  constructor; [|constructor]. split; [|reflexivity].
  exists bucket, name. unfold join. rewrite <- app_assoc. reflexivity.
Qed.

(** Asked again for a link it has dealt with, [_create_hard_link] changes
    nothing. *)
Lemma link_again (src : path) (bucket name : string) (a : state) :
  exists_ (files a) src = true ->
  forall G b,
    E (files (snd (_create_hard_link false src
                                     (join (join data_dir bucket) name) a))) G ->
    files b = G ->
    files (snd (_create_hard_link false src
                                  (join (join data_dir bucket) name) b)) = G.
Proof.
  set (dst := join (join data_dir bucket) name).
  intros Hsrc G b HG Hb.
  assert (Hnot : forall fs', os_link G src dst <> Linked fs').
  { revert HG.
    unfold _create_hard_link, bind, note_request, get_files, put_files, emit,
      ret. cbn [negb fst snd]. cbv beta iota. cbn [files log requests].
    unfold exists_ in Hsrc.
    destruct (lookup (files a) src) as [n|] eqn:Es; [|discriminate].
    unfold os_link at 1. rewrite Es.
    destruct (is_dir (files a) (parent dst)) eqn:Ep; cbn [negb].
    - destruct (exists_ (files a) dst) eqn:Ed.
      + cbn [fst snd files]. intros HG fs'. unfold os_link.
        rewrite (links_added_lookup _ _ _ _ _ HG Es).
        unfold is_dir in *.
        destruct (lookup (files a) (parent dst)) as [[|j]|] eqn:Epp;
          try discriminate.
        rewrite (links_added_lookup _ _ _ _ _ HG Epp). cbn [negb].
        unfold exists_ in *.
        destruct (lookup (files a) dst) as [m|] eqn:Edd; [|discriminate].
        rewrite (links_added_lookup _ _ _ _ _ HG Edd). discriminate.
      + destruct n as [|i]; cbn [fst snd files]; intros HG fs'; unfold os_link.
        * rewrite (links_added_lookup _ _ _ _ _ HG Es).
          destruct (negb _); [discriminate|].
          destruct (exists_ G dst); discriminate.
        * assert (Hs : lookup G src = Some (File i)).
          { apply (links_added_lookup _ _ _ _ _ HG).
            apply lookup_app_existing. exact Es. }
          assert (Hd : lookup G dst = Some (File i)).
          { apply (links_added_lookup _ _ _ _ _ HG).
            apply lookup_app_new. exact Ed. }
          rewrite Hs. destruct (negb _); [discriminate|].
          unfold exists_. rewrite Hd. discriminate.
    - cbn [fst snd files]. intros HG fs'. unfold os_link.
      rewrite (links_added_lookup _ _ _ _ _ HG Es).
      rewrite (links_added_not_dir _ _ _ _ HG Ep). discriminate. }
  subst G.
  unfold _create_hard_link, bind, note_request, get_files, put_files, emit, ret.
  cbn [negb fst snd]. cbv beta iota. cbn [files log requests].
  destruct (os_link (files b) src dst) as [fs'| |] eqn:El;
    cbn [fst snd files]; try reflexivity.
  exfalso. exact (Hnot fs' eq_refl).
Qed.

(** The three ways an iteration of an import loop goes. *)
Definition simple_step (m : M unit) (P : path -> Prop) : Prop :=
  (forall s, m s = (inr tt, s))
  \/ (exists e, forall s, m s = (inl e, s))
  \/ (exists src bucket name,
         P src
         /\ forall s, m s = _create_hard_link false src
                              (join (join data_dir bucket) name) s).

Lemma loop_replays {A} (body : A -> M unit) (P : path -> Prop) (l : list A) :
  (forall x, In x l -> simple_step (body x) P) ->
  forall a,
    (forall src, P src -> exists_ (files a) src = true) ->
    E (files a) (files (snd (for_each l body a)))
    /\ forall G b,
        E (files (snd (for_each l body a))) G ->
        files b = G ->
        fst (for_each l body b) = fst (for_each l body a)
        /\ files (snd (for_each l body b)) = G.
Proof.
  induction l as [|x l IH]; intros Hstep a Hsrc.
  - simpl. split; [apply links_added_refl|]. intros G b _ Hb. auto.
  - assert (Hl : forall y, In y l -> simple_step (body y) P)
      by (intros y Hy; apply Hstep; right; exact Hy).
    rewrite for_each_cons.
    destruct (Hstep x (or_introl eq_refl))
      as [Hskip | [(e & Hraise) | (src & bucket & name & HP & Hlink)]].
    + rewrite Hskip. destruct (IH Hl a Hsrc) as [Hmono Hrep].
      split; [exact Hmono|]. intros G b HG Hb.
      rewrite for_each_cons, Hskip. apply Hrep; assumption.
    + rewrite Hraise. cbn [fst snd]. split; [apply links_added_refl|].
      intros G b HG Hb. rewrite for_each_cons, Hraise. cbn [fst snd].
      destruct HG as (l0 & -> & _). auto.
    + rewrite Hlink.
      pose proof (link_adds src bucket name a) as Hadd.
      pose proof (link_again src bucket name a (Hsrc src HP)) as Hagain.
      destruct (link_requests false src (join (join data_dir bucket) name) a)
        as [Hok _].
      destruct (_create_hard_link false src
                                  (join (join data_dir bucket) name) a)
        as [[e|[]] a'] eqn:Ea; cbn [fst snd] in *; [discriminate|].
      assert (Hsrc' : forall src0, P src0 -> exists_ (files a') src0 = true).
      { intros src0 H0. specialize (Hsrc src0 H0). unfold exists_ in *.
        destruct (lookup (files a) src0) as [n|] eqn:E0; [|discriminate].
        rewrite (links_added_lookup _ _ _ _ _ Hadd E0). reflexivity. }
      destruct (IH Hl a' Hsrc') as [Hmono Hrep].
      split; [eapply links_added_trans; eassumption|].
      intros G b HG Hb. rewrite for_each_cons, Hlink.
      pose proof (Hagain G b (links_added_trans _ _ _ _ Hmono HG) Hb) as Hb'.
      destruct (link_requests false src (join (join data_dir bucket) name) b)
        as [Hokb _].
      destruct (_create_hard_link false src
                                  (join (join data_dir bucket) name) b)
        as [[e|[]] b'] eqn:Eb; cbn [fst snd] in *; [discriminate|].
      apply Hrep; assumption.
Qed.

Lemma replays_bind (m1 m2 : M unit) :
  replays data_dir m1 -> replays data_dir m2 ->
  replays data_dir (bind m1 (fun _ => m2)).
Proof.
  intros H1 H2 a. unfold bind.
  destruct (H1 a) as [Hmono1 Hrep1].
  destruct (m1 a) as [[e|[]] a'] eqn:Ea; cbn [fst snd] in *.
  - split; [exact Hmono1|]. intros G b HG Hb.
    destruct (Hrep1 G b HG Hb) as [Hf Hs].
    destruct (m1 b) as [[e'|[]] b']; cbn [fst snd] in *;
      [|discriminate]. auto.
  - destruct (H2 a') as [Hmono2 Hrep2].
    split; [eapply links_added_trans; eassumption|].
    intros G b HG Hb.
    destruct (Hrep1 G b (links_added_trans _ _ _ _ Hmono2 HG) Hb) as [Hf Hs].
    destruct (m1 b) as [[e'|[]] b']; cbn [fst snd] in *;
      [discriminate|]. apply Hrep2; assumption.
Qed.

End Replay.

Lemma grows_refl (f : filesystem) : grows f f.
Proof. exists []. rewrite app_nil_r. reflexivity. Qed.

Lemma grows_trans (f g h : filesystem) : grows f g -> grows g h -> grows f h.
Proof.
  intros (m1 & ->) (m2 & ->). exists (m1 ++ m2). rewrite app_assoc. reflexivity.
Qed.

Lemma links_added_grows (d : path) (f g : filesystem) :
  links_added d f g -> grows f g.
Proof. intros (l & -> & _). exists l. reflexivity. Qed.

(** Once made, a directory and its parents stay made, whatever is added to
    the file system. *)
Lemma mkdir_from_stable (rest : list string) :
  forall pre f f',
    mkdir_from pre rest f = inr f' ->
    forall more, mkdir_from pre rest (f' ++ more) = inr (f' ++ more).
Proof.
  induction rest as [|c rest IH]; intros pre f f' H more; simpl in *;
    [reflexivity|].
  destruct (lookup f (join pre c)) as [[|i]|] eqn:E; [|discriminate|].
  - destruct (mkdir_from_adds_dirs _ _ _ _ H) as (dirs & Hf' & _).
    assert (E' : lookup (f' ++ more) (join pre c) = Some Dir).
    { rewrite Hf'. apply lookup_app_existing. apply lookup_app_existing.
      exact E. }
    rewrite E'. eapply IH. exact H.
  - destruct (mkdir_from_adds_dirs _ _ _ _ H) as (dirs & Hf' & _).
    assert (E' : lookup (f' ++ more) (join pre c) = Some Dir).
    { rewrite Hf'. apply lookup_app_existing. apply lookup_app_existing.
      apply lookup_app_new. unfold exists_. rewrite E. reflexivity. }
    rewrite E'. eapply IH. exact H.
Qed.

Lemma mkdir_grows (p : path) (a : state) :
  grows (files a) (files (snd (mkdir p a))).
Proof.
  rewrite mkdir_run. destruct (mkdir_from [] p (files a)) as [e|f'] eqn:E.
  - apply grows_refl.
  - destruct (mkdir_from_adds_dirs _ _ _ _ E) as (dirs & -> & _).
    exists dirs. reflexivity.
Qed.

Lemma mkdir_again (p : path) (a a' b : state) :
  mkdir p a = (inr tt, a') ->
  grows (files a') (files b) ->
  exists b', mkdir p b = (inr tt, b') /\ files b' = files b.
Proof.
  rewrite !mkdir_run. intros H (more & Hb).
  destruct (mkdir_from [] p (files a)) as [e|f'] eqn:E; [discriminate|].
  inversion H; subst a'. cbn [files] in Hb.
  rewrite Hb, (mkdir_from_stable _ _ _ _ E more). eexists. split; reflexivity.
Qed.

Lemma mkdir_fails_again (p : path) (a a' b : state) (e : exn) :
  mkdir p a = (inl e, a') ->
  files b = files a ->
  a' = a /\ mkdir p b = (inl e, b).
Proof.
  rewrite !mkdir_run. intros H Hb. rewrite Hb.
  destruct (mkdir_from [] p (files a)) as [e'|f']; [|discriminate].
  inversion H; subst. auto.
Qed.

(** The shape of [_import]: three directories, then the three buckets. *)
Lemma import_shape_twice (d pa pb pc : path) (buckets : M unit) :
  replays d buckets ->
  forall s,
    let m := bind (mkdir pa) (fun _ =>
             bind (mkdir pb) (fun _ =>
             bind (mkdir pc) (fun _ => buckets))) in
    fst (m (snd (m s))) = fst (m s)
    /\ files (snd (m (snd (m s)))) = files (snd (m s)).
Proof.
  intros Hrep s m. unfold m, bind.
  destruct (mkdir pa s) as [[e|[]] a1] eqn:M1.
  { destruct (mkdir_fails_again _ _ _ s _ M1 eq_refl) as [-> _].
    cbn [fst snd]. rewrite M1. auto. }
  pose proof (mkdir_grows pa s) as G1. rewrite M1 in G1. cbn [snd] in G1.
  destruct (mkdir pb a1) as [[e|[]] a2] eqn:M2.
  { destruct (mkdir_fails_again _ _ _ a1 _ M2 eq_refl) as [-> _].
    cbn [fst snd].
    destruct (mkdir_again _ _ _ a1 M1 (grows_refl _)) as (b1 & R1 & F1).
    rewrite R1.
    destruct (mkdir_fails_again _ _ _ b1 _ M2 F1) as [_ R2].
    rewrite R2. auto. }
  pose proof (mkdir_grows pb a1) as G2. rewrite M2 in G2. cbn [snd] in G2.
  destruct (mkdir pc a2) as [[e|[]] a3] eqn:M3.
  { destruct (mkdir_fails_again _ _ _ a2 _ M3 eq_refl) as [-> _].
    cbn [fst snd].
    destruct (mkdir_again _ _ _ a2 M1 G2) as (b1 & R1 & F1). rewrite R1.
    assert (G2' : grows (files a2) (files b1))
      by (rewrite F1; apply grows_refl).
    destruct (mkdir_again _ _ _ b1 M2 G2') as (b2 & R2 & F2). rewrite R2.
    destruct (mkdir_fails_again _ _ _ b2 _ M3 (eq_trans F2 F1)) as [_ R3].
    rewrite R3. cbn [fst snd]. split; [reflexivity|congruence]. }
  pose proof (mkdir_grows pc a2) as G3. rewrite M3 in G3. cbn [snd] in G3.
  destruct (Hrep a3) as [Hmono Hagain].
  destruct (buckets a3) as [r a'] eqn:Eb. cbn [fst snd] in *.
  pose proof (links_added_grows _ _ _ Hmono) as G4.
  destruct (mkdir_again _ _ _ a' M1
              (grows_trans _ _ _ G2 (grows_trans _ _ _ G3 G4)))
    as (b1 & R1 & F1). rewrite R1.
  assert (G2' : grows (files a2) (files b1))
    by (rewrite F1; exact (grows_trans _ _ _ G3 G4)).
  destruct (mkdir_again _ _ _ b1 M2 G2') as (b2 & R2 & F2). rewrite R2.
  assert (G3' : grows (files a3) (files b2))
    by (rewrite F2, F1; exact G4).
  destruct (mkdir_again _ _ _ b2 M3 G3') as (b3 & R3 & F3). rewrite R3.
  destruct (Hagain (files a') b3 (links_added_refl _ _)
                   (eq_trans F3 (eq_trans F2 F1))) as [Hf Hs].
  auto.
Qed.

Section ImportTwice.

Variables data_dir source_path : path.
Hypothesis apart : relative_to data_dir source_path = None.

Lemma exists_source (f g : filesystem) (b : string) :
  links_added data_dir f g ->
  exists_ g (join source_path b) = exists_ f (join source_path b).
Proof.
  intro H. unfold exists_.
  rewrite (source_lookup_fs data_dir source_path apart f g b H). reflexivity.
Qed.

Lemma glob_source (f g : filesystem) (b ext : string) :
  links_added data_dir f g ->
  glob_ext g (join source_path b) ext = glob_ext f (join source_path b) ext.
Proof.
  intro H. unfold glob_ext.
  rewrite (source_listing_fs data_dir source_path apart f g b H). reflexivity.
Qed.

Lemma glob_exists (fs : filesystem) (d : path) (ext name : string) :
  In name (glob_ext fs d ext) -> exists_ fs (join d name) = true.
Proof.
  unfold glob_ext. intro H. apply in_map_iff in H.
  destruct H as ([nm n] & <- & Hin). apply filter_In in Hin.
  destruct Hin as [Hin _]. eapply listing_exists. exact Hin.
Qed.

Lemma data_replays (dep : string) :
  replays data_dir
    (_import_data_files false (join source_path "data") (join data_dir "data")
                        dep).
Proof.
  intro a. unfold _import_data_files, bind, get_files. cbv beta iota.
  set (body := data_entry false (join source_path "data") (join data_dir "data") dep).
  set (l := glob_ext (files a) (join source_path "data") ".CSV").
  set (P := fun p : path => exists name, In name l /\ p = join (join source_path "data") name).
  assert (Hstep : forall x, In x l ->
                            simple_step data_dir (body x) P).
  { intros name Hin. unfold body, data_entry.
    destruct (PyStr.endswith name (dep ++ ".CSV")).
    - right. right. exists (join (join source_path "data") name), "data", name.
      split; [exists name; auto|reflexivity].
    - left. reflexivity. }
  assert (Hsrc : forall p, P p -> exists_ (files a) p = true).
  { intros p (name & Hin & ->). eapply glob_exists. exact Hin. }
  destruct (loop_replays data_dir body P l Hstep a Hsrc) as [Hmono Hrep].
  destruct (exists_ (files a) (join source_path "data")) eqn:Ex; cbn [negb].
  - split; [exact Hmono|]. intros G b HG Hb.
    assert (HaG : links_added data_dir (files a) G)
      by (eapply links_added_trans; eassumption).
    rewrite Hb.
    rewrite !(exists_source _ _ "data" HaG), !(glob_source _ _ "data" _ HaG).
    rewrite Ex. cbn [negb]. apply Hrep; assumption.
  - cbn [ret fst snd]. split; [apply links_added_refl|]. intros G b HG Hb.
    rewrite Hb.
    rewrite !(exists_source _ _ "data" HG). rewrite Ex.
    cbn [negb ret fst snd]. auto.
Qed.

Lemma stills_replays :
  replays data_dir
    (_import_still_images (join source_path "stills") (join data_dir "stills")).
Proof.
  intro a. unfold _import_still_images, bind, get_files. cbv beta iota.
  set (body := still_entry (join data_dir "stills")).
  set (l := glob_ext (files a) (join source_path "stills") ".JPG").
  assert (Hstep : forall x, In x l ->
                            simple_step data_dir (body x) (fun _ => False)).
  { intros name Hin. right. left. exists NameError. reflexivity. }
  destruct (loop_replays data_dir body _ l Hstep a (fun p (H : False) => match H with end))
    as [Hmono Hrep].
  destruct (exists_ (files a) (join source_path "stills")) eqn:Ex; cbn [negb].
  - split; [exact Hmono|]. intros G b HG Hb.
    assert (HaG : links_added data_dir (files a) G)
      by (eapply links_added_trans; eassumption).
    rewrite Hb.
    rewrite !(exists_source _ _ "stills" HaG), !(glob_source _ _ "stills" _ HaG).
    rewrite Ex. cbn [negb]. apply Hrep; assumption.
  - cbn [ret fst snd]. split; [apply links_added_refl|]. intros G b HG Hb.
    rewrite Hb.
    rewrite !(exists_source _ _ "stills" HG). rewrite Ex.
    cbn [negb ret fst snd]. auto.
Qed.

Lemma video_replays :
  replays data_dir
    (_import_video_files false (join source_path "video") (join data_dir "video")).
Proof.
  intro a. unfold _import_video_files, iterdir, bind, get_files, exists_.
  cbv beta iota.
  set (body := video_entry false (join source_path "video") (join data_dir "video")).
  set (l := listing (files a) (join source_path "video")).
  set (P := fun p : path => exists name n, In (name, n) l /\ p = join (join source_path "video") name).
  assert (Hstep : forall x, In x l -> simple_step data_dir (body x) P).
  { intros [name n] Hin. unfold body, video_entry.
    destruct (is_file_node n); [|left; reflexivity].
    destruct (unpack_base_ext name) as [e|base];
      [right; left; exists e; reflexivity|].
    destruct (_ && _); [|left; reflexivity].
    right. right. exists (join (join source_path "video") name), "video", name.
    split; [exists name, n; auto|reflexivity]. }
  assert (Hsrc : forall p, P p -> exists_ (files a) p = true).
  { intros p (name & n & Hin & ->). eapply listing_exists. exact Hin. }
  destruct (loop_replays data_dir body P l Hstep a Hsrc) as [Hmono Hrep].
  assert (Hlook : forall G, links_added data_dir (files a) G ->
                            lookup G (join source_path "video") = lookup (files a) (join source_path "video")
                            /\ listing G (join source_path "video") = l).
  { intros G HG. split.
    - apply (source_lookup_fs data_dir source_path apart _ _ "video" HG).
    - apply (source_listing_fs data_dir source_path apart _ _ "video" HG). }
  destruct (lookup (files a) (join source_path "video")) as [[|i]|] eqn:Ex;
    cbn [negb]; cbv beta iota; rewrite ?Ex.
  - cbn [ret]. split; [exact Hmono|]. intros G b HG Hb.
    destruct (Hlook G (links_added_trans _ _ _ _ Hmono HG)) as [H1 H2].
    subst G. rewrite H1. cbn [negb]. cbv beta iota. rewrite H1, H2.
    apply Hrep; auto.
  - cbn [raise fst snd]. split; [apply links_added_refl|].
    intros G b HG Hb. destruct (Hlook G HG) as [H1 _].
    subst G. rewrite H1. cbn [negb]. cbv beta iota. rewrite H1.
    cbn [raise fst snd]. auto.
  - cbn [ret fst snd]. split; [apply links_added_refl|].
    intros G b HG Hb. destruct (Hlook G HG) as [H1 _].
    subst G. rewrite H1. cbn [negb ret fst snd]. auto.
Qed.

Lemma import_twice_files (s : state) :
  fst (_import false data_dir source_path
               (snd (_import false data_dir source_path s)))
  = fst (_import false data_dir source_path s)
  /\ files (snd (_import false data_dir source_path
                         (snd (_import false data_dir source_path s))))
     = files (snd (_import false data_dir source_path s)).
Proof.
  unfold _import. cbv zeta.
  apply (import_shape_twice data_dir).
  apply replays_bind; [apply data_replays|].
  apply replays_bind; [apply stills_replays|apply video_replays].
Qed.

End ImportTwice.

Lemma refusals_only (l : list log_entry) :
  created l = [] -> forallb is_link_line l = true ->
  forallb is_refusal l = true.
Proof.
  induction l as [|e l IH]; simpl; [reflexivity|].
  destruct e; simpl; try discriminate; intros Hc Hl; auto.
Qed.

(** Running the import a second time, when the source root is not inside
    the data directory: the second run ends as the first did (normally, or
    with the same exception), leaves the file system as the first run left
    it, and logs only refusals ("already exists" warnings and link
    failures), never a created link. *)
Theorem import_twice_changes_nothing :
  forall (data_dir source_path : path) (s : state),
    relative_to data_dir source_path = None ->
    fst (_import false data_dir source_path
                 (snd (_import false data_dir source_path s)))
    = fst (_import false data_dir source_path s)
    /\ files (snd (_import false data_dir source_path
                           (snd (_import false data_dir source_path s))))
       = files (snd (_import false data_dir source_path s))
    /\ exists l,
        log (snd (_import false data_dir source_path
                          (snd (_import false data_dir source_path s))))
        = log (snd (_import false data_dir source_path s)) ++ l
        /\ forallb is_refusal l = true.
Proof.
  intros data_dir source_path s apart.
  destruct (import_twice_files data_dir source_path apart s) as [Hout Hfiles].
  split; [exact Hout|]. split; [exact Hfiles|].
  destruct (import_accounted false data_dir source_path
              (snd (_import false data_dir source_path s)))
    as (l & more & Hlog & Hmore & Hreg & _ & Hlines).
  exists l. split; [exact Hlog|].
  rewrite Hfiles in Hmore.
  rewrite <- (app_nil_r (files (snd (_import false data_dir source_path s))))
    in Hmore at 1.
  apply app_inv_head in Hmore. subst more. simpl in Hreg.
  apply refusals_only; [|exact Hlines].
  symmetry in Hreg. apply map_eq_nil in Hreg. exact Hreg.
Qed.

(** * Properties of the processing phase *)

Lemma name_of_join (p : path) (name : string) : name_of (join p name) = name.
Proof. unfold name_of, join. apply last_last. Qed.

(** What [_process] writes is not correlated by [_package]: a thumbnail,
    whatever still image it is made from, and the overview image are not
    visual assets for the mapper, because their names carry the markers. *)
Theorem thumbnails_and_overview_not_correlated :
  forall (jpg thumbs data_dir : path) (n : node),
    is_visual_asset (join thumbs (thumbnail_name jpg)) n = false
    /\ is_visual_asset (overview_path data_dir) n = false.
Proof.
  intros jpg thumbs data_dir n. unfold is_visual_asset, overview_path. split.
  - rewrite name_of_join. unfold thumbnail_name.
    rewrite (contains_append "_THUMB" (stem jpg) (suffix jpg)).
    cbn [negb]. rewrite andb_false_r. reflexivity.
  - rewrite name_of_join.
    change (name_of (parent data_dir) ++ "_OVERVIEW.JPG")%string
      with (name_of (parent data_dir) ++ "_OVERVIEW" ++ ".JPG")%string.
    rewrite (contains_append "_OVERVIEW" (name_of (parent data_dir)) ".JPG").
    cbn [negb]. apply andb_false_r.
Qed.

Section ProcessProperties.

Context {img : ImageLib}.

Lemma attempted_app (l1 l2 : list process_log) :
  attempted (l1 ++ l2) = attempted l1 ++ attempted l2.
Proof. unfold attempted. apply flat_map_app. Qed.

(** The loop over the still images: one attempt per image, no overview
    line, and a [thumb_list] made of thumbnails of images named with SCP. *)
Lemma process_loop (stills thumbs : path) (names : list string) :
  forall (st : process_state) (thumb_list : list path),
    let out := fold_left (process_still stills thumbs) names (st, thumb_list) in
    exists l extra,
      p_log (fst out) = p_log st ++ l
      /\ attempted l = map (thumbnail_of stills thumbs) names
      /\ forallb (fun e => negb (is_overview_line e)) l = true
      /\ snd out = thumb_list ++ extra
      /\ Forall (fun p => exists name,
                     In name names
                     /\ PyStr.contains "SCP" name = true
                     /\ p = thumbnail_of stills thumbs name) extra.
Proof.
  induction names as [|name names IH]; intros st thumb_list; cbn zeta.
  - exists [], []. simpl. rewrite !app_nil_r. auto.
  - cbn [fold_left].
    destruct (process_still stills thumbs (st, thumb_list) name)
      as [st1 tl1] eqn:Estep.
    destruct (IH st1 tl1) as (l & extra & Hlog & Hatt & Hov & Htl & Hex).
    cbn zeta in *. unfold process_still in Estep.
    assert (Hex' : Forall (fun p => exists name0,
                             In name0 (name :: names)
                             /\ PyStr.contains "SCP" name0 = true
                             /\ p = thumbnail_of stills thumbs name0) extra).
    { eapply Forall_impl; [|exact Hex]. intros p (nm & Hin & Hs & Hp).
      exists nm. split; [right; exact Hin|]. auto. }
    destruct (resize_fit (join stills name)
                (join thumbs (thumbnail_name (join stills name))) (p_files st))
      as [[e|] fs'].
    + inversion Estep; subst st1 tl1. cbn [p_log] in Hlog.
      exists ([Info_thumbnail (thumbnail_of stills thumbs name);
               Exception_thumbnail name e] ++ l), extra.
      split; [rewrite Hlog, <- !app_assoc; reflexivity|].
      split; [rewrite attempted_app, Hatt; reflexivity|].
      split; [rewrite forallb_app, Hov; reflexivity|]. auto.
    + inversion Estep; subst st1 tl1. cbn [p_log] in Hlog.
      destruct (PyStr.contains "SCP" name) eqn:Escp.
      * exists ([Info_thumbnail (thumbnail_of stills thumbs name)] ++ l),
               ([thumbnail_of stills thumbs name] ++ extra).
        split; [rewrite Hlog, <- !app_assoc; reflexivity|].
        split; [rewrite attempted_app, Hatt; reflexivity|].
        split; [rewrite forallb_app, Hov; reflexivity|].
        split; [rewrite Htl, <- app_assoc; reflexivity|].
        constructor; [|exact Hex'].
        exists name. split; [left; reflexivity|]. auto.
      * exists ([Info_thumbnail (thumbnail_of stills thumbs name)] ++ l), extra.
        split; [rewrite Hlog, <- !app_assoc; reflexivity|].
        split; [rewrite attempted_app, Hatt; reflexivity|].
        split; [rewrite forallb_app, Hov; reflexivity|]. auto.
Qed.

(** Once the thumbnail directory is there, [_process] ends normally
    whatever the image collaborator raises, and it attempts one thumbnail
    for every still image of the pattern, in scan order: a failure for one
    image does not stop the others. *)
Theorem process_attempts_every_still :
  forall (data_dir : path) (st : process_state) (fs1 : filesystem),
    mkdir_exist_ok (join data_dir "thumbnails") (p_files st) = inr fs1 ->
    fst (_process data_dir st) = inr tt
    /\ exists l,
        p_log (snd (_process data_dir st)) = p_log st ++ l
        /\ attempted l
           = map (thumbnail_of (join data_dir "stills")
                               (join data_dir "thumbnails"))
                 (if exists_ fs1 (join data_dir "stills")
                  then glob_jpg fs1 (join data_dir "stills") else []).
Proof.
  intros data_dir st fs1 Hmk. unfold _process. rewrite Hmk. cbn zeta.
  set (stills := join data_dir "stills").
  set (thumbs := join data_dir "thumbnails").
  assert (Hloop : exists l,
             p_log (fst (if exists_ fs1 stills
                         then fold_left (process_still stills thumbs)
                                        (glob_jpg fs1 stills)
                                        (mkProcess fs1 (p_log st), [])
                         else (mkProcess fs1 (p_log st), [])))
             = p_log st ++ l
             /\ attempted l
                = map (thumbnail_of stills thumbs)
                      (if exists_ fs1 stills then glob_jpg fs1 stills else [])).
  { destruct (exists_ fs1 stills).
    - destruct (process_loop stills thumbs (glob_jpg fs1 stills)
                  (mkProcess fs1 (p_log st)) [])
        as (l & extra & Hlog & Hatt & _). exists l. auto.
    - exists []. simpl. rewrite app_nil_r. auto. }
  destruct Hloop as (l & Hlog & Hatt).
  destruct (if exists_ fs1 stills
            then fold_left (process_still stills thumbs) (glob_jpg fs1 stills)
                           (mkProcess fs1 (p_log st), [])
            else (mkProcess fs1 (p_log st), [])) as [st2 thumb_list].
  cbn [fst] in Hlog. destruct thumb_list as [|t thumb_list].
  - split; [reflexivity|]. exists l. auto.
  - destruct (create_grid_image (t :: thumb_list) (overview_path data_dir)
                                (p_files st2)) as [[e|] fs'];
      (split; [reflexivity|]); cbn [snd p_log]; rewrite Hlog.
    + exists (l ++ [Info_overview (overview_path data_dir);
                    Exception_overview e]).
      split; [rewrite <- !app_assoc; reflexivity|].
      rewrite attempted_app. simpl. rewrite app_nil_r. exact Hatt.
    + exists (l ++ [Info_overview (overview_path data_dir)]).
      split; [rewrite <- !app_assoc; reflexivity|].
      rewrite attempted_app. simpl. rewrite app_nil_r. exact Hatt.
Qed.

(** No overview without a thumbnail of an image named with SCP: when no
    still image of the pattern has SCP in its name, [_process] neither
    announces nor attempts the overview image, and the file system it leaves
    is the one left by the thumbnails. *)
Theorem overview_needs_scp_still :
  forall (data_dir : path) (st : process_state) (fs1 : filesystem),
    mkdir_exist_ok (join data_dir "thumbnails") (p_files st) = inr fs1 ->
    (forall name, In name (glob_jpg fs1 (join data_dir "stills")) ->
                  PyStr.contains "SCP" name = false) ->
    exists l,
      p_log (snd (_process data_dir st)) = p_log st ++ l
      /\ forallb (fun e => negb (is_overview_line e)) l = true
      /\ snd (_process data_dir st)
         = fst (if exists_ fs1 (join data_dir "stills")
                then fold_left (process_still (join data_dir "stills")
                                              (join data_dir "thumbnails"))
                               (glob_jpg fs1 (join data_dir "stills"))
                               (mkProcess fs1 (p_log st), [])
                else (mkProcess fs1 (p_log st), [])).
Proof.
  intros data_dir st fs1 Hmk Hscp. unfold _process. rewrite Hmk. cbn zeta.
  set (stills := join data_dir "stills") in *.
  set (thumbs := join data_dir "thumbnails") in *.
  destruct (exists_ fs1 stills).
  - destruct (process_loop stills thumbs (glob_jpg fs1 stills)
                (mkProcess fs1 (p_log st)) [])
      as (l & extra & Hlog & _ & Hov & Htl & Hex).
    cbn zeta in *.
    destruct (fold_left (process_still stills thumbs) (glob_jpg fs1 stills)
                        (mkProcess fs1 (p_log st), [])) as [st2 thumb_list].
    cbn [fst snd p_log] in *. subst thumb_list.
    destruct extra as [|t extra].
    + exists l. auto.
    + exfalso. inversion Hex as [|? ? (name & Hin & Hs & _) _]; subst.
      rewrite (Hscp name Hin) in Hs. discriminate.
  - exists []. simpl. rewrite app_nil_r. auto.
Qed.

End ProcessProperties.

(** ** The exceptions that leave the import *)

Lemma raises_with_bind {A B} (Q : exn -> state -> Prop) (m : M A)
    (k : A -> M B) :
  raises_with Q m -> (forall a, raises_with Q (k a)) ->
  raises_with Q (bind m k).
Proof.
  intros Hm Hk s e. unfold bind. specialize (Hm s).
  destruct (m s) as [[e'|a] s']; cbn [fst snd] in *.
  - intro H. inversion H; subst. apply Hm. reflexivity.
  - apply Hk.
Qed.

Lemma returns_raises_with {A} (Q : exn -> state -> Prop) (m : M A) :
  (forall s, exists a, fst (m s) = inr a) -> raises_with Q m.
Proof.
  intros Hm s e H. destruct (Hm s) as (a & Ha). congruence.
Qed.

Lemma raises_with_for_each {A} (Q : exn -> state -> Prop) (l : list A)
    (body : A -> M unit) :
  (forall a, raises_with Q (body a)) -> raises_with Q (for_each l body).
Proof.
  intro Hb. induction l as [|a l IH]; simpl.
  - intros s e H. discriminate.
  - apply raises_with_bind; [apply Hb|intros _; exact IH].
Qed.

(** [_create_hard_link] raises nothing, whatever [os.link] does. *)
Lemma link_never_raises (Q : exn -> state -> Prop) (dry_run : bool)
    (src dst : path) :
  raises_with Q (_create_hard_link dry_run src dst).
Proof.
  apply returns_raises_with. intro s. exists tt.
  exact (proj1 (link_requests dry_run src dst s)).
Qed.

Lemma link_grows (dry_run : bool) (src dst : path) (s : state) :
  grows (files s) (files (snd (_create_hard_link dry_run src dst s))).
Proof.
  unfold _create_hard_link, bind, note_request, get_files, put_files, emit,
    ret.
  destruct dry_run; cbn [negb fst snd]; cbv beta iota;
    cbn [files log requests]; [apply grows_refl|].
  destruct (os_link (files s) src dst) as [fs'| |] eqn:E;
    cbn [fst snd files]; try apply grows_refl.
  destruct (os_link_linked _ _ _ _ E) as (_ & i & _ & ->).
  eexists. reflexivity.
Qed.

(** The video loop only adds to the file system, and an exception that
    leaves it is the [ValueError] of a regular file whose name has no
    dot. *)
Lemma video_loop_raises (dry_run : bool) (src dst : path)
    (entries : list (string * node)) :
  forall s,
    grows (files s)
          (files (snd (for_each entries (video_entry dry_run src dst) s)))
    /\ forall e,
        fst (for_each entries (video_entry dry_run src dst) s) = inl e ->
        e = ValueError
        /\ exists name i, In (name, File i) entries
                          /\ PyStr.rfind "." name = None.
Proof.
  induction entries as [|x entries IH]; intro s.
  - split; [apply grows_refl|]. intros e H. discriminate.
  - rewrite for_each_cons.
    assert (Hg : grows (files s)
                       (files (snd (video_entry dry_run src dst x s)))).
    { destruct x as [name n]. unfold video_entry.
      destruct (is_file_node n); [|apply grows_refl].
      destruct (unpack_base_ext name); [apply grows_refl|].
      destruct (_ && _); [apply link_grows|apply grows_refl]. }
    destruct (video_entry_outcome dry_run src dst x s)
      as [(s1 & Hok) | (Hfail & Hfile & Hnodot)].
    + rewrite Hok in *. cbn [snd] in Hg. destruct (IH s1) as [Hg1 He1].
      split; [exact (grows_trans _ _ _ Hg Hg1)|].
      intros e H. destruct (He1 e H) as (-> & name & i & Hin & Hd).
      split; [reflexivity|]. exists name, i. split; [right; exact Hin|].
      exact Hd.
    + rewrite Hfail. cbn [fst snd]. split; [apply grows_refl|].
      intros e H. inversion H; subst e. split; [reflexivity|].
      destruct x as [name [|i]]; [discriminate|].
      exists name, i. split; [left; reflexivity|exact Hnodot].
Qed.

Lemma video_run (dry_run : bool) (src dst : path) (s : state) :
  _import_video_files dry_run src dst s
  = if negb (exists_ (files s) src) then (inr tt, s)
    else match lookup (files s) src with
         | Some (File _) => (inl OSError, s)
         | _ => for_each (listing (files s) src)
                         (video_entry dry_run src dst) s
         end.
Proof.
  unfold _import_video_files, iterdir, bind, get_files, raise, ret.
  cbv beta iota. destruct (negb _); [reflexivity|].
  destruct (lookup (files s) src) as [[|i]|]; reflexivity.
Qed.

Section ImportFailures.

Variables (dry_run : bool) (data_dir source_path : path).

Let Q := import_failure data_dir source_path.

Lemma mkdir_failure (b : string) :
  In b bucket_names -> raises_with Q (mkdir (join data_dir b)).
Proof.
  intros Hb s e. rewrite mkdir_run.
  destruct (mkdir_from [] (join data_dir b) (files s)) as [e1|f] eqn:E;
    cbn [fst snd]; [|discriminate].
  intro H. inversion H; subst e1. left.
  split; [exact (mkdir_from_raises _ _ _ _ E)|]. exists b. auto.
Qed.

Lemma data_failure (dst : path) (dep : string) :
  raises_with Q (_import_data_files dry_run (join source_path "data") dst dep).
Proof.
  unfold _import_data_files.
  apply raises_with_bind;
    [apply returns_raises_with; intro s; exists (files s); reflexivity|].
  intro fs.
  destruct (negb _);
    [apply returns_raises_with; intro s; exists tt; reflexivity|].
  apply raises_with_for_each. intro name. unfold data_entry.
  destruct (PyStr.endswith _ _);
    [apply link_never_raises
    |apply returns_raises_with; intro s; exists tt; reflexivity].
Qed.

Lemma stills_failure (dst : path) :
  raises_with Q (_import_still_images (join source_path "stills") dst).
Proof.
  intros s e. unfold _import_still_images, bind, get_files.
  cbv beta iota.
  destruct (negb (exists_ (files s) (join source_path "stills")));
    [discriminate|].
  destruct (glob_ext (files s) (join source_path "stills") ".JPG")
    as [|name names] eqn:E; cbn [for_each]; [discriminate|].
  unfold bind, still_entry, raise. cbn [fst snd]. intro H. inversion H.
  right. right. left. split; [reflexivity|]. rewrite E. discriminate.
Qed.

Lemma video_failure (dst : path) :
  raises_with Q (_import_video_files dry_run (join source_path "video") dst).
Proof.
  intros s e. rewrite video_run.
  destruct (negb (exists_ (files s) (join source_path "video")));
    [discriminate|].
  assert (Hloop :
            fst (for_each (listing (files s) (join source_path "video"))
                          (video_entry dry_run (join source_path "video") dst)
                          s) = inl e ->
            Q e (snd (for_each (listing (files s) (join source_path "video"))
                               (video_entry dry_run (join source_path "video")
                                            dst) s))).
  { destruct (video_loop_raises dry_run (join source_path "video") dst
                (listing (files s) (join source_path "video")) s)
      as [(more & Hg) Hl].
    intro H. destruct (Hl e H) as (-> & name & i & Hin & Hd).
    right. right. right. split; [reflexivity|]. exists name, i.
    split; [|exact Hd]. rewrite Hg, listing_app. apply in_or_app. left.
    exact Hin. }
  destruct (lookup (files s) (join source_path "video")) as [[|i]|] eqn:E;
    [exact Hloop| |exact Hloop].
  cbn [fst snd]. intro H. inversion H. right. left.
  split; [reflexivity|]. eauto.
Qed.

Lemma import_failures : raises_with Q (_import dry_run data_dir source_path).
Proof.
  unfold _import.
  repeat (apply raises_with_bind;
          [apply mkdir_failure; simpl; auto|intros _]).
  apply raises_with_bind; [apply data_failure|intros _].
  apply raises_with_bind; [apply stills_failure|intros _].
  apply video_failure.
Qed.

End ImportFailures.

(** No failure of a link leaves [_import]: [_create_hard_link] raises
    nothing, and an exception that leaves the import is raised by what the
    state it leaves shows: the [OSError] of a destination directory that
    cannot be made there, the [OSError] of scanning a regular file that
    stands where the video directory of the source should be, the
    [NameError] of the still-image loop on a source that has a name
    matching [*.JPG], or the [ValueError] of a regular file of the source's
    video directory whose name has no dot. *)
Theorem import_raises_only :
  forall (dry_run : bool) (data_dir source_path : path) (s : state) (e : exn),
    fst (_import dry_run data_dir source_path s) = inl e ->
    (forall src dst st, fst (_create_hard_link dry_run src dst st) = inr tt)
    /\ ((is_OSError e = true
         /\ exists b,
             In b bucket_names
             /\ mkdir_parents
                  (join data_dir b)
                  (files (snd (_import dry_run data_dir source_path s)))
                = inl e)
        \/ (e = OSError
            /\ exists i,
                lookup (files (snd (_import dry_run data_dir source_path s)))
                       (join source_path "video")
                = Some (File i))
        \/ (e = NameError
            /\ glob_ext (files (snd (_import dry_run data_dir source_path s)))
                        (join source_path "stills") ".JPG" <> [])
        \/ (e = ValueError
            /\ exists name i,
                In (name, File i)
                   (listing
                      (files (snd (_import dry_run data_dir source_path s)))
                      (join source_path "video"))
                /\ PyStr.rfind "." name = None))
    /\ (is_OSError e = true \/ e = NameError \/ e = ValueError).
Proof.
  intros dry_run data_dir source_path s e H.
  pose proof (import_failures dry_run data_dir source_path s e H) as Hq.
  split; [intros src dst st; exact (proj1 (link_requests _ _ _ _))|].
  split; [exact Hq|].
  destruct Hq as [(Ho & _)|[(-> & _)|[(-> & _)|(-> & _)]]]; auto.
Qed.

(** * The further properties on the example inputs *)

Module MoreRuns.

Import Examples MoreExamples.

Ltac among := vm_compute; repeat (first [left; reflexivity | right]).

Definition thumb_20_path : path :=
  thumbnail_of (join data_dir "stills") (join data_dir "thumbnails") still_20.

(** The manifest of the processed data directory. *)
Definition manifest_processed : @manifest ext :=
  Eval vm_compute in
    match fst (@_package ext processed data_dir) with
    | inr m => m
    | inl _ => []
    end.

Definition record_20 : record :=
  Eval vm_compute in nth 1 table (mkRecord 0 []).

Lemma manifest_entries_come_from_tree_run :
  fst (@_package ext processed data_dir) = inr manifest_processed
  /\ dict_get Runs.tag_path manifest_processed
     = Some (["IN2018_V06_001"; "data"; "IN2018_V06_TAG_001.CSV"], None, None)
  /\ exists rel i,
      In (Runs.tag_path, File i) processed
      /\ Runs.tag_path = data_dir ++ rel
      /\ rel <> []
      /\ ["IN2018_V06_001"; "data"; "IN2018_V06_TAG_001.CSV"]
         = second_to_last data_dir :: rel.
Proof.
  assert (H1 : fst (@_package ext processed data_dir) = inr manifest_processed)
    by (vm_compute; reflexivity).
  assert (H2 : dict_get Runs.tag_path manifest_processed
               = Some (["IN2018_V06_001"; "data"; "IN2018_V06_TAG_001.CSV"],
                       None, None)) by (vm_compute; reflexivity).
  split; [exact H1|]. split; [exact H2|].
  destruct (@manifest_entries_come_from_tree ext _ _ _ _ _ _ _ H1 H2)
    as (rel & i & Ha & Hb & Hc & Hd & _).
  exists rel, i. auto.
Defined.

(** A thumbnail written by [_process] passes through [_package]. *)
Lemma other_files_pass_through_run :
  selected_log processed data_dir = Some Runs.tag_path
  /\ @load_telemetry ext Runs.tag_path = inr table
  /\ fst (@_package ext processed data_dir) = inr manifest_processed
  /\ In (thumb_20_path, ["thumbnails"; thumbnail_name (join (join data_dir "stills") still_20)],
         File 100) (rglob processed data_dir)
  /\ is_visual_asset thumb_20_path (File 100) = false
  /\ dict_get thumb_20_path manifest_processed
     = Some (second_to_last data_dir
               :: ["thumbnails";
                   thumbnail_name (join (join data_dir "stills") still_20)],
             None, None).
Proof.
  assert (H1 : selected_log processed data_dir = Some Runs.tag_path)
    by (vm_compute; reflexivity).
  assert (H2 : @load_telemetry ext Runs.tag_path = inr table)
    by (vm_compute; reflexivity).
  assert (H3 : fst (@_package ext processed data_dir) = inr manifest_processed)
    by (vm_compute; reflexivity).
  assert (H4 : In (thumb_20_path,
                   ["thumbnails";
                    thumbnail_name (join (join data_dir "stills") still_20)],
                   File 100) (rglob processed data_dir)) by among.
  assert (H5 : is_visual_asset thumb_20_path (File 100) = false)
    by (vm_compute; reflexivity).
  repeat (split; [assumption|]).
  exact (@other_files_pass_through ext _ _ _ _ _ _ _ _ H1 H2 H3 H4 H5).
Defined.

Lemma manifest_records_come_from_table_run :
  selected_log processed data_dir = Some Runs.tag_path
  /\ @load_telemetry ext Runs.tag_path = inr table
  /\ fst (@_package ext processed data_dir) = inr manifest_processed
  /\ dict_get Runs.video_24_path manifest_processed
     = Some (["IN2018_V06_001"; "video"; video_24],
             Some [["20181120T120024Z"; "-44.2"; "147.1"; "1020.5"; "1.5"; "-0.5"]],
             Some record_20)
  /\ In record_20 table.
Proof.
  assert (H1 : selected_log processed data_dir = Some Runs.tag_path)
    by (vm_compute; reflexivity).
  assert (H2 : @load_telemetry ext Runs.tag_path = inr table)
    by (vm_compute; reflexivity).
  assert (H3 : fst (@_package ext processed data_dir) = inr manifest_processed)
    by (vm_compute; reflexivity).
  assert (H4 : dict_get Runs.video_24_path manifest_processed
               = Some (["IN2018_V06_001"; "video"; video_24],
                       Some [["20181120T120024Z"; "-44.2"; "147.1"; "1020.5";
                              "1.5"; "-0.5"]],
                       Some record_20)) by (vm_compute; reflexivity).
  repeat (split; [assumption|]).
  exact (proj1 (@manifest_records_come_from_table ext _ _ _ _ _ _ _ _ _
                  H1 H2 H3 H4)).
Defined.

Lemma missing_time_column_raises_KeyError_run :
  selected_log packaged data_dir = Some Runs.tag_path
  /\ @read_csv (Reference.externals no_time_column) Runs.tag_path
     = inr (mkCsv ["Time"; "Pres"] [["2018-11-20 12:00:10.250000"; "1020.5"]])
  /\ ~ In "FinalTime" ["Time"; "Pres"]
  /\ @_package (Reference.externals no_time_column) packaged data_dir
     = (inl KeyError, []).
Proof.
  assert (H1 : selected_log packaged data_dir = Some Runs.tag_path)
    by (vm_compute; reflexivity).
  assert (H2 : @read_csv (Reference.externals no_time_column) Runs.tag_path
               = inr (mkCsv ["Time"; "Pres"]
                            [["2018-11-20 12:00:10.250000"; "1020.5"]]))
    by reflexivity.
  assert (H3 : ~ In "FinalTime" ["Time"; "Pres"])
    by (intros [H|[H|[]]]; discriminate).
  repeat (split; [assumption|]).
  exact (@missing_time_column_raises_KeyError
           (Reference.externals no_time_column) _ _ _ _ H1 H2 H3).
Defined.

Lemma empty_table_aborts_on_video_run :
  selected_log packaged data_dir = Some Runs.tag_path
  /\ @read_csv (Reference.externals header_only) Runs.tag_path
     = inr (mkCsv columns [])
  /\ In "FinalTime" columns
  /\ In (Runs.video_24_path, ["video"; video_24], File 4)
        (rglob packaged data_dir)
  /\ is_visual_asset Runs.video_24_path (File 4) = true
  /\ PyStr.lower (suffix Runs.video_24_path) = ".mp4"
  /\ @target_of (Reference.externals header_only) Runs.video_24_path
     = inr ("20181120T120024Z", At ((Runs.noon + 24) * ns_per_second)%Z)
  /\ exists e, @_package (Reference.externals header_only) packaged data_dir
               = (inl e, []).
Proof.
  assert (H1 : selected_log packaged data_dir = Some Runs.tag_path)
    by (vm_compute; reflexivity).
  assert (H2 : @read_csv (Reference.externals header_only) Runs.tag_path
               = inr (mkCsv columns [])) by reflexivity.
  assert (H3 : In "FinalTime" columns) by (left; reflexivity).
  assert (H4 : In (Runs.video_24_path, ["video"; video_24], File 4)
                  (rglob packaged data_dir)) by among.
  assert (H5 : is_visual_asset Runs.video_24_path (File 4) = true)
    by reflexivity.
  assert (H6 : PyStr.lower (suffix Runs.video_24_path) = ".mp4")
    by reflexivity.
  assert (H7 : @target_of (Reference.externals header_only) Runs.video_24_path
               = inr ("20181120T120024Z", At ((Runs.noon + 24) * ns_per_second)%Z))
    by (vm_compute; reflexivity).
  repeat (split; [assumption|]).
  exact (proj2 (proj2 (@empty_table_aborts_on_video
                         (Reference.externals header_only)
                         _ _ _ _ _ _ _ _ _ H1 H2 H3 eq_refl H4 H5 H6 H7))).
Defined.

Lemma import_keeps_existing_paths_run :
  lookup source_tree (join (join source_path "video") video_24) = Some (File 4)
  /\ lookup (files (snd (_import false data_dir source_path
                                 (initial source_tree))))
            (join (join source_path "video") video_24) = Some (File 4).
Proof.
  assert (H : lookup source_tree (join (join source_path "video") video_24)
              = Some (File 4)) by reflexivity.
  split; [exact H|].
  exact (import_keeps_existing_paths false data_dir source_path
           (initial source_tree) _ _ H).
Defined.

Lemma video_import_requests_run :
  is_dir source_tree (join source_path "video") = true
  /\ Forall (fun e => is_file_node (snd e) = true ->
                      In "."%char (list_ascii_of_string (fst e)))
            (listing source_tree (join source_path "video"))
  /\ requests (snd (_import_video_files false (join source_path "video")
                                        (join data_dir "video")
                                        (initial source_tree)))
     = [(join (join source_path "video") video_24,
         join (join data_dir "video") video_24)].
Proof.
  assert (H1 : is_dir source_tree (join source_path "video") = true)
    by reflexivity.
  assert (H2 : Forall (fun e => is_file_node (snd e) = true ->
                                In "."%char (list_ascii_of_string (fst e)))
                      (listing source_tree (join source_path "video"))).
  { vm_compute. constructor; [|constructor]. intros _.
    repeat (first [left; reflexivity | right]). }
  split; [exact H1|]. split; [exact H2|].
  exact (proj2 (video_import_requests false (join source_path "video")
                  (join data_dir "video") (initial source_tree) H1 H2)).
Defined.

(** A name [..._Z.MP4] is skipped. *)
Lemma video_sentinel_rule_run :
  ~ In "."%char (list_ascii_of_string "MP4")
  /\ video_entry false (join source_path "video") (join data_dir "video")
                 ("MRITC_SVY_IN2018_V06_001_Z.MP4", File 4)
                 (initial source_tree)
     = (inr tt, initial source_tree).
Proof.
  assert (H : ~ In "."%char (list_ascii_of_string "MP4"))
    by (intros [H|[H|[H|[]]]]; discriminate).
  split; [exact H|].
  exact (proj1 (video_sentinel_rule false (join source_path "video")
                  (join data_dir "video") "MRITC_SVY_IN2018_V06_001" "MP4" 4
                  (initial source_tree) H)).
Defined.

Lemma import_twice_changes_nothing_run :
  relative_to data_dir source_path = None
  /\ files (snd (_import false data_dir source_path
                         (snd (_import false data_dir source_path
                                       (initial source_with_still)))))
     = files (snd (_import false data_dir source_path
                           (initial source_with_still))).
Proof.
  assert (H : relative_to data_dir source_path = None) by reflexivity.
  split; [exact H|].
  exact (proj1 (proj2 (import_twice_changes_nothing data_dir source_path
                         (initial source_with_still) H))).
Defined.

(** The unreadable image does not stop the thumbnails of the others. *)
Lemma process_attempts_every_still_run :
  mkdir_exist_ok (join data_dir "thumbnails") with_bad
  = inr (with_bad ++ [(join data_dir "thumbnails", Dir)])
  /\ fst (@_process painter data_dir (mkProcess with_bad [])) = inr tt
  /\ exists l,
      p_log (snd (@_process painter data_dir (mkProcess with_bad []))) = l
      /\ attempted l
         = map (thumbnail_of (join data_dir "stills")
                             (join data_dir "thumbnails"))
               [still_bad; still_20; still_25; still_scp].
Proof.
  assert (H : mkdir_exist_ok (join data_dir "thumbnails")
                             (p_files (mkProcess with_bad []))
              = inr (with_bad ++ [(join data_dir "thumbnails", Dir)]))
    by (vm_compute; reflexivity).
  split; [exact H|].
  destruct (@process_attempts_every_still painter data_dir
              (mkProcess with_bad []) _ H) as (Hok & l & Hlog & Hatt).
  split; [exact Hok|]. exists l. split; [exact Hlog|].
  rewrite Hatt. vm_compute. reflexivity.
Defined.

Lemma overview_needs_scp_still_run :
  mkdir_exist_ok (join data_dir "thumbnails") packaged
  = inr (packaged ++ [(join data_dir "thumbnails", Dir)])
  /\ (forall name,
         In name (glob_jpg (packaged ++ [(join data_dir "thumbnails", Dir)])
                           (join data_dir "stills")) ->
         PyStr.contains "SCP" name = false)
  /\ exists l,
      p_log (snd (@_process painter data_dir (mkProcess packaged []))) = l
      /\ forallb (fun e => negb (is_overview_line e)) l = true.
Proof.
  assert (H1 : mkdir_exist_ok (join data_dir "thumbnails")
                              (p_files (mkProcess packaged []))
               = inr (packaged ++ [(join data_dir "thumbnails", Dir)]))
    by (vm_compute; reflexivity).
  assert (H2 : forall name,
             In name (glob_jpg (packaged ++ [(join data_dir "thumbnails", Dir)])
                               (join data_dir "stills")) ->
             PyStr.contains "SCP" name = false).
  { intros name Hin. vm_compute in Hin.
    destruct Hin as [<-|[<-|[]]]; vm_compute; reflexivity. }
  split; [exact H1|]. split; [exact H2|].
  destruct (@overview_needs_scp_still painter data_dir (mkProcess packaged [])
              _ H1 H2) as (l & Hlog & Hov & _).
  exists l. split; [exact Hlog|exact Hov].
Defined.

(** On the source with a still image the import ends with [NameError],
    and the state it leaves shows the name that the pattern yields. *)
Lemma import_raises_only_run :
  fst (_import false data_dir source_path (initial source_with_still))
  = inl NameError
  /\ glob_ext (files (snd (_import false data_dir source_path
                                   (initial source_with_still))))
              (join source_path "stills") ".JPG" <> [].
Proof.
  assert (H : fst (_import false data_dir source_path
                           (initial source_with_still)) = inl NameError)
    by (vm_compute; reflexivity).
  split; [exact H|].
  destruct (import_raises_only false data_dir source_path
              (initial source_with_still) NameError H)
    as (_ & [(Ho & _)|[(He & _)|[(_ & Hg)|(He & _)]]] & _);
    [discriminate Ho|discriminate He|exact Hg|discriminate He].
Defined.

End MoreRuns.
